(** * hwloc Level Zero backend (hwloc/topology-levelzero.c)

    A shallow embedding of the discovery pass of the Level Zero backend:
    the device registry ([hwloc_osdev_array]), the property and memory
    harvesters, the fabric-port registry and the bandwidth-matrix builder,
    together with the properties of the discovery pass proved on them.

    Conventions.
    - C [unsigned]/[uint32_t] values are integers in [Z]; every arithmetic
      operation of the source is followed by [uint32] (reduction modulo
      2^32). [uint64] does the same for [hwloc_uint64_t] and
      [unsigned long long].
    - [hwloc_obj_t] is a pointer into the object store of the topology:
      [0] is [NULL] and [S p] designates slot [p] of the store.
    - Behaviour that C leaves undefined (a store or load outside an array,
      a dereference of a pointer that designates no object) is the outcome
      [None] / [Undefined].
    - [hwloc_debug] prints nothing (non-debug build) and the [stderr]
      traces guarded by [HWLOC_SHOW_ALL_ERRORS()] have no effect on the
      state. The arguments of [hwloc_debug] are evaluated all the same:
      the reads of [osdev->name] through the owners recorded in the port
      registry (lines 681-687) are part of the model. *)

From Stdlib Require Import ZArith Lia Bool Ascii String.
From stdpp Require Import base option list strings pretty.

Local Open Scope Z_scope.

(** ** Machine integers *)

Definition uint32 (z : Z) : Z := z mod 2 ^ 32.
Definition uint64 (z : Z) : Z := z mod 2 ^ 64.

(** The conversion [(int)u] of an [unsigned] value. *)
Definition int_of_unsigned (u : Z) : Z :=
  if u <? 2 ^ 31 then u else u - 2 ^ 32.

(** ** C strings *)

Definition tolower (c : ascii) : ascii :=
  let n := N_of_ascii c in
  if ((65 <=? n) && (n <=? 90))%N then ascii_of_N (n + 32) else c.

Definition char_code (c : ascii) : Z := Z.of_N (N_of_ascii c).

(** The strings of the source are NUL-terminated character arrays: the C
    string held by an array is what precedes its first NUL character. *)
Fixpoint c_str (s : string) : string :=
  match s with
  | EmptyString => EmptyString
  | String c r => if char_code c =? 0 then EmptyString else String c (c_str r)
  end.

(** [strcmp]: the difference of the first two characters that differ,
    the end of an array counting as the character NUL. *)
Fixpoint strcmp (s1 s2 : string) : Z :=
  match s1, s2 with
  | EmptyString, EmptyString => 0
  | EmptyString, String c2 _ => 0 - char_code c2
  | String c1 _, EmptyString => char_code c1
  | String c1 r1, String c2 r2 =>
      if char_code c1 =? char_code c2
      then (if char_code c1 =? 0 then 0 else strcmp r1 r2)
      else char_code c1 - char_code c2
  end.

(** [strcasecmp]: [strcmp] on the lower-cased characters. *)
Fixpoint strcasecmp (s1 s2 : string) : Z :=
  match s1, s2 with
  | EmptyString, EmptyString => 0
  | EmptyString, String c2 _ => 0 - char_code (tolower c2)
  | String c1 _, EmptyString => char_code (tolower c1)
  | String c1 r1, String c2 r2 =>
      if char_code (tolower c1) =? char_code (tolower c2)
      then (if char_code (tolower c1) =? 0 then 0 else strcasecmp r1 r2)
      else char_code (tolower c1) - char_code (tolower c2)
  end.

Fixpoint lowercase (s : string) : string :=
  match s with
  | EmptyString => EmptyString
  | String c r => String (tolower c) (lowercase r)
  end.

Definition is_space (c : ascii) : bool :=
  let n := N_of_ascii c in ((n =? 32) || ((9 <=? n) && (n <=? 13)))%N.

Definition digit_of (c : ascii) : option Z :=
  let n := N_of_ascii c in
  if ((48 <=? n) && (n <=? 57))%N then Some (Z.of_N n - 48) else None.

Fixpoint atoi_digits (s : string) (acc : Z) : Z :=
  match s with
  | String c r =>
      match digit_of c with
      | Some d => atoi_digits r (10 * acc + d)
      | None => acc
      end
  | EmptyString => acc
  end.

Fixpoint atoi_skip (s : string) : string :=
  match s with
  | String c r => if is_space c then atoi_skip r else s
  | EmptyString => s
  end.

(** [atoi]: leading white space, an optional sign, then decimal digits.
    The value is the mathematical one; callers reduce it to their type.
    C leaves [atoi] undefined when the value does not fit its result
    type: the model is that of the libc for the values below 2^32 that
    the pass writes with ["%u"], with an [int] of 32 bits and a [long] of
    64 bits; beyond the range of [long] the libc saturates and the model
    does not. *)
Definition atoi (s : string) : Z :=
  match atoi_skip s with
  | String "-"%char r => - atoi_digits r 0
  | String "+"%char r => atoi_digits r 0
  | t => atoi_digits t 0
  end.

(** [snprintf] with [%u] / [%llu]; none of the buffers of the source
    truncates the numbers it is given. *)
Definition fmt_u (z : Z) : string := pretty z.

Definition hex_digit (n : Z) : ascii :=
  match n with
  | 0 => "0" | 1 => "1" | 2 => "2" | 3 => "3" | 4 => "4" | 5 => "5"
  | 6 => "6" | 7 => "7" | 8 => "8" | 9 => "9" | 10 => "a" | 11 => "b"
  | 12 => "c" | 13 => "d" | 14 => "e" | _ => "f"
  end%char.

(** [%02x] of one byte. *)
Definition fmt_02x (b : Z) : string :=
  String (hex_digit (b mod 256 / 16)) (String (hex_digit (b mod 16)) EmptyString).

Fixpoint fmt_x_go (fuel : nat) (z : Z) (acc : string) : string :=
  match fuel with
  | O => acc
  | S f =>
      let acc' := String (hex_digit (z mod 16)) acc in
      if z / 16 =? 0 then acc' else fmt_x_go f (z / 16) acc'
  end.

(** [%lx] of a 64-bit value. *)
Definition fmt_lx (z : Z) : string := fmt_x_go 16 (uint64 z) EmptyString.

(** ** Topology objects *)

Abbreviation hwloc_obj_t := nat (only parsing).
Definition NULL : hwloc_obj_t := 0%nat.

Inductive hwloc_obj_type_t :=
| HWLOC_OBJ_MACHINE
| HWLOC_OBJ_PCI_DEVICE
| HWLOC_OBJ_OS_DEVICE
| HWLOC_OBJ_MISC.

Record hwloc_obj := {
  obj_type : hwloc_obj_type_t;
  obj_name : string;
  obj_subtype : string;
  obj_infos : list (string * string);
  (* attr->pcidev.linkspeed is a float: the model keeps the reported
     maxBandwidth (bytes/s) it is computed from, 0 when never set *)
  obj_linkspeed_bw : Z
}.

Abbreviation obj_store := (list hwloc_obj) (only parsing).

Definition deref (st : obj_store) (p : hwloc_obj_t) : option hwloc_obj :=
  match p with
  | O => None
  | S i => st !! i
  end.

Definition update_obj (st : obj_store) (p : hwloc_obj_t) (o : hwloc_obj) : obj_store :=
  match p with
  | O => st
  | S i => <[i := o]> st
  end.

(** Modelled from the spec: [hwloc_obj_get_info_by_name] of the hwloc core
    (key-value string attributes of a node); the value of the first
    attribute with that name, [None] for the C [NULL]. *)
Fixpoint get_info_by_name (infos : list (string * string)) (name : string) : option string :=
  match infos with
  | [] => None
  | (k, v) :: rest => if String.eqb k name then Some v else get_info_by_name rest name
  end.

Definition hwloc_obj_get_info_by_name (st : obj_store) (p : hwloc_obj_t) (name : string)
  : option (option string) :=
  o ← deref st p; Some (get_info_by_name (obj_infos o) name).

(** Modelled from the spec: [hwloc_obj_add_info] of the hwloc core; the
    attribute is appended to the node's attributes. *)
Definition add_info (o : hwloc_obj) (name value : string) : hwloc_obj :=
  {| obj_type := obj_type o; obj_name := obj_name o; obj_subtype := obj_subtype o;
     obj_infos := obj_infos o ++ [(name, value)];
     obj_linkspeed_bw := obj_linkspeed_bw o |}.

Definition hwloc_obj_add_info (st : obj_store) (p : hwloc_obj_t) (name value : string)
  : option obj_store :=
  o ← deref st p; Some (update_obj st p (add_info o name value)).

(** ** Level Zero records (level_zero/ze_api.h, zes_api.h) *)

Abbreviation ze_result_t := Z (only parsing).
Definition ZE_RESULT_SUCCESS : ze_result_t := 0.

Definition succeeded (res : ze_result_t) : bool := res =? ZE_RESULT_SUCCESS.

Inductive ze_device_type_t :=
| ZE_DEVICE_TYPE_GPU
| ZE_DEVICE_TYPE_CPU
| ZE_DEVICE_TYPE_FPGA
| ZE_DEVICE_TYPE_MCA
| ZE_DEVICE_TYPE_VPU
| ZE_DEVICE_TYPE_other (raw : Z).

(** [ZE_DEVICE_PROPERTY_FLAG_SUBDEVICE] of level_zero/ze_api.h, [ZE_BIT(1)];
    [ZE_BIT(0)] is the integrated flag and [ZE_BIT(2)] the ECC flag. *)
Definition ZE_DEVICE_PROPERTY_FLAG_SUBDEVICE : Z := 2.
Definition ZE_MAX_DEVICE_UUID_SIZE : nat := 16.

Record ze_device_properties_t := {
  dp_type : ze_device_type_t;
  dp_flags : Z;
  dp_numSlices : Z;
  dp_numSubslicesPerSlice : Z;
  dp_numEUsPerSubslice : Z;
  dp_numThreadsPerEU : Z;
  dp_uuid : list Z
}.

Record zes_device_properties_t := {
  vendorName : string;
  modelName : string;
  brandName : string;
  serialNumber : string;
  boardNumber : string
}.

Record ze_command_queue_group_properties_t := {
  cq_flags : Z;
  cq_numQueues : Z
}.

Inductive zes_mem_type_t :=
| ZES_MEM_TYPE_HBM
| ZES_MEM_TYPE_DDR
| ZES_MEM_TYPE_DDR3
| ZES_MEM_TYPE_DDR4
| ZES_MEM_TYPE_DDR5
| ZES_MEM_TYPE_LPDDR
| ZES_MEM_TYPE_LPDDR3
| ZES_MEM_TYPE_LPDDR4
| ZES_MEM_TYPE_LPDDR5
| ZES_MEM_TYPE_other (raw : Z).

Record zes_mem_properties_t := {
  mem_type : zes_mem_type_t;
  mem_onSubdevice : bool;
  mem_subdeviceId : Z;
  physicalSize : Z
}.

Record zes_mem_state_t := { mem_state_size : Z }.

Record zes_fabric_port_id_t := {
  fabricId : Z;
  attachId : Z;
  portNumber : Z
}.

Inductive zes_fabric_port_status_t :=
| ZES_FABRIC_PORT_STATUS_UNKNOWN
| ZES_FABRIC_PORT_STATUS_HEALTHY
| ZES_FABRIC_PORT_STATUS_DEGRADED
| ZES_FABRIC_PORT_STATUS_FAILED
| ZES_FABRIC_PORT_STATUS_DISABLED.

Record zes_fabric_port_properties_t := {
  port_model : string;
  port_onSubdevice : bool;
  port_subdeviceId : Z;
  portId : zes_fabric_port_id_t
}.

Record zes_fabric_port_state_t := {
  status : zes_fabric_port_status_t;
  remotePortId : zes_fabric_port_id_t;
  rxSpeed_bitRate : Z
}.

Record zes_pci_address_t := {
  pci_domain : Z;
  pci_bus : Z;
  pci_device : Z;
  pci_function : Z
}.

Record zes_pci_properties_t := {
  pci_address : zes_pci_address_t;
  pci_maxBandwidth : Z
}.

Global Instance hwloc_obj_type_eq_dec : EqDecision hwloc_obj_type_t.
Proof. solve_decision. Defined.
Global Instance zes_fabric_port_status_eq_dec : EqDecision zes_fabric_port_status_t.
Proof. solve_decision. Defined.

(** ** The state of a discovery pass *)

(** What the C allocator answers to one [malloc]/[realloc]/[calloc]:
    failure, or a block whose bytes are whatever the allocator left there
    ([stale], read as an array of object pointers; slots past the end of
    [stale] read as [NULL]). [calloc] zeroes the block it returns. *)
Inductive alloc_outcome :=
| ENOMEM
| Block (stale : list hwloc_obj_t).

Record world := {
  w_objs : obj_store;                            (* the objects of the topology *)
  w_tree : list (hwloc_obj_t * hwloc_obj_t);     (* (parent, child) insertions, oldest first *)
  w_heap : list alloc_outcome;                   (* answers of the next allocations *)
  w_backend : list bool;                         (* success of the next distances-backend calls *)
  w_distances : list (string * list hwloc_obj_t * list Z)  (* committed distance datasets *)
}.

Inductive outcome (A : Type) :=
| Ret (a : A) (w : world)
| Undefined.
Arguments Ret {A} a w.
Arguments Undefined {A}.

Definition M (A : Type) : Type := world -> outcome A.

Global Instance M_ret : MRet M := fun A a w => Ret a w.
Global Instance M_bind : MBind M := fun A B f m w =>
  match m w with
  | Ret a w' => f a w'
  | Undefined => Undefined
  end.

Definition undefined {A} : M A := fun _ => Undefined.

Definition lift {A} (o : option A) : M A :=
  match o with
  | Some a => mret a
  | None => undefined
  end.

Definition get_objs : M obj_store := fun w => Ret (w_objs w) w.

Definition set_objs (st : obj_store) : M unit := fun w =>
  Ret tt {| w_objs := st; w_tree := w_tree w; w_heap := w_heap w;
            w_backend := w_backend w; w_distances := w_distances w |}.

(** One call to the C allocator; an exhausted script answers with a
    zero-filled block. *)
Definition alloc : M alloc_outcome := fun w =>
  match w_heap w with
  | [] => Ret (Block []) w
  | a :: rest =>
      Ret a {| w_objs := w_objs w; w_tree := w_tree w; w_heap := rest;
               w_backend := w_backend w; w_distances := w_distances w |}
  end.

(** One call into the distances backend of the hwloc core. *)
Definition backend_call : M bool := fun w =>
  match w_backend w with
  | [] => Ret true w
  | b :: rest =>
      Ret b {| w_objs := w_objs w; w_tree := w_tree w; w_heap := w_heap w;
               w_backend := rest; w_distances := w_distances w |}
  end.

(** Modelled from the spec: [hwloc_alloc_setup_object] of the hwloc core
    (tree node creation); a fresh object at the end of the store. *)
Definition hwloc_alloc_setup_object (ty : hwloc_obj_type_t) : M hwloc_obj_t := fun w =>
  let o := {| obj_type := ty; obj_name := EmptyString; obj_subtype := EmptyString;
              obj_infos := []; obj_linkspeed_bw := 0 |} in
  Ret (S (length (w_objs w)))
      {| w_objs := w_objs w ++ [o]; w_tree := w_tree w; w_heap := w_heap w;
         w_backend := w_backend w; w_distances := w_distances w |}.

(** Modelled from the spec: [hwloc_insert_object_by_parent] of the hwloc
    core (node insertion under a given parent); both pointers must
    designate objects. *)
Definition hwloc_insert_object_by_parent (parent obj : hwloc_obj_t) : M unit := fun w =>
  match deref (w_objs w) parent, deref (w_objs w) obj with
  | Some _, Some _ =>
      Ret tt {| w_objs := w_objs w; w_tree := w_tree w ++ [(parent, obj)];
                w_heap := w_heap w; w_backend := w_backend w;
                w_distances := w_distances w |}
  | _, _ => Undefined
  end.

Definition obj_add_info (p : hwloc_obj_t) (name value : string) : M unit :=
  st ← get_objs; st' ← lift (hwloc_obj_add_info st p name value); set_objs st'.

Definition modify_obj (p : hwloc_obj_t) (f : hwloc_obj -> hwloc_obj) : M unit :=
  st ← get_objs; o ← lift (deref st p); set_objs (update_obj st p (f o)).

Fixpoint fold_opt {A S : Type} (f : A -> S -> option S) (l : list A) (s : S) : option S :=
  match l with
  | [] => Some s
  | a :: l' => s' ← f a s; fold_opt f l' s'
  end.

(** ** The device registry (struct hwloc_osdev_array) *)

Record hwloc_osdev_array := {
  nr : Z;
  nr_allocated : Z;
  objs : list hwloc_obj_t     (* the allocated slots; [[]] for [NULL] *)
}.

Definition hwloc__levelzero_osdev_array_init : hwloc_osdev_array :=
  {| nr := 0; nr_allocated := 0; objs := [] |}.

(** [realloc] to [n] slots: the old contents up to [n], then fresh slots. *)
Definition realloc_slots {A : Type} (fresh : A) (old : list A) (n : Z) : list A :=
  take (Z.to_nat n) (old ++ replicate (Z.to_nat n - length old) fresh).

Definition hwloc__levelzero_osdev_array_add (array : hwloc_osdev_array) (new : hwloc_obj_t)
  : M (Z * hwloc_osdev_array) :=
  grown ← (if nr_allocated array =? nr array then
             let new_nr_allocated := uint32 (nr_allocated array + 40) in
             tmp ← alloc;
             match tmp with
             | ENOMEM => mret None      (* the object won't be added *)
             | Block _ =>
                 mret (Some {| nr := nr array; nr_allocated := new_nr_allocated;
                               objs := realloc_slots NULL (objs array) new_nr_allocated |})
             end
           else mret (Some array));
  match grown with
  | None => mret (-1, array)
  | Some a =>
      if decide (Z.to_nat (nr a) < length (objs a))%nat then
        mret (0, {| nr := uint32 (nr a + 1); nr_allocated := nr_allocated a;
                    objs := <[Z.to_nat (nr a) := new]> (objs a) |})
      else undefined
  end.

Fixpoint find_from (l : list hwloc_obj_t) (i : Z) (osdev : hwloc_obj_t) : Z :=
  match l with
  | [] => -1
  | x :: l' => if decide (x = osdev) then int_of_unsigned i else find_from l' (uint32 (i + 1)) osdev
  end.

(** The entries of the registry: its first [nr] slots. *)
Definition registry (array : hwloc_osdev_array) : list hwloc_obj_t :=
  take (Z.to_nat (nr array)) (objs array).

Definition hwloc__levelzero_osdev_array_find (array : hwloc_osdev_array) (osdev : hwloc_obj_t) : Z :=
  find_from (registry array) 0 osdev.

(** ** The fabric-port registry (struct hwloc_levelzero_ports) *)

Record hwloc_levelzero_port := {
  osdev : hwloc_obj_t;
  parent_osdev : hwloc_obj_t;
  props : zes_fabric_port_properties_t;
  state : zes_fabric_port_state_t
}.

(** [ports] holds the [hp_nr] captured entries. The slot of index [hp_nr]
    of the C array is scratch space until [hp_nr] is incremented, and every
    field of an entry is written in the iteration that captures it. *)
Record hwloc_levelzero_ports := {
  hp_nr_allocated : Z;
  hp_nr : Z;
  ports : list hwloc_levelzero_port
}.

Definition hwloc__levelzero_ports_init : hwloc_levelzero_ports :=
  {| hp_nr_allocated := 0; hp_nr := 0; ports := [] |}.

(** ** The bandwidth-matrix builder *)

Definition port_id_eqb (a b : zes_fabric_port_id_t) : bool :=
  (fabricId a =? fabricId b) && (attachId a =? attachId b) && (portNumber a =? portNumber b).

(** [bws[idx] += amount] on a [hwloc_uint64_t] array. *)
Definition bws_add (bws : list Z) (idx amount : Z) : option (list Z) :=
  old ← bws !! Z.to_nat idx; Some (<[Z.to_nat idx := uint64 (old + amount)]> bws).

(** [bws[idx] = v]. *)
Definition bws_set (bws : list Z) (idx v : Z) : option (list Z) :=
  _ ← bws !! Z.to_nat idx; Some (<[Z.to_nat idx := v]> bws).

(** The body of the inner loop (lines 677-705) for ports [pi] != [pj].
    When the three fields of the identities match, the arguments of the
    [hwloc_debug] call of lines 681-687 are evaluated: the names of the two
    owners are read through [osdev], whatever the model of the link is.
    The amount is [rxSpeed.bitRate >> 20]. *)
Definition connect_pair (st : obj_store) (oarray : hwloc_osdev_array)
    (pi pj : hwloc_levelzero_port) (acc : list Z * Z) : option (list Z * Z) :=
  let '(bws, gotbw) := acc in
  if port_id_eqb (remotePortId (state pi)) (portId (props pj)) then
    _ ← deref st (osdev pi);   (* hports->ports[i].osdev->name *)
    _ ← deref st (osdev pj);   (* hports->ports[j].osdev->name *)
    if negb (strcmp (port_model (props pj)) "XeLink" =? 0) then Some acc   (* only keep XeLink *)
    else
      let iindex := hwloc__levelzero_osdev_array_find oarray (osdev pi) in
      let jindex := hwloc__levelzero_osdev_array_find oarray (osdev pj) in
      if (iindex <? 0) || (jindex <? 0) then Some acc
      else
        bws1 ← bws_add bws (uint32 (iindex * nr oarray + jindex))
                       (Z.shiftr (rxSpeed_bitRate (state pi)) 20);
        if negb (Nat.eqb (parent_osdev pi) NULL) && negb (Nat.eqb (parent_osdev pj) NULL) then
          (* also accumulate in root devices *)
          let iindex := hwloc__levelzero_osdev_array_find oarray (parent_osdev pi) in
          let jindex := hwloc__levelzero_osdev_array_find oarray (parent_osdev pj) in
          if (iindex <? 0) || (jindex <? 0) then Some (bws1, gotbw)
          else
            bws2 ← bws_add bws1 (uint32 (iindex * nr oarray + jindex))
                           (Z.shiftr (rxSpeed_bitRate (state pi)) 20);
            Some (bws2, gotbw + 1)
        else Some (bws1, gotbw + 1)
  else Some acc.

Definition connect_row (st : obj_store) (oarray : hwloc_osdev_array)
    (hports : hwloc_levelzero_ports) (i : nat) (acc : list Z * Z) : option (list Z * Z) :=
  pi ← ports hports !! i;
  if decide (status (state pi) = ZES_FABRIC_PORT_STATUS_HEALTHY) then
    fold_opt (fun j acc =>
                if decide (i = j) then Some acc
                else pj ← ports hports !! j; connect_pair st oarray pi pj acc)
             (seq 0 (Z.to_nat (hp_nr hports))) acc
  else Some acc.

(** The accumulation loops (lines 672-708): the matrix and [gotbw]. *)
Definition ports_accumulate (st : obj_store) (oarray : hwloc_osdev_array)
    (hports : hwloc_levelzero_ports) (bws : list Z) : option (list Z * Z) :=
  fold_opt (connect_row st oarray hports) (seq 0 (Z.to_nat (hp_nr hports))) (bws, 0).

Definition LOCAL_BANDWIDTH : Z := 1000000.

(** [nrsd]: [atoi] of the "LevelZeroSubdevices" attribute, 0 without it. *)
Definition recorded_subdevices (st : obj_store) (p : hwloc_obj_t) : option Z :=
  s ← hwloc_obj_get_info_by_name st p "LevelZeroSubdevices";
  Some (match s with
        | Some v => uint32 (atoi v)
        | None => 0
        end).

(** Lines 727-729: [bws[(i+j)*nr+(i+k)] = 1000000] for [j], [k] below [nrsd+1]. *)
Definition fill_block (n i nrsd : Z) (bws : list Z) : option (list Z) :=
  let bound := Z.to_nat (uint32 (nrsd + 1)) in
  fold_opt (fun j bws =>
              fold_opt (fun k bws =>
                          bws_set bws (uint32 (uint32 (i + Z.of_nat j) * n + uint32 (i + Z.of_nat k)))
                                  LOCAL_BANDWIDTH)
                       (seq 0 bound) bws)
           (seq 0 bound) bws.

(** The outer walk (lines 721-732) from index [i]. The second component
    collects the indexes at which the walk lands, in order. *)
Fixpoint fill_loop (st : obj_store) (oarray : hwloc_osdev_array) (fuel : nat) (i : Z)
    (bws : list Z) (landed : list Z) : option (list Z * list Z) :=
  match fuel with
  | O => None
  | S fuel' =>
      if i <? nr oarray then
        p ← objs oarray !! Z.to_nat i;
        nrsd ← recorded_subdevices st p;
        bws' ← fill_block (nr oarray) i nrsd bws;
        (* skip subdevices, then the i++ of the loop *)
        fill_loop st oarray fuel' (uint32 (uint32 (i + nrsd) + 1)) bws' (landed ++ [i])
      else Some (bws, landed)
  end.

Definition synthetic_fill (st : obj_store) (oarray : hwloc_osdev_array) (bws : list Z)
  : option (list Z * list Z) :=
  fill_loop st oarray (S (Z.to_nat (nr oarray))) 0 bws [].

(** Modelled from the spec: the distance-dataset create / add-values /
    commit triple of the hwloc core; each call may fail, the commit stores
    the object list and the values. *)
Definition hwloc__levelzero_ports_add_xelink_bandwidth (oarray : hwloc_osdev_array)
    (bws : list Z) : M (Z * hwloc_osdev_array) :=
  handle ← backend_call;
  if negb handle then mret (-1, oarray)
  else
    added ← backend_call;
    if negb added then mret (-1, oarray)
    else
      (* arrays are now attached to the handle *)
      let oarray' := {| nr := nr oarray; nr_allocated := nr_allocated oarray; objs := [] |} in
      committed ← backend_call;
      if negb committed then mret (-1, oarray')
      else fun w =>
        Ret (0, oarray')
            {| w_objs := w_objs w; w_tree := w_tree w; w_heap := w_heap w;
               w_backend := w_backend w;
               w_distances := w_distances w ++ [("XeLinkBandwidth"%string, registry oarray, bws)] |}.

Definition hwloc__levelzero_ports_connect (oarray : hwloc_osdev_array)
    (hports : hwloc_levelzero_ports) : M (Z * hwloc_osdev_array) :=
  if hp_nr hports =? 0 then mret (0, oarray)
  else
    a ← alloc;
    match a with
    | ENOMEM => mret (-1, oarray)
    | Block _ =>
        let bws := replicate (Z.to_nat (uint32 (nr oarray * nr oarray))) 0 in
        st ← get_objs;
        '(bws1, gotbw) ← lift (ports_accumulate st oarray hports bws);
        if gotbw =? 0 then mret (0, oarray)
        else
          '(bws2, _) ← lift (synthetic_fill st oarray bws1);
          hwloc__levelzero_ports_add_xelink_bandwidth oarray bws2
    end.

(** ** The driver, as the answers it gives

    A handle is modelled by the answers the driver gives for it. An
    enumeration call is made twice by the source, for the count and for the
    handles: its answer is the result of each of the two calls and the
    handles, the count being their number. A failing call is not assumed
    to leave its output untouched: the count is written in any case. *)

Record mem_module := {
  zesMemoryGetProperties : ze_result_t * zes_mem_properties_t;
  zesMemoryGetState : ze_result_t * zes_mem_state_t
}.

Record fabric_port := {
  zesFabricPortGetProperties : ze_result_t * zes_fabric_port_properties_t;
  zesFabricPortGetState : ze_result_t * zes_fabric_port_state_t
}.

Record zes_device := {
  zesDeviceGetProperties : ze_result_t * zes_device_properties_t;
  zesDeviceEnumMemoryModules : ze_result_t * ze_result_t * list mem_module;
  zesDeviceEnumFabricPorts : ze_result_t * ze_result_t * list fabric_port;
  zesDevicePciGetProperties : ze_result_t * zes_pci_properties_t
}.

(** The answers common to a device and a subdevice handle. *)
Record ze_device_core := {
  zeDeviceGetProperties : ze_result_t * ze_device_properties_t;
  zeDeviceGetCommandQueueGroupProperties :
    ze_result_t * ze_result_t * list ze_command_queue_group_properties_t
}.

Record ze_device := {
  ze_core : ze_device_core;
  zeDeviceGetSubDevices : ze_result_t * ze_result_t * list ze_device_core;
  zeDevicePciGetPropertiesExt : ze_result_t * zes_pci_properties_t
}.

Record ze_driver := {
  zeDeviceGet : ze_result_t * ze_result_t * list ze_device
}.

(** [zesDriverGetDeviceByUuidExp] succeeds on the identities listed. *)
Record zes_driver := {
  zes_devices : list (list Z * zes_device)
}.

Record level_zero := {
  zeDriverGet : ze_result_t * ze_result_t * list ze_driver;
  zesDriverGet : ze_result_t * ze_result_t * list zes_driver
}.

Fixpoint zesDriverGetDeviceByUuidExp (devs : list (list Z * zes_device)) (uuid : list Z)
  : option zes_device :=
  match devs with
  | [] => None
  | (id, d) :: rest =>
      if decide (id = uuid) then Some d else zesDriverGetDeviceByUuidExp rest uuid
  end.

(** What the source reads of [struct hwloc_topology] and of the PCI layer
    of the hwloc core. *)
Record hwloc_topology := {
  (* hwloc_topology_get_flags(topology) & HWLOC_TOPOLOGY_FLAG_NO_DISTANCES *)
  topo_no_distances : bool;
  (* hwloc_get_root_obj *)
  topo_root : hwloc_obj_t;
  (* hwloc_pci_find_parent_by_busid; NULL for the addresses not listed *)
  topo_pci_parents : list (zes_pci_address_t * hwloc_obj_t);
  (* HWLOC_HAVE_ZEDEVICEPCIGETPROPERTIESEXT is defined *)
  topo_have_pci_ext : bool
}.

Definition pci_address_eqb (a b : zes_pci_address_t) : bool :=
  (pci_domain a =? pci_domain b) && (pci_bus a =? pci_bus b)
  && (pci_device a =? pci_device b) && (pci_function a =? pci_function b).

Fixpoint hwloc_pci_find_parent_by_busid (tbl : list (zes_pci_address_t * hwloc_obj_t))
    (a : zes_pci_address_t) : hwloc_obj_t :=
  match tbl with
  | [] => NULL
  | (b, p) :: rest => if pci_address_eqb a b then p else hwloc_pci_find_parent_by_busid rest a
  end.

(** ** The property harvester *)

Definition device_type_name (t : ze_device_type_t) : string :=
  match t with
  | ZE_DEVICE_TYPE_GPU => "GPU"
  | ZE_DEVICE_TYPE_CPU => "CPU"
  | ZE_DEVICE_TYPE_FPGA => "FPGA"
  | ZE_DEVICE_TYPE_MCA => "MCA"
  | ZE_DEVICE_TYPE_VPU => "VPU"
  | ZE_DEVICE_TYPE_other _ => "Unknown"
  end.

Definition fmt_uuid (id : list Z) : string :=
  foldr (fun i s => fmt_02x (nth i id 0) +:+ s) EmptyString (seq 0 ZE_MAX_DEVICE_UUID_SIZE).

(** Lines 73-79: the properties given by the caller, or the device's own. *)
Definition device_properties (zeh : ze_device_core) (prop : option ze_device_properties_t)
  : option ze_device_properties_t :=
  match prop with
  | Some p => Some p
  | None =>
      (* no properties were given, get ours *)
      let '(res, _prop) := zeDeviceGetProperties zeh in
      if succeeded res then Some _prop else None
  end.

(** [hwloc__levelzero_properties_get] only writes the object [osdev]
    points to: it is a function of that object. *)
Definition hwloc__levelzero_properties_get (zeh : ze_device_core) (zesh : zes_device)
    (prop : option ze_device_properties_t) (osdev : hwloc_obj) : hwloc_obj :=
  let '(osdev, is_subdevice) :=
    match device_properties zeh prop with
    | Some p =>
        let osdev := add_info osdev "LevelZeroDeviceType" (device_type_name (dp_type p)) in
        let osdev := add_info osdev "LevelZeroNumSlices" (fmt_u (dp_numSlices p)) in
        let osdev := add_info osdev "LevelZeroNumSubslicesPerSlice"
                              (fmt_u (dp_numSubslicesPerSlice p)) in
        let osdev := add_info osdev "LevelZeroNumEUsPerSubslice"
                              (fmt_u (dp_numEUsPerSubslice p)) in
        let osdev := add_info osdev "LevelZeroNumThreadsPerEU"
                              (fmt_u (dp_numThreadsPerEU p)) in
        let osdev := add_info osdev "LevelZeroUUID" (fmt_uuid (dp_uuid p)) in
        (osdev, negb (Z.land (dp_flags p) ZE_DEVICE_PROPERTY_FLAG_SUBDEVICE =? 0))
    | None => (osdev, false)
    end in
  if is_subdevice then
    (* sysman API on subdevice returns the same as root device *)
    osdev
  else
    (* try to get additional info from sysman if enabled *)
    let '(res, prop2) := zesDeviceGetProperties zesh in
    if succeeded res then
      (* old implementations may return "Unknown", recent may return "unknown" *)
      let osdev := if negb (strcasecmp (vendorName prop2) "Unknown" =? 0)
                   then add_info osdev "LevelZeroVendor" (c_str (vendorName prop2))
                   else osdev in
      let osdev := if negb (strcasecmp (modelName prop2) "Unknown" =? 0)
                   then add_info osdev "LevelZeroModel" (c_str (modelName prop2))
                   else osdev in
      let osdev := if negb (strcasecmp (brandName prop2) "Unknown" =? 0)
                   then add_info osdev "LevelZeroBrand" (c_str (brandName prop2))
                   else osdev in
      let osdev := if negb (strcasecmp (serialNumber prop2) "Unknown" =? 0)
                   then add_info osdev "LevelZeroSerialNumber" (c_str (serialNumber prop2))
                   else osdev in
      let osdev := if negb (strcasecmp (boardNumber prop2) "Unknown" =? 0)
                   then add_info osdev "LevelZeroBoardNumber" (c_str (boardNumber prop2))
                   else osdev in
      osdev
    else osdev.

Fixpoint cqgroup_infos (k : Z) (cqprops : list ze_command_queue_group_properties_t)
    (osdev : hwloc_obj) : hwloc_obj :=
  match cqprops with
  | [] => osdev
  | cq :: rest =>
      cqgroup_infos (k + 1) rest
        (add_info osdev ("LevelZeroCQGroup" +:+ fmt_u k)
                  (fmt_u (uint32 (cq_numQueues cq)) +:+ "*0x" +:+ fmt_lx (cq_flags cq)))
  end.

Definition hwloc__levelzero_cqprops_get (zeh : ze_device_core) (osdev : hwloc_obj_t) : M unit :=
  let '(res, res2, cqprops) := zeDeviceGetCommandQueueGroupProperties zeh in
  let nr_cqprops := Z.of_nat (length cqprops) in
  if negb (succeeded res) || (nr_cqprops =? 0) then mret tt
  else
    buf ← alloc;
    match buf with
    | ENOMEM => mret tt
    | Block _ =>
        if succeeded res2 then
          modify_obj osdev (fun o =>
            cqgroup_infos 0 cqprops (add_info o "LevelZeroCQGroups" (fmt_u nr_cqprops)))
        else mret tt
    end.

(** ** The memory harvester *)

(** The memory size the source works with for one module (lines 205-213):
    the physical size, or the size of the memory state when the physical
    size is zero and the state can be read. *)
Definition module_physicalSize (mh : mem_module) (mprop : zes_mem_properties_t) : Z :=
  if physicalSize mprop =? 0 then
    (* unknown, but memory state should have it *)
    let '(res, s) := zesMemoryGetState mh in
    if succeeded res then mem_state_size s else physicalSize mprop
  else physicalSize mprop.

(** The array [sub_osdevs] of the callers: [None] is the C [NULL]. *)
Abbreviation obj_array := (option (list hwloc_obj_t)) (only parsing).

(** The body of the loop over the memory modules (lines 198-258), on the
    object store and the two totals. *)
Definition memory_module (root_osdev : hwloc_obj_t) (nr_osdevs : Z) (sub_osdevs : obj_array)
    (mh : mem_module) (acc : obj_store * Z * Z) : option (obj_store * Z * Z) :=
  let '(st, totalHBMkB, totalDDRkB) := acc in
  let '(res, mprop) := zesMemoryGetProperties mh in
  if succeeded res then
    let size := module_physicalSize mh mprop in
    osdev ← (if mem_onSubdevice mprop then
               if (nr_osdevs <=? mem_subdeviceId mprop) || (nr_osdevs =? 0)
                  || negb (bool_decide (is_Some sub_osdevs))
               then Some NULL   (* we'll ignore it but still aggregate *)
               else subs ← sub_osdevs; subs !! Z.to_nat (mem_subdeviceId mprop)
             else Some root_osdev);
    let '(type, totalHBMkB, totalDDRkB) :=
      match mem_type mprop with
      | ZES_MEM_TYPE_HBM =>
          ("HBM"%string, uint64 (totalHBMkB + Z.shiftr size 10), totalDDRkB)
      | ZES_MEM_TYPE_DDR | ZES_MEM_TYPE_DDR3 | ZES_MEM_TYPE_DDR4 | ZES_MEM_TYPE_DDR5
      | ZES_MEM_TYPE_LPDDR | ZES_MEM_TYPE_LPDDR3 | ZES_MEM_TYPE_LPDDR4
      | ZES_MEM_TYPE_LPDDR5 =>
          ("DDR"%string, totalHBMkB, uint64 (totalDDRkB + Z.shiftr size 10))
      | ZES_MEM_TYPE_other _ => ("Memory"%string, totalHBMkB, totalDDRkB)
      end in
    if Nat.eqb osdev NULL || (size =? 0) then Some (st, totalHBMkB, totalDDRkB)
    else if negb (Nat.eqb osdev root_osdev) then
      (* set the subdevice memory immediately *)
      st' ← hwloc_obj_add_info st osdev ("LevelZero" +:+ type +:+ "Size")
                               (fmt_u (Z.shiftr size 10));
      Some (st', totalHBMkB, totalDDRkB)
    else Some (st, totalHBMkB, totalDDRkB)
  else Some acc.

Definition hwloc__levelzero_memory_get (zesh : zes_device) (root_osdev : hwloc_obj_t)
    (nr_osdevs : Z) (sub_osdevs : obj_array) : M Z :=
  let '(res, res2, mems) := zesDeviceEnumMemoryModules zesh in
  let nr_mems := Z.of_nat (length mems) in
  if negb (succeeded res) then mret (-1)   (* notify that sysman failed *)
  else if nr_mems =? 0 then mret 0
  else
    mh ← alloc;
    '(totalHBMkB, totalDDRkB) ←
      match mh with
      | ENOMEM => mret (0, 0)
      | Block _ =>
          if succeeded res2 then
            st ← get_objs;
            '(st', hbm, ddr) ← lift (fold_opt (memory_module root_osdev nr_osdevs sub_osdevs)
                                              mems (st, 0, 0));
            set_objs st';;
            mret (hbm, ddr)
          else mret (0, 0)
      end;
    (* set the root device memory at the end *)
    (if negb (totalHBMkB =? 0)
     then obj_add_info root_osdev "LevelZeroHBMSize" (fmt_u totalHBMkB) else mret tt);;
    (if negb (totalDDRkB =? 0)
     then obj_add_info root_osdev "LevelZeroDDRSize" (fmt_u totalDDRkB) else mret tt);;
    mret 0.

(** ** Capturing the fabric ports *)

Definition port_status_kept (s : zes_fabric_port_status_t) : bool :=
  match s with
  | ZES_FABRIC_PORT_STATUS_HEALTHY | ZES_FABRIC_PORT_STATUS_DEGRADED => true
  | _ => false
  end.

(** The body of the loop over the ports of one device (lines 337-376). *)
Definition capture_port (root_osdev : hwloc_obj_t) (nr_sub_osdevs : Z) (sub_osdevs : obj_array)
    (port : fabric_port) (hports : hwloc_levelzero_ports) : option hwloc_levelzero_ports :=
  let id := hp_nr hports in
  if id <? hp_nr_allocated hports then
    let '(res, p) := zesFabricPortGetProperties port in
    if negb (succeeded res) then Some hports
    else
      owner ← (if port_onSubdevice p then
                 if port_subdeviceId p <? nr_sub_osdevs then
                   subs ← sub_osdevs;
                   sub ← subs !! Z.to_nat (port_subdeviceId p);
                   Some (Some (sub, root_osdev))
                 else Some None   (* no such subdevice exists, ignoring *)
               else Some (Some (root_osdev, NULL)));
      match owner with
      | None => Some hports
      | Some (o, parent) =>
          let '(res, s) := zesFabricPortGetState port in
          if negb (succeeded res) then Some hports
          else if negb (port_status_kept (status s)) then Some hports
          else
            Some {| hp_nr_allocated := hp_nr_allocated hports;
                    hp_nr := uint32 (id + 1);
                    ports := ports hports ++
                             [{| osdev := o; parent_osdev := parent; props := p; state := s |}] |}
      end
  else None.

Definition hwloc__levelzero_ports_get (zesh : zes_device) (root_osdev : hwloc_obj_t)
    (nr_sub_osdevs : Z) (sub_osdevs : obj_array) (hports : hwloc_levelzero_ports)
  : M hwloc_levelzero_ports :=
  let '(res, res2, fports) := zesDeviceEnumFabricPorts zesh in
  let nr_new := Z.of_nat (length fports) in
  if negb (succeeded res) || (nr_new =? 0) then mret hports
  else
    extended ←
      (if uint32 (hp_nr_allocated hports - hp_nr hports) <? nr_new then
         (* we must extend the array *)
         tmp ← alloc;
         match tmp with
         | ENOMEM => mret None
         | Block _ =>
             mret (Some {| hp_nr_allocated := uint32 (hp_nr_allocated hports + 8 * nr_new);
                           hp_nr := hp_nr hports; ports := ports hports |})
         end
       else mret (Some hports));
    match extended with
    | None => mret hports
    | Some hports' =>
        handles ← alloc;
        match handles with
        | ENOMEM => mret hports'
        | Block _ =>
            (* the result of the second call is not tested: after a failure
               the handles are not initialised *)
            if succeeded res2
            then lift (fold_opt (capture_port root_osdev nr_sub_osdevs sub_osdevs) fports hports')
            else undefined
        end
    end.

(** ** Enumerating the devices *)

Fixpoint for_each {A S : Type} (body : Z -> A -> S -> M S) (i : Z) (l : list A) (s : S) : M S :=
  match l with
  | [] => mret s
  | a :: rest => s' ← body i a s; for_each body (i + 1) rest s'
  end.

(** [name = strdup(...)] and [subtype = strdup("LevelZero")]. *)
Definition set_name (name : string) (o : hwloc_obj) : hwloc_obj :=
  {| obj_type := obj_type o; obj_name := name; obj_subtype := "LevelZero";
     obj_infos := obj_infos o; obj_linkspeed_bw := obj_linkspeed_bw o |}.

Definition set_linkspeed (bw : Z) (o : hwloc_obj) : hwloc_obj :=
  {| obj_type := obj_type o; obj_name := obj_name o; obj_subtype := obj_subtype o;
     obj_infos := obj_infos o; obj_linkspeed_bw := bw |}.

(** The slots of a [malloc]ed array of [n] object pointers. *)
Definition block_slots (stale : list hwloc_obj_t) (n : Z) : list hwloc_obj_t :=
  take (Z.to_nat n) (stale ++ replicate (Z.to_nat n) NULL).

(** The body of the loop over the subdevices (lines 509-539). *)
Definition discover_subdevice (zesdr : zes_driver) (zeidx : Z) (k : Z) (subzeh : ze_device_core)
    (subosdevs : list hwloc_obj_t) : M (list hwloc_obj_t) :=
  let '(res, props) := zeDeviceGetProperties subzeh in
  if negb (succeeded res) then mret subosdevs
  else
    match zesDriverGetDeviceByUuidExp (zes_devices zesdr) (dp_uuid props) with
    | None => mret subosdevs
    | Some subzesh =>
        sub ← hwloc_alloc_setup_object HWLOC_OBJ_OS_DEVICE;
        modify_obj sub (set_name ("ze" +:+ fmt_u zeidx +:+ "." +:+ fmt_u k));;
        obj_add_info sub "LevelZeroSubdeviceID" (fmt_u k);;
        modify_obj sub (hwloc__levelzero_properties_get subzeh subzesh None);;
        hwloc__levelzero_cqprops_get subzeh sub;;
        mret (<[Z.to_nat k := sub]> subosdevs)
    end.

(** Lines 497-548: the subdevice count and the array of subdevice objects
    the rest of the device's iteration works with. *)
Definition discover_subdevices (zesdr : zes_driver) (zeidx : Z) (zeh : ze_device)
    (osdev : hwloc_obj_t) : M (Z * obj_array) :=
  let '(res, res2, subzehs) := zeDeviceGetSubDevices zeh in
  let nr_subdevices := Z.of_nat (length subzehs) in
  if succeeded res && (0 <? nr_subdevices) then
    obj_add_info osdev "LevelZeroSubdevices" (fmt_u nr_subdevices);;
    a_subzehs ← alloc;
    a_subosdevs ← alloc;
    match a_subzehs, a_subosdevs with
    | Block _, Block stale =>
        (* the result of the second call is not tested: after a failure
           the handles are not initialised *)
        if succeeded res2 then
          subosdevs ← for_each (discover_subdevice zesdr zeidx) 0 subzehs
                               (block_slots stale nr_subdevices);
          mret (nr_subdevices, Some subosdevs)
        else undefined
    | _, _ => mret (0, None)
    end
  else mret (nr_subdevices, None).

Definition pci_parent (topology : hwloc_topology) (answer : ze_result_t * zes_pci_properties_t)
  : M hwloc_obj_t :=
  let '(res, pci) := answer in
  if succeeded res then
    let parent := hwloc_pci_find_parent_by_busid (topo_pci_parents topology) (pci_address pci) in
    if Nat.eqb parent NULL then mret parent
    else
      st ← get_objs;
      o ← lift (deref st parent);
      (if bool_decide (obj_type o = HWLOC_OBJ_PCI_DEVICE) && (0 <? pci_maxBandwidth pci)
       then set_objs (update_obj st parent (set_linkspeed (pci_maxBandwidth pci) o))
       else mret tt);;
      mret parent
  else mret NULL.

(** Lines 557-594. *)
Definition resolve_parent (topology : hwloc_topology) (zeh : ze_device) (zesh : zes_device)
  : M hwloc_obj_t :=
  parent ← (if topo_have_pci_ext topology
            then pci_parent topology (zeDevicePciGetPropertiesExt zeh)   (* core extension *)
            else mret NULL);
  parent ← (if Nat.eqb parent NULL
            then pci_parent topology (zesDevicePciGetProperties zesh)    (* sysman *)
            else mret parent);
  mret (if Nat.eqb parent NULL then topo_root topology else parent).

(** Lines 604-608, for the slot [sub] of [subosdevs]. *)
Definition insert_subdevice (osdev : hwloc_obj_t) (sub : hwloc_obj_t)
    (s : Z * hwloc_osdev_array) : M (Z * hwloc_osdev_array) :=
  if Nat.eqb sub NULL then mret s
  else
    hwloc_insert_object_by_parent osdev sub;;
    r ← hwloc__levelzero_osdev_array_add (snd s) sub;
    mret (uint32 (fst s + 1), snd r).

Fixpoint insert_subdevices (osdev : hwloc_obj_t) (subosdevs : obj_array) (ks : list nat)
    (s : Z * hwloc_osdev_array) : M (Z * hwloc_osdev_array) :=
  match ks with
  | [] => mret s
  | k :: rest =>
      sub ← lift (subs ← subosdevs; subs !! k);
      s' ← insert_subdevice osdev sub s;
      insert_subdevices osdev subosdevs rest s'
  end.

(** Lines 596-611: the device, then its subdevices, go into the tree and
    into the registry. *)
Definition insert_device (parent osdev : hwloc_obj_t) (nr_subdevices : Z) (subosdevs : obj_array)
    (s : Z * hwloc_osdev_array) : M (Z * hwloc_osdev_array) :=
  hwloc_insert_object_by_parent parent osdev;;
  r ← hwloc__levelzero_osdev_array_add (snd s) osdev;
  let s' := (uint32 (fst s + 1), snd r) in
  if nr_subdevices =? 0 then mret s'
  else insert_subdevices osdev subosdevs (seq 0 (Z.to_nat nr_subdevices)) s'.

Record pass_state := {
  ps_zeidx : Z;
  ps_added : Z;
  ps_oarray : hwloc_osdev_array;
  ps_hports : hwloc_levelzero_ports
}.

(** The body of the loop over the devices of a driver (lines 455-612). *)
Definition discover_device (topology : hwloc_topology) (zesdr : zes_driver) (i j : Z)
    (zeh : ze_device) (s : pass_state) : M pass_state :=
  let '(res, props) := zeDeviceGetProperties (ze_core zeh) in
  if negb (succeeded res) then mret s
  else
    match zesDriverGetDeviceByUuidExp (zes_devices zesdr) (dp_uuid props) with
    | None => mret s
    | Some zesh =>
        osdev ← hwloc_alloc_setup_object HWLOC_OBJ_OS_DEVICE;
        modify_obj osdev (set_name ("ze" +:+ fmt_u (ps_zeidx s)));;
        obj_add_info osdev "LevelZeroDriverIndex" (fmt_u i);;
        obj_add_info osdev "LevelZeroDriverDeviceIndex" (fmt_u j);;
        modify_obj osdev (hwloc__levelzero_properties_get (ze_core zeh) zesh (Some props));;
        hwloc__levelzero_cqprops_get (ze_core zeh) osdev;;
        '(nr_subdevices, subosdevs) ← discover_subdevices zesdr (ps_zeidx s) zeh osdev;
        (* get all memory info at once *)
        hwloc__levelzero_memory_get zesh osdev nr_subdevices subosdevs;;
        (* get all ports info at once *)
        hports ← (if negb (topo_no_distances topology)
                  then hwloc__levelzero_ports_get zesh osdev nr_subdevices subosdevs (ps_hports s)
                  else mret (ps_hports s));
        parent ← resolve_parent topology zeh zesh;
        r ← insert_device parent osdev nr_subdevices subosdevs (ps_added s, ps_oarray s);
        mret {| ps_zeidx := uint32 (ps_zeidx s + 1); ps_added := fst r;
                ps_oarray := snd r; ps_hports := hports |}
    end.

(** The body of the loop over the drivers (lines 427-615). *)
Definition discover_driver (topology : hwloc_topology) (zesdrh : list zes_driver) (i : Z)
    (drh_i : ze_driver) (s : pass_state) : M pass_state :=
  let '(res, res2, dvh) := zeDeviceGet drh_i in
  let nbdevices := Z.of_nat (length dvh) in
  if negb (succeeded res) || (nbdevices =? 0) then mret s
  else
    a ← alloc;
    match a with
    | ENOMEM => mret s
    | Block _ =>
        if negb (succeeded res2) then mret s
        else
          zesdr ← lift (zesdrh !! Z.to_nat i);
          for_each (discover_device topology zesdr i) 0 dvh s
    end.

Definition hwloc__levelzero_devices_get (topology : hwloc_topology) (lz : level_zero)
    (oarray : hwloc_osdev_array) (hports : hwloc_levelzero_ports)
  : M (Z * hwloc_osdev_array * hwloc_levelzero_ports) :=
  let '(res, res2, drh) := zeDriverGet lz in
  let nbdrivers := Z.of_nat (length drh) in
  if negb (succeeded res) || (nbdrivers =? 0) then mret (0, oarray, hports)
  else
    let '(zres, zres2, zesdrh) := zesDriverGet lz in
    let i := Z.of_nat (length zesdrh) in
    if negb (succeeded zres) || negb (i =? nbdrivers) then mret (0, oarray, hports)
    else
      a_drh ← alloc;
      a_zesdrh ← alloc;
      match a_drh, a_zesdrh with
      | Block _, Block _ =>
          if negb (succeeded res2) then mret (0, oarray, hports)
          else if negb (succeeded zres2) then mret (0, oarray, hports)
          else
            s ← for_each (discover_driver topology zesdrh) 0 drh
                         {| ps_zeidx := 0; ps_added := 0;
                            ps_oarray := oarray; ps_hports := hports |};
            mret (int_of_unsigned (ps_added s), ps_oarray s, ps_hports s)
      | _, _ => mret (0, oarray, hports)
      end.

(** ** The discovery callback of the backend *)

Inductive hwloc_type_filter_e :=
| HWLOC_TYPE_FILTER_KEEP_ALL
| HWLOC_TYPE_FILTER_KEEP_NONE
| HWLOC_TYPE_FILTER_KEEP_STRUCTURE
| HWLOC_TYPE_FILTER_KEEP_IMPORTANT.

Inductive hwloc_disc_phase_t :=
| HWLOC_DISC_PHASE_GLOBAL
| HWLOC_DISC_PHASE_CPU
| HWLOC_DISC_PHASE_MEMORY
| HWLOC_DISC_PHASE_PCI
| HWLOC_DISC_PHASE_IO
| HWLOC_DISC_PHASE_MISC
| HWLOC_DISC_PHASE_ANNOTATE
| HWLOC_DISC_PHASE_TWEAK.

Global Instance hwloc_type_filter_eq_dec : EqDecision hwloc_type_filter_e.
Proof. solve_decision. Defined.

Global Instance hwloc_disc_phase_eq_dec : EqDecision hwloc_disc_phase_t.
Proof. solve_decision. Defined.

(** What the callback reads of its backend: the topology, and the filter
    of the topology for OS devices ([hwloc_topology_get_type_filter]). *)
Record hwloc_backend := {
  backend_topology : hwloc_topology;
  osdev_type_filter : hwloc_type_filter_e
}.

(** The Level Zero runtime: the results of the two initialisation calls
    and the answers of the driver. *)
Record ze_runtime := {
  zeInit : ze_result_t;
  zesInit : ze_result_t;
  ze_api : level_zero
}.

(** Modelled from the spec: [hwloc_modify_infos] of the hwloc core with
    [HWLOC_MODIFY_INFOS_OP_ADD], on the infos of the topology; the tag is
    appended to the topology-level metadata. *)
Definition hwloc_modify_infos_add (infos : list (string * string)) (name value : string)
  : list (string * string) :=
  infos ++ [(name, value)].

(** [hwloc_levelzero_discover] (lines 743-794). The infos of the topology
    are passed explicitly. The [assert] on the phase stops the program. *)
Definition hwloc_levelzero_discover (backend : hwloc_backend) (rt : ze_runtime)
    (phase : hwloc_disc_phase_t) (infos : list (string * string))
  : M (Z * list (string * string)) :=
  let topology := backend_topology backend in
  if negb (bool_decide (phase = HWLOC_DISC_PHASE_IO)) then undefined
  else if bool_decide (osdev_type_filter backend = HWLOC_TYPE_FILTER_KEEP_NONE)
  then mret (0, infos)
  else
    let oarray := hwloc__levelzero_osdev_array_init in
    let hports := hwloc__levelzero_ports_init in
    if negb (succeeded (zeInit rt)) then mret (0, infos)
    else if negb (succeeded (zesInit rt)) then mret (0, infos)
    else
      '(added, oarray, hports) ← hwloc__levelzero_devices_get topology (ze_api rt) oarray hports;
      hwloc__levelzero_ports_connect oarray hports;;
      (* hwloc__levelzero_ports_destroy, hwloc__levelzero_osdev_array_free *)
      mret (0, if 0 <? added
               then hwloc_modify_infos_add infos "Backend" "LevelZero"
               else infos).

(** * Vocabulary of the statements *)

(** ** Reasoning on the computations of [M] *)

Definition wp {A} (m : M A) (w : world) (Q : A -> world -> Prop) : Prop :=
  match m w with
  | Ret a w' => Q a w'
  | Undefined => True
  end.

Definition sysman_strings (prop2 : zes_device_properties_t) : list (string * string) :=
  [("LevelZeroVendor", vendorName prop2); ("LevelZeroModel", modelName prop2);
   ("LevelZeroBrand", brandName prop2); ("LevelZeroSerialNumber", serialNumber prop2);
   ("LevelZeroBoardNumber", boardNumber prop2)]%string.

Definition is_unknown (v : string) : Prop := lowercase (c_str v) = "unknown"%string.

(** ** The fabric-port registry only holds healthy or degraded ports *)

Definition kept_status (s : zes_fabric_port_status_t) : Prop :=
  s = ZES_FABRIC_PORT_STATUS_HEALTHY \/ s = ZES_FABRIC_PORT_STATUS_DEGRADED.

Definition healthy_or_degraded (e : hwloc_levelzero_port) : Prop :=
  kept_status (status (state e)).

Inductive memory_bucket := HBM_bucket | DDR_bucket.

Global Instance memory_bucket_eq_dec : EqDecision memory_bucket.
Proof. solve_decision. Defined.

Definition bucket_of (t : zes_mem_type_t) : option memory_bucket :=
  match t with
  | ZES_MEM_TYPE_HBM => Some HBM_bucket
  | ZES_MEM_TYPE_DDR | ZES_MEM_TYPE_DDR3 | ZES_MEM_TYPE_DDR4 | ZES_MEM_TYPE_DDR5
  | ZES_MEM_TYPE_LPDDR | ZES_MEM_TYPE_LPDDR3 | ZES_MEM_TYPE_LPDDR4
  | ZES_MEM_TYPE_LPDDR5 => Some DDR_bucket
  | ZES_MEM_TYPE_other _ => None
  end.

Definition module_kB (b : memory_bucket) (mh : mem_module) : Z :=
  let '(res, mprop) := zesMemoryGetProperties mh in
  if succeeded res && bool_decide (bucket_of (mem_type mprop) = Some b)
  then Z.shiftr (module_physicalSize mh mprop) 10
  else 0.

Definition sumZ (l : list Z) : Z := foldr Z.add 0 l.

Definition bucket_attribute (name : string) (total : Z) : list (string * string) :=
  if total =? 0 then [] else [(name, fmt_u total)].

Definition valid_array (st : obj_store) (nr_osdevs : Z) (sub_osdevs : obj_array) : Prop :=
  forall subs, sub_osdevs = Some subs ->
    0 <= nr_osdevs
    /\ length subs = Z.to_nat nr_osdevs
    /\ Forall (fun p => p = NULL \/ is_Some (deref st p)) subs.

Definition aggregate_name (b : memory_bucket) : string :=
  match b with
  | HBM_bucket => "LevelZeroHBMSize"
  | DDR_bucket => "LevelZeroDDRSize"
  end.

Definition subdevice_count (st : obj_store) (oarray : hwloc_osdev_array) (i : Z) : option Z :=
  p ← objs oarray !! Z.to_nat i; recorded_subdevices st p.

Fixpoint walk (st : obj_store) (oarray : hwloc_osdev_array) (fuel : nat) (i : Z) : list Z :=
  match fuel with
  | O => []
  | S fuel' =>
      if i <? nr oarray then
        i :: match subdevice_count st oarray i with
             | Some c => walk st oarray fuel' (i + c + 1)
             | None => []
             end
      else []
  end.

Definition landing_indexes (st : obj_store) (oarray : hwloc_osdev_array) : list Z :=
  walk st oarray (S (Z.to_nat (nr oarray))) 0.

(** [paints L v f T]: on a matrix of [L] cells, [f] is defined, stores [v]
    in the cells of [T] and leaves [v] wherever it already was. *)
Definition paints (L : nat) (v : Z) (f : list Z -> option (list Z)) (T : nat -> Prop) : Prop :=
  forall b, length b = L ->
    exists b', f b = Some b' /\ length b' = L
      /\ (forall k, b !! k = Some v -> b' !! k = Some v)
      /\ (forall k, T k -> b' !! k = Some v).

Definition owner_index (oarray : hwloc_osdev_array) (p : hwloc_levelzero_port) : Z :=
  hwloc__levelzero_osdev_array_find oarray (osdev p).

Definition parent_index (oarray : hwloc_osdev_array) (p : hwloc_levelzero_port) : Z :=
  hwloc__levelzero_osdev_array_find oarray (parent_osdev p).

(** The link observed from [pi] qualifies: [pi] is healthy, its remote
    identity is the local identity of [pj], the technology is XeLink and
    both owners are registered. *)
Definition link_qualifies (oarray : hwloc_osdev_array) (pi pj : hwloc_levelzero_port) : bool :=
  bool_decide (status (state pi) = ZES_FABRIC_PORT_STATUS_HEALTHY)
  && port_id_eqb (remotePortId (state pi)) (portId (props pj))
  && bool_decide (c_str (port_model (props pj)) = "XeLink"%string)
  && (0 <=? owner_index oarray pi) && (0 <=? owner_index oarray pj).

(** Both ports have a recorded parent device, and both parents are registered. *)
Definition parents_registered (oarray : hwloc_osdev_array) (pi pj : hwloc_levelzero_port) : bool :=
  negb (Nat.eqb (parent_osdev pi) NULL) && negb (Nat.eqb (parent_osdev pj) NULL)
  && (0 <=? parent_index oarray pi) && (0 <=? parent_index oarray pj).

(** What the link from [pi] to [pj] brings to the entry [(a, b)]. *)
Definition direct_amount (oarray : hwloc_osdev_array) (pi pj : hwloc_levelzero_port) (a b : Z) : Z :=
  if link_qualifies oarray pi pj
     && (owner_index oarray pi =? a) && (owner_index oarray pj =? b)
  then rxSpeed_bitRate (state pi) / 2 ^ 20 else 0.

Definition parent_amount (oarray : hwloc_osdev_array) (pi pj : hwloc_levelzero_port) (a b : Z) : Z :=
  if link_qualifies oarray pi pj && parents_registered oarray pi pj
     && (parent_index oarray pi =? a) && (parent_index oarray pj =? b)
  then rxSpeed_bitRate (state pi) / 2 ^ 20 else 0.

(** The sum of [f pi pj] over the ordered pairs of distinct captured ports. *)
Definition sum_links (ps : list hwloc_levelzero_port)
    (f : hwloc_levelzero_port -> hwloc_levelzero_port -> Z) : Z :=
  sumZ (map (fun i =>
          sumZ (map (fun j =>
                  if decide (i = j) then 0
                  else match ps !! i, ps !! j with
                       | Some pi, Some pj => f pi pj
                       | _, _ => 0
                       end)
               (seq 0 (length ps))))
       (seq 0 (length ps))).

Definition canonical (bws : list Z) : Prop := Forall (fun v => 0 <= v < 2 ^ 64) bws.

(** Modelled from the spec: a receive bit rate converted to megabytes per
    second; the rate is in bit/s, eight bits a byte, 10^6 bytes a megabyte. *)
Definition megabytes_per_second (bit_rate : Z) : Z := bit_rate / 8 / 1000000.

(** The owner recorded in every captured port is an object of the store. *)
Definition owners_exist (st : list hwloc_obj) (ps : list hwloc_levelzero_port) : Prop :=
  Forall (fun p => is_Some (deref st (osdev p))) ps.

Definition adds (L : nat) (f : list Z * Z -> option (list Z * Z)) (d : nat -> Z) : Prop :=
  forall b g b' g', length b = L -> canonical b -> f (b, g) = Some (b', g') ->
    length b' = L /\ canonical b'
    /\ (forall k v, b !! k = Some v -> b' !! k = Some (uint64 (v + d k))).

Definition runs (L : nat) (f : list Z * Z -> option (list Z * Z)) : Prop :=
  forall b g, length b = L -> canonical b -> is_Some (f (b, g)).

(** The qualification of a link, apart from the health of [pi]. *)
Definition link_matches (oarray : hwloc_osdev_array) (pi pj : hwloc_levelzero_port) : bool :=
  port_id_eqb (remotePortId (state pi)) (portId (props pj))
  && bool_decide (c_str (port_model (props pj)) = "XeLink"%string)
  && (0 <=? owner_index oarray pi) && (0 <=? owner_index oarray pj).

(** The number of cells of the matrix built for a registry. *)
Definition matrix_cells (oarray : hwloc_osdev_array) : nat :=
  Z.to_nat (nr oarray * nr oarray).

Definition cell (oarray : hwloc_osdev_array) (a b : Z) : nat := Z.to_nat (a * nr oarray + b).

Definition pair_delta (oarray : hwloc_osdev_array) (pi pj : hwloc_levelzero_port) (k : nat) : Z :=
  (if link_matches oarray pi pj
      && bool_decide (k = cell oarray (owner_index oarray pi) (owner_index oarray pj))
   then rxSpeed_bitRate (state pi) / 2 ^ 20 else 0)
  + (if link_matches oarray pi pj && parents_registered oarray pi pj
        && bool_decide (k = cell oarray (parent_index oarray pi) (parent_index oarray pj))
     then rxSpeed_bitRate (state pi) / 2 ^ 20 else 0).

(** The reads of lines 681-687 are defined: when the identities match,
    both owners are objects of the store. *)
Definition names_readable (st : list hwloc_obj) (pi pj : hwloc_levelzero_port) : Prop :=
  port_id_eqb (remotePortId (state pi)) (portId (props pj)) = true ->
  is_Some (deref st (osdev pi)) /\ is_Some (deref st (osdev pj)).

Definition healthy (p : hwloc_levelzero_port) : bool :=
  bool_decide (status (state p) = ZES_FABRIC_PORT_STATUS_HEALTHY).

Definition row_delta (oarray : hwloc_osdev_array) (ps : list hwloc_levelzero_port)
    (i : nat) (k : nat) : Z :=
  sumZ (map (fun j =>
               if decide (i = j) then 0
               else match ps !! i, ps !! j with
                    | Some pi, Some pj => if healthy pi then pair_delta oarray pi pj k else 0
                    | _, _ => 0
                    end)
            (seq 0 (length ps))).

(** The sum over the ordered pairs of distinct captured ports other than
    the pair of indexes [(i0, j0)]. *)
Definition sum_other_links (ps : list hwloc_levelzero_port) (i0 j0 : nat)
    (f : hwloc_levelzero_port -> hwloc_levelzero_port -> Z) : Z :=
  sumZ (map (fun i =>
          sumZ (map (fun j =>
                  if decide (i = j) then 0
                  else if decide (i = i0 /\ j = j0) then 0
                  else match ps !! i, ps !! j with
                       | Some pi, Some pj => f pi pj
                       | _, _ => 0
                       end)
               (seq 0 (length ps))))
       (seq 0 (length ps))).


(** A device inserted in the tree: its tree parent, the device and its
    subdevices, in the order of their insertion. *)
Definition block : Type := hwloc_obj_t * hwloc_obj_t * list hwloc_obj_t.

Definition units_of (b : block) : list hwloc_obj_t := b.1.2 :: b.2.

Definition insertions_of (b : block) : list (hwloc_obj_t * hwloc_obj_t) :=
  (b.1.1, b.1.2) :: map (pair b.1.2) b.2.

Definition no_failure (heap : list alloc_outcome) : Prop := ENOMEM ∉ heap.

Definition clean_block (a : alloc_outcome) : Prop :=
  match a with
  | ENOMEM => True
  | Block stale => Forall (fun p => p = NULL) stale
  end.

(** Every block the allocator hands out reads as zeroes. *)
Definition clean_heap (heap : list alloc_outcome) : Prop := Forall clean_block heap.

Definition wf_oarray (a : hwloc_osdev_array) : Prop :=
  0 <= nr a <= nr_allocated a /\ nr_allocated a < 2 ^ 32
  /\ length (objs a) = Z.to_nat (nr_allocated a).


(** [grown n w w']: from [w] to [w'], [n] objects were created, nothing was
    inserted in the tree and allocations were only consumed. *)
Definition grown (n : nat) (w w' : world) : Prop :=
  w_tree w' = w_tree w
  /\ length (w_objs w') = (length (w_objs w) + n)%nat
  /\ w_heap w' `suffix_of` w_heap w.

Definition created_subdevices (subosdevs : option (list hwloc_obj_t)) : list hwloc_obj_t :=
  match subosdevs with
  | Some slots => filter (fun p => p <> NULL) slots
  | None => []
  end.

(** [inserted ins units a w a' w1]: from [(a, w)] to [(a', w1)] the pairs
    [ins] went into the tree, in order, and the registry received those of
    [units] whose append did not fail. *)
Definition inserted (ins : list (nat * nat)) (units : list nat)
    (a : hwloc_osdev_array) (w : world) (a' : hwloc_osdev_array) (w1 : world) : Prop :=
  exists kept,
    w_tree w1 = w_tree w ++ ins /\ w_objs w1 = w_objs w /\ w_heap w1 `suffix_of` w_heap w
    /\ registry a' = registry a ++ kept /\ kept `sublist_of` units
    /\ (no_failure (w_heap w) -> kept = units) /\ wf_oarray a'.

(** [pass_step w a w' a']: from [(w, a)] to [(w', a')], whole devices were
    inserted. *)
Definition pass_step (w : world) (a : hwloc_osdev_array) (w' : world) (a' : hwloc_osdev_array)
  : Prop :=
  exists (blocks : list block) (kept : list (list nat)),
    w_tree w' = w_tree w ++ concat (map insertions_of blocks)
    /\ registry a' = registry a ++ concat kept
    /\ Forall2 (fun r b => r `sublist_of` units_of b) kept blocks
    /\ (no_failure (w_heap w) -> kept = map units_of blocks)
    /\ (clean_heap (w_heap w) ->
        concat (map units_of blocks)
        = seq (S (length (w_objs w))) (length (w_objs w') - length (w_objs w)))
    /\ (length (w_objs w) <= length (w_objs w'))%nat
    /\ w_heap w' `suffix_of` w_heap w
    /\ wf_oarray a'.


(** ** Sample configurations *)

Definition sample_root : hwloc_obj :=
  {| obj_type := HWLOC_OBJ_MACHINE; obj_name := "Machine"; obj_subtype := EmptyString;
     obj_infos := []; obj_linkspeed_bw := 0 |}.

(** A topology that only holds its root object, at address 1. *)
Definition sample_world (heap : list alloc_outcome) : world :=
  {| w_objs := [sample_root]; w_tree := []; w_heap := heap; w_backend := [];
     w_distances := [] |}.

Definition sample_topology : hwloc_topology :=
  {| topo_no_distances := false; topo_root := 1%nat; topo_pci_parents := [];
     topo_have_pci_ext := false |}.

Definition sample_core (res flags id : Z) : ze_device_core :=
  {| zeDeviceGetProperties :=
       (res, {| dp_type := ZE_DEVICE_TYPE_GPU; dp_flags := flags; dp_numSlices := 1;
                dp_numSubslicesPerSlice := 2; dp_numEUsPerSubslice := 8;
                dp_numThreadsPerEU := 8; dp_uuid := replicate 16 id |});
     zeDeviceGetCommandQueueGroupProperties := (0, 0, []) |}.

Definition sample_port_id (attach : Z) : zes_fabric_port_id_t :=
  {| fabricId := 1; attachId := attach; portNumber := 1 |}.

(** A healthy XeLink port of subdevice [sub], wired to the port of the
    other subdevice. *)
Definition sample_port (sub : Z) (rate : Z) : fabric_port :=
  {| zesFabricPortGetProperties :=
       (0, {| port_model := "XeLink"; port_onSubdevice := true; port_subdeviceId := sub;
              portId := sample_port_id sub |});
     zesFabricPortGetState :=
       (0, {| status := ZES_FABRIC_PORT_STATUS_HEALTHY;
              remotePortId := sample_port_id (1 - sub);
              rxSpeed_bitRate := rate |}) |}.

(** An HBM module of subdevice [sub] whose physical size is unknown. *)
Definition sample_module (sub : Z) (live : Z) : mem_module :=
  {| zesMemoryGetProperties :=
       (0, {| mem_type := ZES_MEM_TYPE_HBM; mem_onSubdevice := true;
              mem_subdeviceId := sub; physicalSize := 0 |});
     zesMemoryGetState := (0, {| mem_state_size := live |}) |}.

Definition sample_sysman_properties : zes_device_properties_t :=
  {| vendorName := "UNKNOWN"; modelName := "Data Center GPU"; brandName := "unknown";
     serialNumber := "Unknown"; boardNumber := "B42" |}.

Definition sample_zes_device (mems : list mem_module) (fports : list fabric_port)
  : zes_device :=
  {| zesDeviceGetProperties := (0, sample_sysman_properties);
     zesDeviceEnumMemoryModules := (0, 0, mems);
     zesDeviceEnumFabricPorts := (0, 0, fports);
     zesDevicePciGetProperties :=
       (1, {| pci_address := {| pci_domain := 0; pci_bus := 0; pci_device := 0;
                                pci_function := 0 |};
              pci_maxBandwidth := 0 |}) |}.

Definition sample_device (subs : list ze_device_core) : ze_device :=
  {| ze_core := sample_core 0 0 7;
     zeDeviceGetSubDevices := (0, 0, subs);
     zeDevicePciGetPropertiesExt := zesDevicePciGetProperties (sample_zes_device [] []) |}.

Definition sample_level_zero (subs : list ze_device_core) (mems : list mem_module)
    (fports : list fabric_port) : level_zero :=
  {| zeDriverGet := (0, 0, [{| zeDeviceGet := (0, 0, [sample_device subs]) |}]);
     zesDriverGet :=
       (0, 0, [{| zes_devices := [(replicate 16 7, sample_zes_device mems fports);
                                  (replicate 16 8, sample_zes_device [] [])] |}]) |}.

(** One device with two subdevices, each owning one healthy XeLink port
    wired to the other's, and one HBM module of unknown physical size on
    each subdevice. *)
Definition tile_level_zero : level_zero :=
  sample_level_zero [sample_core 0 ZE_DEVICE_PROPERTY_FLAG_SUBDEVICE 8; sample_core 0 ZE_DEVICE_PROPERTY_FLAG_SUBDEVICE 8]
                    [sample_module 0 4096; sample_module 1 8192]
                    [sample_port 0 (3 * 2 ^ 20); sample_port 1 (5 * 2 ^ 20)].

(** The same device when the properties of its second subdevice cannot be
    read. *)
Definition skipped_tile_level_zero : level_zero :=
  sample_level_zero [sample_core 0 ZE_DEVICE_PROPERTY_FLAG_SUBDEVICE 8; sample_core 1 ZE_DEVICE_PROPERTY_FLAG_SUBDEVICE 8] []
                    [sample_port 0 (3 * 2 ^ 20); sample_port 1 (5 * 2 ^ 20)].

(** A healthy XeLink port of the device itself, wired to the port of
    subdevice 0. *)
Definition root_port (rate : Z) : fabric_port :=
  {| zesFabricPortGetProperties :=
       (0, {| port_model := "XeLink"; port_onSubdevice := false; port_subdeviceId := 0;
              portId := sample_port_id 1 |});
     zesFabricPortGetState :=
       (0, {| status := ZES_FABRIC_PORT_STATUS_HEALTHY;
              remotePortId := sample_port_id 0;
              rxSpeed_bitRate := rate |}) |}.

(** One device that reports two subdevices; the properties of the second
    cannot be read. The port of the first subdevice and a port of the
    device are wired to each other. *)
Definition half_tile_level_zero : level_zero :=
  sample_level_zero [sample_core 0 ZE_DEVICE_PROPERTY_FLAG_SUBDEVICE 8;
                     sample_core 1 ZE_DEVICE_PROPERTY_FLAG_SUBDEVICE 8] []
                    [sample_port 0 (3 * 2 ^ 20); root_port (5 * 2 ^ 20)].



(** The monitoring extension lists no driver, the core API one. *)
Definition mismatched_level_zero : level_zero :=
  {| zeDriverGet := zeDriverGet tile_level_zero; zesDriverGet := (0, 0, []) |}.

(** The registry and the ports the pass builds for [tile_level_zero]. *)
Definition tile_registry : hwloc_osdev_array :=
  {| nr := 3; nr_allocated := 40; objs := [2; 3; 4]%nat ++ replicate 37 NULL |}.

Definition tile_port (sub : Z) (o : hwloc_obj_t) (rate : Z) : hwloc_levelzero_port :=
  {| osdev := o; parent_osdev := 2%nat;
     props := (zesFabricPortGetProperties (sample_port sub rate)).2;
     state := (zesFabricPortGetState (sample_port sub rate)).2 |}.

Definition tile_ports : hwloc_levelzero_ports :=
  {| hp_nr_allocated := 16; hp_nr := 2;
     ports := [tile_port 0 3%nat (3 * 2 ^ 20); tile_port 1 4%nat (5 * 2 ^ 20)] |}.

(** The ports of [tile_ports] at 8,000,000 bit/s, one megabyte per second. *)
Definition slow_ports : hwloc_levelzero_ports :=
  {| hp_nr_allocated := 16; hp_nr := 2;
     ports := [tile_port 0 3%nat 8000000; tile_port 1 4%nat 8000000] |}.

Definition tile_objects : list hwloc_obj :=
  [sample_root;
   add_info (set_name "ze0" sample_root) "LevelZeroSubdevices" "2";
   set_name "ze0.0" sample_root;
   set_name "ze0.1" sample_root].

(** ** The device registry: lookups and appends *)

(** The allocation the next [realloc] of a full registry would fail. *)
Definition growth_fails (a : hwloc_osdev_array) (w : world) : Prop :=
  nr_allocated a = nr a /\ head (w_heap w) = Some ENOMEM.

Global Instance alloc_outcome_eq_dec : EqDecision alloc_outcome.
Proof. solve_decision. Defined.

Global Instance growth_fails_dec a w : Decision (growth_fails a w).
Proof. unfold growth_fails. apply _. Defined.

(** The world once its next allocation answer is consumed. *)
Definition after_alloc (w : world) : world :=
  {| w_objs := w_objs w; w_tree := w_tree w; w_heap := tail (w_heap w);
     w_backend := w_backend w; w_distances := w_distances w |}.

(** ** The attributes of a unit *)

(** The attributes read from the core properties of a unit. *)
Definition core_attributes (p : ze_device_properties_t) : list (string * string) :=
  [("LevelZeroDeviceType", device_type_name (dp_type p));
   ("LevelZeroNumSlices", fmt_u (dp_numSlices p));
   ("LevelZeroNumSubslicesPerSlice", fmt_u (dp_numSubslicesPerSlice p));
   ("LevelZeroNumEUsPerSubslice", fmt_u (dp_numEUsPerSubslice p));
   ("LevelZeroNumThreadsPerEU", fmt_u (dp_numThreadsPerEU p));
   ("LevelZeroUUID", fmt_uuid (dp_uuid p))]%string.

(** The strings of the monitoring extension that are known. *)
Definition known_strings (prop2 : zes_device_properties_t) : list (string * string) :=
  omap (fun kv => if decide (is_unknown kv.2) then None else Some (kv.1, c_str kv.2))
       (sysman_strings prop2).

Definition sysman_attributes (zesh : zes_device) : list (string * string) :=
  if decide ((zesDeviceGetProperties zesh).1 = ZE_RESULT_SUCCESS)
  then known_strings (zesDeviceGetProperties zesh).2
  else [].

Definition flagged_subdevice (p : ze_device_properties_t) : Prop :=
  Z.land (dp_flags p) ZE_DEVICE_PROPERTY_FLAG_SUBDEVICE <> 0.

(** A byte of a device identity. *)
Definition is_byte (b : Z) : Prop := 0 <= b < 256.

(** The value of a hexadecimal digit. *)
Definition hex_value (c : ascii) : Z :=
  let n := Z.of_N (N_of_ascii c) in
  if (48 <=? n) && (n <=? 57) then n - 48 else n - 87.

(** The attributes of the command queue groups. *)
Definition cqgroup_attributes (cqprops : list ze_command_queue_group_properties_t)
  : list (string * string) :=
  ("LevelZeroCQGroups"%string, fmt_u (Z.of_nat (length cqprops)))
  :: imap (fun k cq => ("LevelZeroCQGroup" +:+ fmt_u (Z.of_nat k),
                        fmt_u (uint32 (cq_numQueues cq)) +:+ "*0x" +:+ fmt_lx (cq_flags cq)))
          cqprops.

(** The two queries of the groups and the allocation of their array all
    succeed, for at least one group. *)
Definition cqgroups_available (zeh : ze_device_core) (w : world) : Prop :=
  (zeDeviceGetCommandQueueGroupProperties zeh).1.1 = ZE_RESULT_SUCCESS
  /\ (zeDeviceGetCommandQueueGroupProperties zeh).1.2 = ZE_RESULT_SUCCESS
  /\ (zeDeviceGetCommandQueueGroupProperties zeh).2 <> []
  /\ head (w_heap w) <> Some ENOMEM.

Global Instance cq_properties_eq_dec : EqDecision ze_command_queue_group_properties_t.
Proof. solve_decision. Defined.

Global Instance cqgroups_available_dec zeh w : Decision (cqgroups_available zeh w).
Proof. unfold cqgroups_available. apply _. Defined.

(** ** The memory attributes *)

(** The technology name in the attribute of a subdevice. *)
Definition memory_type_name (t : zes_mem_type_t) : string :=
  match bucket_of t with
  | Some HBM_bucket => "HBM"
  | Some DDR_bucket => "DDR"
  | None => "Memory"
  end.

(** The objects of an array of subdevices. *)
Definition subdevice_objects (sub_osdevs : option (list hwloc_obj_t)) : list hwloc_obj_t :=
  default [] sub_osdevs.

(** From [w] to [w'] the objects outside of [touched] are as they were. *)
Definition only_touches (touched : list hwloc_obj_t) (w w' : world) : Prop :=
  forall q, q ∉ touched -> deref (w_objs w') q = deref (w_objs w) q.

(** The memory modules were enumerated, but their handles could not be
    obtained. *)
Definition handles_unavailable (zesh : zes_device) (w : world) : Prop :=
  (zesDeviceEnumMemoryModules zesh).1.1 = ZE_RESULT_SUCCESS
  /\ (zesDeviceEnumMemoryModules zesh).2 <> []
  /\ (head (w_heap w) = Some ENOMEM
      \/ (zesDeviceEnumMemoryModules zesh).1.2 <> ZE_RESULT_SUCCESS).

(** ** Capturing the fabric ports: capacity and owners *)

(** The count of a port registry is the number of its entries and does
    not exceed its capacity. *)
Definition wf_hports (h : hwloc_levelzero_ports) : Prop :=
  0 <= hp_nr h <= hp_nr_allocated h /\ hp_nr_allocated h < 2 ^ 32
  /\ Z.to_nat (hp_nr h) = length (ports h).

(** The array of subdevice objects has a slot per subdevice counted. *)
Definition covers (nr_sub_osdevs : Z) (sub_osdevs : option (list hwloc_obj_t)) : Prop :=
  0 < nr_sub_osdevs ->
  exists subs, sub_osdevs = Some subs /\ length subs = Z.to_nat nr_sub_osdevs.

(** The owner recorded for a port: the slot of its subdevice, with the
    device as parent, or the device itself, without parent. *)
Definition owned_by (root_osdev : hwloc_obj_t) (nr_sub_osdevs : Z)
    (sub_osdevs : option (list hwloc_obj_t)) (e : hwloc_levelzero_port) : Prop :=
  if port_onSubdevice (props e)
  then port_subdeviceId (props e) < nr_sub_osdevs
       /\ (exists subs, sub_osdevs = Some subs
                        /\ subs !! Z.to_nat (port_subdeviceId (props e)) = Some (osdev e))
       /\ parent_osdev e = root_osdev
  else osdev e = root_osdev /\ parent_osdev e = NULL.

(** The subdevice index a port reports is an unsigned number. *)
Definition unsigned_subdevice (port : fabric_port) : Prop :=
  0 <= port_subdeviceId (zesFabricPortGetProperties port).2.

(** ** Building the bandwidth matrix: what is committed *)

(** The dataset the builder commits for a registry and a matrix. *)
Definition xelink_dataset (oarray : hwloc_osdev_array) (bws : list Z)
  : string * list hwloc_obj_t * list Z :=
  ("XeLinkBandwidth"%string, registry oarray, bws).

(** ** The discovery pass: what it counts and what it leaves alone *)

(** From [w] to [w1] the tree received insertions, and the counter went
    from [c] to [c'] by their number. *)
Definition counts (c c' : Z) (w w1 : world) : Prop :=
  exists ins, w_tree w1 = w_tree w ++ ins /\ c' = uint32 (c + Z.of_nat (length ins)).

(** The number of insertions the tree received from [w] to [w']. *)
Definition insertions (w w' : world) : Z :=
  Z.of_nat (length (w_tree w') - length (w_tree w)).

(** The tag of the backend in the infos of the topology. *)
Definition backend_tag : list (string * string) := [("Backend", "LevelZero")]%string.

(** ** Computations that commit no distances *)

(** A computation that leaves the committed datasets as they are. *)
Definition keeps_distances {A} (m : M A) : Prop :=
  forall w, wp m w (fun _ w1 => w_distances w1 = w_distances w).

(** ** Objects keep their identity *)

(** [o'] is [o] with more attributes at the end; the link speed may
    differ. *)
Definition extends (o o' : hwloc_obj) : Prop :=
  obj_type o' = obj_type o /\ obj_name o' = obj_name o /\ obj_subtype o' = obj_subtype o
  /\ obj_infos o `prefix_of` obj_infos o'.

(** The object at [p] is [o], up to more attributes. *)
Definition holds (p : hwloc_obj_t) (o : hwloc_obj) (w : world) : Prop :=
  exists o', deref (w_objs w) p = Some o' /\ extends o o'.

(** A computation through which the object at [p] keeps its identity. *)
Definition stable_at {A} (p : hwloc_obj_t) (m : M A) : Prop :=
  forall o w, holds p o w -> wp m w (fun _ w1 => holds p o w1).

(** The object once its six core attributes are written. *)
Definition with_core_attributes (p : ze_device_properties_t) (o : hwloc_obj) : hwloc_obj :=
  add_info (add_info (add_info (add_info (add_info (add_info o
    "LevelZeroDeviceType" (device_type_name (dp_type p)))
    "LevelZeroNumSlices" (fmt_u (dp_numSlices p)))
    "LevelZeroNumSubslicesPerSlice" (fmt_u (dp_numSubslicesPerSlice p)))
    "LevelZeroNumEUsPerSubslice" (fmt_u (dp_numEUsPerSubslice p)))
    "LevelZeroNumThreadsPerEU" (fmt_u (dp_numThreadsPerEU p)))
    "LevelZeroUUID" (fmt_uuid (dp_uuid p)).

(** The part of the iteration on a device that follows the creation of
    its object and the harvest of its properties. *)
Definition device_rest (topology : hwloc_topology) (zesdr : zes_driver) (zeh : ze_device)
    (zesh : zes_device) (s : pass_state) (osdev : hwloc_obj_t) : M pass_state :=
  hwloc__levelzero_cqprops_get (ze_core zeh) osdev;;
  '(nr_subdevices, subosdevs) ← discover_subdevices zesdr (ps_zeidx s) zeh osdev;
  hwloc__levelzero_memory_get zesh osdev nr_subdevices subosdevs;;
  hports ← (if negb (topo_no_distances topology)
            then hwloc__levelzero_ports_get zesh osdev nr_subdevices subosdevs (ps_hports s)
            else mret (ps_hports s));
  parent ← resolve_parent topology zeh zesh;
  r ← insert_device parent osdev nr_subdevices subosdevs (ps_added s, ps_oarray s);
  mret {| ps_zeidx := uint32 (ps_zeidx s + 1); ps_added := fst r;
          ps_oarray := snd r; ps_hports := hports |}.

(** ** The parent of a device *)

(** The object the PCI layer gives for the address of an answer, NULL
    when the query failed. *)
Definition pci_lookup (topology : hwloc_topology) (answer : ze_result_t * zes_pci_properties_t)
  : hwloc_obj_t :=
  if decide (answer.1 = ZE_RESULT_SUCCESS)
  then hwloc_pci_find_parent_by_busid (topo_pci_parents topology) (pci_address answer.2)
  else NULL.

(** The first of the candidates that is not NULL: the object found by the
    core extension when it is compiled in, the object found by the
    monitoring extension, the root of the topology. *)
Definition first_parent (topology : hwloc_topology) (zeh : ze_device) (zesh : zes_device)
  : hwloc_obj_t :=
  let candidates :=
    (if topo_have_pci_ext topology
     then [pci_lookup topology (zeDevicePciGetPropertiesExt zeh)] else [])
    ++ [pci_lookup topology (zesDevicePciGetProperties zesh); topo_root topology] in
  default NULL (head (filter (fun p => p <> NULL) candidates)).

(** From [w] to [w1] every object keeps its type, name, subtype and
    attributes. *)
Definition same_but_linkspeed (w w1 : world) : Prop :=
  forall q o, deref (w_objs w) q = Some o ->
    exists o', deref (w_objs w1) q = Some o' /\ extends o o' /\ obj_infos o' = obj_infos o.

(** ** Which links make the builder commit a matrix *)

(** The parents do not stand in the way of the link: one of the two ports
    has no recorded parent, or both parents are registered. *)
Definition parents_allow (oarray : hwloc_osdev_array) (pi pj : hwloc_levelzero_port) : bool :=
  Nat.eqb (parent_osdev pi) NULL || Nat.eqb (parent_osdev pj) NULL
  || parents_registered oarray pi pj.

(** The links [gotbw] counts. *)
Definition link_counted (oarray : hwloc_osdev_array) (pi pj : hwloc_levelzero_port) : Z :=
  if link_qualifies oarray pi pj && parents_allow oarray pi pj then 1 else 0.

(** ** More sample configurations *)

(** A device handle with two command queue groups. *)
Definition sample_queues : ze_device_core :=
  {| zeDeviceGetProperties := zeDeviceGetProperties (sample_core 0 0 7);
     zeDeviceGetCommandQueueGroupProperties :=
       (0, 0, [{| cq_flags := 3; cq_numQueues := 1 |};
               {| cq_flags := 12; cq_numQueues := 4 |}]) |}.

(** The device of [tile_level_zero] for the monitoring extension. *)
Definition tile_zes_device : zes_device :=
  sample_zes_device [sample_module 0 4096; sample_module 1 8192]
                    [sample_port 0 (3 * 2 ^ 20); sample_port 1 (5 * 2 ^ 20)].

(** The objects of [tile_level_zero], in a world of their own. *)
Definition tile_world : world :=
  {| w_objs := tile_objects; w_tree := [(1, 2); (2, 3); (2, 4)]%nat; w_heap := [];
     w_backend := []; w_distances := [] |}.

(** The two ports of [tile_ports], degraded. *)
Definition degraded (p : hwloc_levelzero_port) : hwloc_levelzero_port :=
  {| osdev := osdev p; parent_osdev := parent_osdev p; props := props p;
     state := {| status := ZES_FABRIC_PORT_STATUS_DEGRADED;
                 remotePortId := remotePortId (state p);
                 rxSpeed_bitRate := rxSpeed_bitRate (state p) |} |}.

Definition degraded_ports : hwloc_levelzero_ports :=
  {| hp_nr_allocated := 16; hp_nr := 2; ports := map degraded (ports tile_ports) |}.

(** [sample_topology] with the flag that disables the distances. *)
Definition quiet_topology : hwloc_topology :=
  {| topo_no_distances := true; topo_root := 1%nat; topo_pci_parents := [];
     topo_have_pci_ext := false |}.

Definition sample_backend (topology : hwloc_topology) : hwloc_backend :=
  {| backend_topology := topology; osdev_type_filter := HWLOC_TYPE_FILTER_KEEP_ALL |}.

Definition tile_runtime : ze_runtime :=
  {| zeInit := 0; zesInit := 0; ze_api := tile_level_zero |}.

(** A topology with one PCI device, at address 0000:00:00.0. *)
Definition sample_pci_address : zes_pci_address_t :=
  {| pci_domain := 0; pci_bus := 0; pci_device := 0; pci_function := 0 |}.

Definition pci_topology : hwloc_topology :=
  {| topo_no_distances := false; topo_root := 1%nat;
     topo_pci_parents := [(sample_pci_address, 2%nat)]; topo_have_pci_ext := false |}.

Definition pci_world : world :=
  {| w_objs := [sample_root;
                {| obj_type := HWLOC_OBJ_PCI_DEVICE; obj_name := "PCI"; obj_subtype := "GPU";
                   obj_infos := []; obj_linkspeed_bw := 0 |}];
     w_tree := [(1, 2)]%nat; w_heap := []; w_backend := []; w_distances := [] |}.

(** A device of the monitoring extension that knows its PCI address. *)
Definition pci_zes_device : zes_device :=
  {| zesDeviceGetProperties := (0, sample_sysman_properties);
     zesDeviceEnumMemoryModules := (0, 0, []);
     zesDeviceEnumFabricPorts := (0, 0, []);
     zesDevicePciGetProperties :=
       (0, {| pci_address := sample_pci_address; pci_maxBandwidth := 16000000000 |}) |}.

(** The driver of [tile_level_zero] for the monitoring extension, its
    device and the state a pass starts from. *)
Definition tile_zes_driver : zes_driver :=
  {| zes_devices := [(replicate 16 7, tile_zes_device);
                     (replicate 16 8, sample_zes_device [] [])] |}.

Definition tile_device : ze_device :=
  sample_device [sample_core 0 ZE_DEVICE_PROPERTY_FLAG_SUBDEVICE 8; sample_core 0 ZE_DEVICE_PROPERTY_FLAG_SUBDEVICE 8].

Definition first_pass_state : pass_state :=
  {| ps_zeidx := 0; ps_added := 0; ps_oarray := hwloc__levelzero_osdev_array_init;
     ps_hports := hwloc__levelzero_ports_init |}.

(** * Properties *)

Lemma wp_ret {A} (a : A) w (Q : A -> world -> Prop) : Q a w -> wp (mret a) w Q.
Proof. done. Qed.

Lemma wp_bind {A B} (m : M A) (f : A -> M B) w (Q : B -> world -> Prop) :
  wp m w (fun a w1 => wp (f a) w1 Q) -> wp (m ≫= f) w Q.
Proof. unfold wp, mbind, M_bind. by destruct (m w). Qed.

Lemma wp_mono {A} (m : M A) w (Q Q' : A -> world -> Prop) :
  wp m w Q -> (forall a w', Q a w' -> Q' a w') -> wp m w Q'.
Proof. unfold wp. destruct (m w); auto. Qed.

Lemma wp_elim {A} (m : M A) w (Q : A -> world -> Prop) a w' :
  wp m w Q -> m w = Ret a w' -> Q a w'.
Proof. unfold wp. intros H Heq. by rewrite Heq in H. Qed.

Lemma wp_undefined {A} w (Q : A -> world -> Prop) : wp undefined w Q.
Proof. done. Qed.

Lemma wp_lift {A} (o : option A) w (Q : A -> world -> Prop) :
  (forall a, o = Some a -> Q a w) -> wp (lift o) w Q.
Proof. destruct o; simpl; [|done]. intros H. by apply H. Qed.

(** A step whose result and effect do not matter. *)
Lemma wp_skip {A B} (m : M A) (f : A -> M B) w (Q : B -> world -> Prop) :
  (forall a w1, wp (f a) w1 Q) -> wp (m ≫= f) w Q.
Proof. intros H. apply wp_bind. unfold wp at 1. destruct (m w); [apply H|done]. Qed.

Lemma wp_for_each {A S} (body : Z -> A -> S -> M S) (I : S -> world -> Prop) l :
  forall i s w,
  I s w ->
  (forall i a s w, I s w -> wp (body i a s) w I) ->
  wp (for_each body i l s) w I.
Proof.
  induction l as [|a l IH]; intros i s w HI Hbody; simpl.
  - by apply wp_ret.
  - apply wp_bind. eapply wp_mono; [by apply Hbody|].
    intros s1 w1 H1. by apply IH.
Qed.

Lemma wp_conj {A} (m : M A) w (Q1 Q2 : A -> world -> Prop) :
  wp m w Q1 -> wp m w Q2 -> wp m w (fun a w1 => Q1 a w1 /\ Q2 a w1).
Proof. unfold wp. by destruct (m w). Qed.

(** A postcondition that holds under an assumption on the initial state. *)
Lemma wp_when {A} (P : Prop) (m : M A) w (Q : A -> world -> Prop) :
  (P -> wp m w Q) -> wp m w (fun a w1 => P -> Q a w1).
Proof. unfold wp. destruct (m w); auto. Qed.

(** One step of a computation, by the specification [lem] of its head. *)
Ltac wp_step lem := apply wp_bind; eapply wp_mono; [apply lem|].

Lemma char_code_inj c1 c2 : char_code c1 = char_code c2 -> c1 = c2.
Proof.
  unfold char_code. intros H. apply N2Z.inj in H.
  rewrite <- (ascii_N_embedding c1), <- (ascii_N_embedding c2). by rewrite H.
Qed.

Lemma tolower_nul c : char_code (tolower c) = 0 <-> char_code c = 0.
Proof.
  destruct c as [[] [] [] [] [] [] [] []]; vm_compute; split; congruence.
Qed.

Lemma strcasecmp_zero s1 s2 :
  strcasecmp s1 s2 = 0 <-> lowercase (c_str s1) = lowercase (c_str s2).
Proof.
  revert s2. induction s1 as [|c1 r1 IH]; intros [|c2 r2]; simpl.
  - done.
  - pose proof (tolower_nul c2) as Hn.
    destruct (Z.eqb_spec (char_code c2) 0) as [E|E]; simpl.
    + split; [done|]. intros _. apply Hn in E. lia.
    + split; [|done]. intros H. exfalso. apply E, Hn. lia.
  - pose proof (tolower_nul c1) as Hn.
    destruct (Z.eqb_spec (char_code c1) 0) as [E|E]; simpl.
    + split; [done|]. intros _. by apply Hn.
    + split; [|done]. intros H. exfalso. by apply E, Hn.
  - pose proof (tolower_nul c1) as Hn1. pose proof (tolower_nul c2) as Hn2.
    destruct (Z.eqb_spec (char_code (tolower c1)) (char_code (tolower c2))) as [E|E].
    + destruct (Z.eqb_spec (char_code (tolower c1)) 0) as [E0|E0].
      * assert (char_code c1 = 0) as -> by by apply Hn1.
        assert (char_code c2 = 0) as -> by (apply Hn2; lia).
        done.
      * destruct (Z.eqb_spec (char_code c1) 0) as [F1|F1]; [by apply Hn1 in F1|].
        destruct (Z.eqb_spec (char_code c2) 0) as [F2|F2].
        { apply Hn2 in F2. lia. }
        simpl. rewrite IH. apply char_code_inj in E. rewrite E.
        split; [by intros ->|]. by intros [= ->].
    + split; [lia|]. intros H. exfalso. apply E.
      destruct (Z.eqb_spec (char_code c1) 0) as [F1|F1];
        destruct (Z.eqb_spec (char_code c2) 0) as [F2|F2]; simpl in H.
      * apply Hn1 in F1. apply Hn2 in F2. lia.
      * done.
      * done.
      * by injection H as -> _.
Qed.

Lemma strcmp_zero s1 s2 : strcmp s1 s2 = 0 <-> c_str s1 = c_str s2.
Proof.
  revert s2. induction s1 as [|c1 r1 IH]; intros [|c2 r2]; simpl.
  - done.
  - destruct (Z.eqb_spec (char_code c2) 0) as [E|E]; simpl; split; (done || lia).
  - destruct (Z.eqb_spec (char_code c1) 0) as [E|E]; simpl; split; (done || lia).
  - destruct (Z.eqb_spec (char_code c1) (char_code c2)) as [E|E].
    + rewrite <- E. destruct (Z.eqb_spec (char_code c1) 0) as [E0|E0]; [done|].
      rewrite IH. apply char_code_inj in E. rewrite E.
      split; [by intros ->|]. by intros [= ->].
    + split; [lia|]. intros H. exfalso. apply E.
      destruct (Z.eqb_spec (char_code c1) 0) as [F1|F1];
        destruct (Z.eqb_spec (char_code c2) 0) as [F2|F2]; simpl in H; try done.
      * lia.
      * by injection H as -> _.
Qed.

Lemma strcasecmp_Unknown v : (strcasecmp v "Unknown" =? 0) = true <-> is_unknown v.
Proof. rewrite Z.eqb_eq, strcasecmp_zero. done. Qed.

Lemma when_known_infos (v key : string) (o : hwloc_obj) :
  obj_infos (if negb (strcasecmp v "Unknown" =? 0) then add_info o key (c_str v) else o)
  = obj_infos o ++ (if negb (strcasecmp v "Unknown" =? 0) then [(key, c_str v)] else []).
Proof. destruct (negb _); simpl; [done|by rewrite app_nil_r]. Qed.

Lemma elem_of_when_known (v key k' v' : string) :
  (k', v') ∈ (if negb (strcasecmp v "Unknown" =? 0) then [(key, c_str v)] else [])
  <-> k' = key /\ v' = c_str v /\ ~ is_unknown v.
Proof.
  pose proof (strcasecmp_Unknown v) as H.
  destruct (strcasecmp v "Unknown" =? 0); simpl.
  - split; [by intros ?%elem_of_nil|]. intros (_ & _ & Hn). destruct Hn. by apply H.
  - rewrite list_elem_of_singleton. split.
    + intros [= -> ->]. split_and!; try done. intros Hu. apply H in Hu. done.
    + by intros (-> & -> & _).
Qed.

(** C9: for a unit that is not a subdevice and whose monitoring-extension
    properties can be read, each of the vendor, model, brand, serial and
    board strings is attached, as the attribute of its name, if and only
    if it is not equal to "unknown" whatever the case of its letters; no
    other value is attached under that name. *)
Theorem sysman_strings_attached zeh zesh prop osdev res prop2 :
  (forall p, device_properties zeh prop = Some p ->
             Z.land (dp_flags p) ZE_DEVICE_PROPERTY_FLAG_SUBDEVICE = 0) ->
  zesDeviceGetProperties zesh = (res, prop2) ->
  res = ZE_RESULT_SUCCESS ->
  exists added,
    obj_infos (hwloc__levelzero_properties_get zeh zesh prop osdev) = obj_infos osdev ++ added
    /\ forall key v, (key, v) ∈ sysman_strings prop2 ->
         forall v', (key, v') ∈ added <-> v' = c_str v /\ ~ is_unknown v.
Proof.
  intros Hflag Hq ->. unfold hwloc__levelzero_properties_get. rewrite Hq.
  change (succeeded ZE_RESULT_SUCCESS) with true. cbv iota.
  destruct (device_properties zeh prop) as [p|] eqn:Hp.
  - rewrite (Hflag p eq_refl). cbv beta iota. simpl negb. cbv iota.
    rewrite !when_known_infos. simpl obj_infos. rewrite <- !app_assoc.
    eexists. split; [reflexivity|].
    intros key v Hin v'. unfold sysman_strings in Hin.
    rewrite !elem_of_app, !elem_of_when_known, !elem_of_cons, elem_of_nil.
    rewrite !elem_of_cons, elem_of_nil in Hin.
    destruct Hin as [[= -> ->]|[[= -> ->]|[[= -> ->]|[[= -> ->]|[[= -> ->]|[]]]]]];
      intuition congruence.
  - cbv beta iota. rewrite !when_known_infos. rewrite <- !app_assoc.
    eexists. split; [reflexivity|].
    intros key v Hin v'. unfold sysman_strings in Hin.
    rewrite !elem_of_app, !elem_of_when_known.
    rewrite !elem_of_cons, elem_of_nil in Hin.
    destruct Hin as [[= -> ->]|[[= -> ->]|[[= -> ->]|[[= -> ->]|[[= -> ->]|[]]]]]];
      intuition congruence.
Qed.

(** C5: when the monitoring-extension driver listing fails, or the two
    enumeration APIs disagree on the number of drivers, the enumerator
    returns zero devices and leaves the registry, the ports and the
    topology as they were. *)
Theorem driver_count_mismatch_aborts topology lz oarray hports w :
  (zesDriverGet lz).1.1 <> ZE_RESULT_SUCCESS
  \/ length (zesDriverGet lz).2 <> length (zeDriverGet lz).2 ->
  hwloc__levelzero_devices_get topology lz oarray hports w = Ret (0, oarray, hports) w.
Proof.
  unfold hwloc__levelzero_devices_get.
  destruct (zeDriverGet lz) as [[res res2] drh].
  destruct (zesDriverGet lz) as [[zres zres2] zesdrh]. simpl.
  intros Hmis.
  destruct (negb (succeeded res) || (Z.of_nat (length drh) =? 0)); [done|].
  assert (negb (succeeded zres) || negb (Z.of_nat (length zesdrh) =? Z.of_nat (length drh)) = true)
    as ->; [|done].
  apply orb_true_iff. destruct Hmis as [Hres|Hlen].
  - left. apply negb_true_iff. unfold succeeded. by apply Z.eqb_neq.
  - right. apply negb_true_iff. apply Z.eqb_neq. lia.
Qed.

Lemma port_status_kept_spec s : port_status_kept s = true <-> kept_status s.
Proof.
  unfold kept_status. destruct s; simpl; split; intros H; try done; auto;
    by destruct H.
Qed.

(** What [capture_port] can do: nothing, or append one entry made of the
    answers of the port. *)
Lemma capture_port_inv root_osdev nr_sub_osdevs sub_osdevs port hports hports' :
  capture_port root_osdev nr_sub_osdevs sub_osdevs port hports = Some hports' ->
  hports' = hports
  \/ exists e,
       hports' = {| hp_nr_allocated := hp_nr_allocated hports;
                    hp_nr := uint32 (hp_nr hports + 1);
                    ports := ports hports ++ [e] |}
       /\ zesFabricPortGetProperties port = (ZE_RESULT_SUCCESS, props e)
       /\ zesFabricPortGetState port = (ZE_RESULT_SUCCESS, state e)
       /\ port_status_kept (status (state e)) = true
       /\ (if port_onSubdevice (props e)
           then port_subdeviceId (props e) < nr_sub_osdevs
                /\ (exists subs, sub_osdevs = Some subs
                                 /\ subs !! Z.to_nat (port_subdeviceId (props e)) = Some (osdev e))
                /\ parent_osdev e = root_osdev
           else osdev e = root_osdev /\ parent_osdev e = NULL).
Proof.
  unfold capture_port.
  destruct (hp_nr hports <? hp_nr_allocated hports); [|done].
  destruct (zesFabricPortGetProperties port) as [res p] eqn:Hp.
  destruct (succeeded res) eqn:Hres; simpl; [|intros [= <-]; by left].
  apply Z.eqb_eq in Hres as ->.
  destruct (zesFabricPortGetState port) as [res' s] eqn:Hs.
  destruct (port_onSubdevice p) eqn:Hon.
  - destruct (Z.ltb_spec (port_subdeviceId p) nr_sub_osdevs) as [Hlt|Hge];
      [|simpl; intros [= <-]; by left].
    destruct sub_osdevs as [subs|]; [|done]. simpl.
    destruct (subs !! Z.to_nat (port_subdeviceId p)) as [sub|] eqn:Hsub; [|done]. simpl.
    destruct (succeeded res') eqn:Hres'; simpl; [|intros [= <-]; by left].
    apply Z.eqb_eq in Hres' as ->.
    destruct (port_status_kept (status s)) eqn:Hk; simpl; intros [= <-]; [|by left].
    right. eexists. split; [reflexivity|]. simpl. rewrite Hon. eauto 10.
  - simpl.
    destruct (succeeded res') eqn:Hres'; simpl; [|intros [= <-]; by left].
    apply Z.eqb_eq in Hres' as ->.
    destruct (port_status_kept (status s)) eqn:Hk; simpl; intros [= <-]; [|by left].
    right. eexists. split; [reflexivity|]. simpl. rewrite Hon. eauto 10.
Qed.

Lemma capture_port_kept root_osdev nr_sub_osdevs sub_osdevs port hports hports' :
  capture_port root_osdev nr_sub_osdevs sub_osdevs port hports = Some hports' ->
  Forall healthy_or_degraded (ports hports) ->
  Forall healthy_or_degraded (ports hports').
Proof.
  intros [->|(e & -> & _ & _ & Hk & _)]%capture_port_inv Hall; [done|]. simpl.
  apply Forall_app. split; [done|]. apply Forall_singleton.
  by apply port_status_kept_spec.
Qed.

Lemma fold_opt_invariant {A S} (f : A -> S -> option S) (I : S -> Prop) l :
  (forall a s s', f a s = Some s' -> I s -> I s') ->
  forall s s', fold_opt f l s = Some s' -> I s -> I s'.
Proof.
  intros Hf. induction l as [|a l IH]; intros s s'; simpl.
  - by intros [= <-].
  - destruct (f a s) as [s1|] eqn:Hs1; [|done]. simpl. intros Hl HI.
    eapply IH; [done|]. by eapply Hf.
Qed.

Lemma ports_get_kept zesh root_osdev nr_sub_osdevs sub_osdevs hports w :
  Forall healthy_or_degraded (ports hports) ->
  wp (hwloc__levelzero_ports_get zesh root_osdev nr_sub_osdevs sub_osdevs hports) w
     (fun hports' _ => Forall healthy_or_degraded (ports hports')).
Proof.
  intros Hall. unfold hwloc__levelzero_ports_get.
  destruct (zesDeviceEnumFabricPorts zesh) as [[res res2] fports].
  destruct (negb (succeeded res) || _); [by apply wp_ret|].
  apply wp_bind.
  apply wp_mono with
    (Q := fun ext _ => forall h, ext = Some h -> Forall healthy_or_degraded (ports h)).
  { destruct (_ <? _); [|apply wp_ret; by intros h [= <-]].
    apply wp_skip. intros [|stale] w1; apply wp_ret; [done|]. by intros h [= <-]. }
  intros [h|] w1 Hh; [|by apply wp_ret].
  specialize (Hh h eq_refl).
  apply wp_skip. intros [|stale] w2; [by apply wp_ret|].
  destruct (succeeded res2); [|apply wp_undefined].
  apply wp_lift. intros h' Hfold.
  eapply (fold_opt_invariant _ (fun h => Forall healthy_or_degraded (ports h))); [|done..].
  intros a s s'. apply capture_port_kept.
Qed.

Lemma discover_device_kept topology zesdr i j zeh s w :
  Forall healthy_or_degraded (ports (ps_hports s)) ->
  wp (discover_device topology zesdr i j zeh s) w
     (fun s' _ => Forall healthy_or_degraded (ports (ps_hports s'))).
Proof.
  intros Hall. unfold discover_device.
  destruct (zeDeviceGetProperties (ze_core zeh)) as [res props].
  destruct (negb (succeeded res)); [by apply wp_ret|].
  destruct (zesDriverGetDeviceByUuidExp _ _) as [zesh|]; [|by apply wp_ret].
  do 6 (apply wp_skip; intros ? ?).
  apply wp_skip. intros [nr_subdevices subosdevs] ?.
  apply wp_skip; intros ? ?.
  apply wp_bind.
  apply wp_mono with (Q := fun hp _ => Forall healthy_or_degraded (ports hp)).
  { destruct (negb _); [by apply ports_get_kept|by apply wp_ret]. }
  intros hp ? Hhp.
  do 2 (apply wp_skip; intros ? ?).
  by apply wp_ret.
Qed.

Lemma discover_driver_kept topology zesdrh i drh_i s w :
  Forall healthy_or_degraded (ports (ps_hports s)) ->
  wp (discover_driver topology zesdrh i drh_i s) w
     (fun s' _ => Forall healthy_or_degraded (ports (ps_hports s'))).
Proof.
  intros Hall. unfold discover_driver.
  destruct (zeDeviceGet drh_i) as [[res res2] dvh].
  destruct (negb (succeeded res) || _); [by apply wp_ret|].
  apply wp_skip. intros [|stale] ?; [by apply wp_ret|].
  destruct (negb (succeeded res2)); [by apply wp_ret|].
  apply wp_skip. intros zesdr ?.
  apply (wp_for_each _ (fun s' _ => Forall healthy_or_degraded (ports (ps_hports s')))); [done|].
  intros. by apply discover_device_kept.
Qed.

Lemma devices_get_kept topology lz oarray hports w :
  Forall healthy_or_degraded (ports hports) ->
  wp (hwloc__levelzero_devices_get topology lz oarray hports) w
     (fun r _ => Forall healthy_or_degraded (ports r.2)).
Proof.
  intros Hall. unfold hwloc__levelzero_devices_get.
  destruct (zeDriverGet lz) as [[res res2] drh].
  destruct (negb (succeeded res) || _); [by apply wp_ret|].
  destruct (zesDriverGet lz) as [[zres zres2] zesdrh].
  destruct (negb (succeeded zres) || _); [by apply wp_ret|].
  apply wp_skip. intros a1 ?. apply wp_skip. intros a2 ?.
  destruct a1, a2; try by apply wp_ret.
  destruct (negb (succeeded res2)); [by apply wp_ret|].
  destruct (negb (succeeded zres2)); [by apply wp_ret|].
  apply wp_bind.
  eapply wp_mono.
  { apply (wp_for_each _ (fun s' _ => Forall healthy_or_degraded (ports (ps_hports s'))));
      [done|]. intros. by apply discover_driver_kept. }
  intros s' ? Hs'. by apply wp_ret.
Qed.

(** C6: every port observation retained in the fabric-port registry has
    health status healthy or degraded; a port whose properties or state
    query fails, or whose state reports another status, is discarded when
    it is captured: the registry the builder receives is unchanged by it. *)
Theorem retained_ports_healthy_or_degraded topology lz oarray hports w n oarray' hports' w' :
  Forall healthy_or_degraded (ports hports) ->
  hwloc__levelzero_devices_get topology lz oarray hports w = Ret (n, oarray', hports') w' ->
  Forall healthy_or_degraded (ports hports')
  /\ forall root_osdev nr_sub_osdevs sub_osdevs port h h',
       (zesFabricPortGetProperties port).1 <> ZE_RESULT_SUCCESS
       \/ (zesFabricPortGetState port).1 <> ZE_RESULT_SUCCESS
       \/ ~ kept_status (status (zesFabricPortGetState port).2) ->
       capture_port root_osdev nr_sub_osdevs sub_osdevs port h = Some h' ->
       h' = h.
Proof.
  intros Hall Hrun. split.
  - by apply (wp_elim _ _ _ _ _ (devices_get_kept topology lz oarray hports w Hall) Hrun).
  - intros * Hbad [->|(e & -> & Hp & Hs & Hk & _)]%capture_port_inv; [done|].
    exfalso. rewrite Hp, Hs in Hbad. simpl in Hbad.
    destruct Hbad as [?|[?|Hn]]; [done..|].
    apply Hn. by apply port_status_kept_spec.
Qed.


Lemma uint64_range z : 0 <= uint64 z < 2 ^ 64.
Proof. unfold uint64. apply Z.mod_pos_bound. lia. Qed.

Lemma uint64_small z : 0 <= z < 2 ^ 64 -> uint64 z = z.
Proof. unfold uint64. intros. by apply Z.mod_small. Qed.

Lemma uint64_add_l a b : uint64 (uint64 a + b) = uint64 (a + b).
Proof. unfold uint64. by rewrite Zplus_mod_idemp_l. Qed.

Lemma deref_update_ne st p q o : p <> q -> deref (update_obj st p o) q = deref st q.
Proof.
  destruct p as [|i], q as [|j]; simpl; try done.
  intros Hne. apply list_lookup_insert_ne. congruence.
Qed.

Lemma deref_update_eq st p o : is_Some (deref st p) -> deref (update_obj st p o) p = Some o.
Proof.
  destruct p as [|i]; simpl; [by intros [? ?]|].
  intros [? H]. apply list_lookup_insert_eq. by eapply lookup_lt_Some.
Qed.

Lemma deref_update_is_Some st p o q : is_Some (deref st q) -> is_Some (deref (update_obj st p o) q).
Proof.
  destruct p as [|i]; [done|]. destruct q as [|j]; simpl; [done|].
  rewrite !lookup_lt_is_Some, length_insert. done.
Qed.

Lemma length_update_obj st p o : length (update_obj st p o) = length st.
Proof. destruct p; simpl; [done|]. apply length_insert. Qed.

Lemma eqb_NULL_false (p : hwloc_obj_t) : Nat.eqb p NULL = false <-> p <> NULL.
Proof. apply Nat.eqb_neq. Qed.

Lemma hwloc_obj_add_info_inv st p name value st' :
  hwloc_obj_add_info st p name value = Some st' ->
  exists o, deref st p = Some o /\ st' = update_obj st p (add_info o name value).
Proof.
  unfold hwloc_obj_add_info. destruct (deref st p) as [o|]; [|done].
  simpl. intros [= <-]. eauto.
Qed.

(** One module: the totals, and what happens to the store. *)
Arguments memory_module : simpl never.

Lemma memory_module_inv root_osdev nr_osdevs sub_osdevs mh st hbm ddr st' hbm' ddr' :
  memory_module root_osdev nr_osdevs sub_osdevs mh (st, hbm, ddr) = Some (st', hbm', ddr') ->
  0 <= hbm < 2 ^ 64 -> 0 <= ddr < 2 ^ 64 ->
  hbm' = uint64 (hbm + module_kB HBM_bucket mh)
  /\ ddr' = uint64 (ddr + module_kB DDR_bucket mh)
  /\ deref st' root_osdev = deref st root_osdev
  /\ length st' = length st
  /\ (forall q, is_Some (deref st q) -> is_Some (deref st' q)).
Proof.
  unfold memory_module, module_kB.
  destruct (zesMemoryGetProperties mh) as [res mprop].
  destruct (succeeded res); simpl.
  2:{ intros [= <- <- <-] ? ?. rewrite !Z.add_0_r, !uint64_small by done. done. }
  intros H Hh Hd.
  destruct (if mem_onSubdevice mprop then _ else _) as [owner|]; [|done]. simpl in H.
  destruct (mem_type mprop); simpl in H |- *;
    rewrite ?Z.add_0_r, ?(uint64_small hbm), ?(uint64_small ddr) by done;
    (destruct (Nat.eqb owner NULL || _); [by injection H as <- <- <-|]);
    (destruct (Nat.eqb owner root_osdev) eqn:Hne; simpl in H; [by injection H as <- <- <-|]);
    apply Nat.eqb_neq in Hne;
    (destruct (hwloc_obj_add_info _ _ _ _) as [st1|] eqn:Ha; [|done]);
    simpl in H; injection H as <- <- <-;
    apply hwloc_obj_add_info_inv in Ha as (o & Ho & ->);
    split_and!; auto using deref_update_ne, length_update_obj, deref_update_is_Some.
Qed.

Lemma memory_modules_inv root_osdev nr_osdevs sub_osdevs mems :
  forall st hbm ddr st' hbm' ddr',
  fold_opt (memory_module root_osdev nr_osdevs sub_osdevs) mems (st, hbm, ddr)
    = Some (st', hbm', ddr') ->
  0 <= hbm < 2 ^ 64 -> 0 <= ddr < 2 ^ 64 ->
  hbm' = uint64 (hbm + sumZ (map (module_kB HBM_bucket) mems))
  /\ ddr' = uint64 (ddr + sumZ (map (module_kB DDR_bucket) mems))
  /\ deref st' root_osdev = deref st root_osdev
  /\ length st' = length st.
Proof.
  induction mems as [|mh mems IH]; intros st hbm ddr st' hbm' ddr'; simpl.
  - intros [= <- <- <-] ? ?. rewrite !Z.add_0_r, !uint64_small by done. done.
  - destruct (memory_module root_osdev nr_osdevs sub_osdevs mh (st, hbm, ddr))
      as [[[st1 hbm1] ddr1]|] eqn:H1; simpl; [|done].
    intros H Hh Hd.
    apply memory_module_inv in H1 as (-> & -> & Hr1 & Hl1 & _); [|done..].
    apply IH in H as (-> & -> & Hr & Hl); [|apply uint64_range..].
    rewrite !uint64_add_l, !Z.add_assoc. split_and!; congruence.
Qed.

(** With a well-formed array of subdevice objects the loop is defined. *)
Lemma memory_module_defined root_osdev nr_osdevs sub_osdevs mh st hbm ddr :
  valid_array st nr_osdevs sub_osdevs ->
  is_Some (memory_module root_osdev nr_osdevs sub_osdevs mh (st, hbm, ddr)).
Proof.
  intros Hv. unfold memory_module.
  destruct (zesMemoryGetProperties mh) as [res mprop].
  destruct (succeeded res); [|by eexists].
  destruct (if mem_onSubdevice mprop then _ else _) as [owner|] eqn:Ho.
  - assert (owner = NULL \/ owner = root_osdev \/ is_Some (deref st owner)) as Howner.
    { destruct (mem_onSubdevice mprop); [|injection Ho as <-; by eauto].
      destruct (_ || _) eqn:Hc; [injection Ho as <-; by eauto|].
      destruct sub_osdevs as [subs|]; [|done]. simpl in Ho.
      destruct (Hv subs eq_refl) as (Hpos & Hlen & Hall).
      eapply Forall_lookup_1 in Hall as [->|?]; eauto. }
    simpl.
    assert (forall (ty : string) (h d : Z),
      is_Some (if Nat.eqb owner NULL || (module_physicalSize mh mprop =? 0)
               then Some (st, h, d)
               else if negb (Nat.eqb owner root_osdev)
                    then st' ← hwloc_obj_add_info st owner ("LevelZero" +:+ ty +:+ "Size")
                                  (fmt_u (Z.shiftr (module_physicalSize mh mprop) 10));
                         Some (st', h, d)
                    else Some (st, h, d))) as Hrest.
    { intros ty h d.
      destruct (Nat.eqb owner NULL) eqn:Hnull; simpl; [by eexists|].
      destruct (module_physicalSize mh mprop =? 0); [by eexists|].
      destruct (Nat.eqb owner root_osdev) eqn:Hroot; simpl; [by eexists|].
      apply Nat.eqb_neq in Hnull, Hroot.
      destruct Howner as [?|[?|[o Ho']]]; [done..|].
      unfold hwloc_obj_add_info. rewrite Ho'. simpl. by eexists. }
    destruct (mem_type mprop); apply Hrest.
  - exfalso.
    destruct (mem_onSubdevice mprop); [|done].
    destruct (Z.leb_spec nr_osdevs (mem_subdeviceId mprop)); simpl in Ho; [done|].
    destruct (Z.eqb_spec nr_osdevs 0); simpl in Ho; [done|].
    destruct sub_osdevs as [subs|]; simpl in Ho; [|done].
    destruct (Hv subs eq_refl) as (Hpos & Hlen & Hall).
    apply lookup_ge_None in Ho. lia.
Qed.

Lemma valid_array_preserved st st' nr_osdevs sub_osdevs :
  (forall q, is_Some (deref st q) -> is_Some (deref st' q)) ->
  valid_array st nr_osdevs sub_osdevs -> valid_array st' nr_osdevs sub_osdevs.
Proof.
  intros Hq Hv subs Hs. destruct (Hv subs Hs) as (Hpos & Hl & Hall). split_and!; [done..|].
  eapply Forall_impl; [done|]. simpl. intros p [?|?]; auto.
Qed.

Lemma memory_modules_defined root_osdev nr_osdevs sub_osdevs mems :
  forall st hbm ddr,
  valid_array st nr_osdevs sub_osdevs ->
  is_Some (fold_opt (memory_module root_osdev nr_osdevs sub_osdevs) mems (st, hbm, ddr)).
Proof.
  induction mems as [|mh mems IH]; intros st hbm ddr Hv; simpl; [by eauto|].
  destruct (memory_module_defined root_osdev nr_osdevs sub_osdevs mh st hbm ddr Hv)
    as [[[st1 hbm1] ddr1] H1].
  rewrite H1. simpl. apply IH.
  eapply valid_array_preserved; [|done].
  unfold memory_module in H1. revert H1.
  destruct (zesMemoryGetProperties mh) as [res mprop].
  destruct (succeeded res); [|by intros [= <- <- <-]].
  destruct (if mem_onSubdevice mprop then _ else _) as [owner|]; [|done]. simpl.
  intros H1 q Hq.
  assert (st1 = st \/ exists p o, st1 = update_obj st p o) as [->|(p & o & ->)]; [|done|].
  { destruct (mem_type mprop); simpl in H1;
      (destruct (Nat.eqb owner NULL || _); [injection H1 as <- <- <-; by left|]);
      (destruct (negb _); [|injection H1 as <- <- <-; by left]);
      (destruct (hwloc_obj_add_info _ _ _ _) as [st2|] eqn:Ha; [|done]);
      simpl in H1; injection H1 as <- <- <-;
      apply hwloc_obj_add_info_inv in Ha as (o & _ & ->); right; eauto. }
  by apply deref_update_is_Some.
Qed.

(** Running a computation step by step. *)
Lemma bind_run {A B} (m : M A) (f : A -> M B) w a w1 :
  m w = Ret a w1 -> (m ≫= f) w = f a w1.
Proof. unfold mbind, M_bind. by intros ->. Qed.

Lemma obj_add_info_run p name value w o :
  deref (w_objs w) p = Some o ->
  exists w', obj_add_info p name value w = Ret tt w'
    /\ w_objs w' = update_obj (w_objs w) p (add_info o name value)
    /\ w_tree w' = w_tree w /\ w_heap w' = w_heap w.
Proof.
  intros Ho. unfold obj_add_info, hwloc_obj_add_info, get_objs, set_objs, mbind, M_bind.
  simpl. rewrite Ho. simpl. eauto.
Qed.

Lemma alloc_run w :
  head (w_heap w) <> Some ENOMEM ->
  exists stale w', alloc w = Ret (Block stale) w'
    /\ w_objs w' = w_objs w /\ w_tree w' = w_tree w.
Proof.
  unfold alloc. destruct (w_heap w) as [|[|stale] rest]; simpl; [by eauto|done|by eauto].
Qed.

Lemma when_attribute_run (name : string) total p w o :
  deref (w_objs w) p = Some o ->
  exists w' o',
    (if negb (total =? 0) then obj_add_info p name (fmt_u total) else mret tt) w = Ret tt w'
    /\ deref (w_objs w') p = Some o'
    /\ obj_infos o' = obj_infos o ++ bucket_attribute name total
    /\ w_tree w' = w_tree w /\ w_heap w' = w_heap w.
Proof.
  intros Ho. unfold bucket_attribute. destruct (total =? 0); simpl.
  - exists w, o. rewrite app_nil_r. done.
  - destruct (obj_add_info_run p name (fmt_u total) w o Ho) as (w' & Hrun & Hobjs & Ht & Hh).
    exists w', (add_info o name (fmt_u total)). split_and!; try done.
    rewrite Hobjs. apply deref_update_eq. by eauto.
Qed.

Lemma memory_get_aggregates zesh root_osdev nr_osdevs sub_osdevs w mems o :
  zesDeviceEnumMemoryModules zesh = (ZE_RESULT_SUCCESS, ZE_RESULT_SUCCESS, mems) ->
  mems <> [] ->
  head (w_heap w) <> Some ENOMEM ->
  deref (w_objs w) root_osdev = Some o ->
  valid_array (w_objs w) nr_osdevs sub_osdevs ->
  exists w' o',
    hwloc__levelzero_memory_get zesh root_osdev nr_osdevs sub_osdevs w = Ret 0 w'
    /\ deref (w_objs w') root_osdev = Some o'
    /\ obj_infos o' =
         obj_infos o
         ++ bucket_attribute "LevelZeroHBMSize" (uint64 (sumZ (map (module_kB HBM_bucket) mems)))
         ++ bucket_attribute "LevelZeroDDRSize" (uint64 (sumZ (map (module_kB DDR_bucket) mems))).
Proof.
  intros Henum Hne Hheap Ho Hv. unfold hwloc__levelzero_memory_get. rewrite Henum.
  change (succeeded ZE_RESULT_SUCCESS) with true. change (negb true) with false.
  cbv iota beta zeta.
  destruct (Z.eqb_spec (Z.of_nat (length mems)) 0) as [E|_].
  { destruct mems; [done|]. simpl in E. lia. }
  destruct (alloc_run w Hheap) as (stale & w1 & Ha & Hobjs1 & Htree1).
  rewrite (bind_run _ _ _ _ _ Ha).
  destruct (memory_modules_defined root_osdev nr_osdevs sub_osdevs mems (w_objs w1) 0 0)
    as [[[st' hbm] ddr] Hfold]; [by rewrite Hobjs1|].
  pose proof Hfold as Hinv.
  apply memory_modules_inv in Hinv as (-> & -> & Hroot & Hlen); [|lia..].
  rewrite ?Z.add_0_l.
  set (H := uint64 (sumZ (map (module_kB HBM_bucket) mems))).
  set (D := uint64 (sumZ (map (module_kB DDR_bucket) mems))).
  match goal with
  | |- exists w' o', (?m ≫= ?f) w1 = _ /\ _ =>
      assert (exists w2, m w1 = Ret (H, D) w2 /\ w_objs w2 = st') as (w2 & Hm & Hobjs2)
  end.
  { unfold mbind, M_bind, get_objs, set_objs, lift. simpl. rewrite Hfold.
    subst H D. rewrite ?Z.add_0_l. simpl. eauto. }
  rewrite (bind_run _ _ _ _ _ Hm). cbv beta iota.
  assert (deref (w_objs w2) root_osdev = Some o) as Ho2.
  { by rewrite Hobjs2, Hroot, Hobjs1. }
  destruct (when_attribute_run "LevelZeroHBMSize" H root_osdev w2 o Ho2)
    as (w3 & o3 & Hrun3 & Ho3 & Hi3 & _).
  rewrite (bind_run _ _ _ _ _ Hrun3).
  destruct (when_attribute_run "LevelZeroDDRSize" D root_osdev w3 o3 Ho3)
    as (w4 & o4 & Hrun4 & Ho4 & Hi4 & _).
  rewrite (bind_run _ _ _ _ _ Hrun4).
  exists w4, o4. split_and!; [done..|].
  by rewrite Hi4, Hi3, <- app_assoc.
Qed.

Lemma sumZ_app (l1 l2 : list Z) : sumZ (l1 ++ l2) = sumZ l1 + sumZ l2.
Proof. induction l1 as [|x l1 IH]; [done|]. unfold sumZ in *. simpl. rewrite IH. lia. Qed.

(** C7: a memory module owned by a subdevice whose reported index is out
    of the range of the subdevice nodes is attributed to no tree node (the
    object store is left as it was), and its size, in kibibytes, is still
    added to the device-level total of its technology bucket. *)
Theorem out_of_range_module_is_aggregated root_osdev nr_osdevs sub_osdevs mh mprop st hbm ddr :
  zesMemoryGetProperties mh = (ZE_RESULT_SUCCESS, mprop) ->
  mem_onSubdevice mprop = true ->
  nr_osdevs <= mem_subdeviceId mprop ->
  memory_module root_osdev nr_osdevs sub_osdevs mh (st, hbm, ddr)
  = Some (st,
          match bucket_of (mem_type mprop) with
          | Some HBM_bucket => uint64 (hbm + Z.shiftr (module_physicalSize mh mprop) 10)
          | _ => hbm
          end,
          match bucket_of (mem_type mprop) with
          | Some DDR_bucket => uint64 (ddr + Z.shiftr (module_physicalSize mh mprop) 10)
          | _ => ddr
          end).
Proof.
  intros Hp Hon Hout. unfold memory_module. rewrite Hp, Hon.
  change (succeeded ZE_RESULT_SUCCESS) with true. cbv iota.
  rewrite (proj2 (Z.leb_le nr_osdevs (mem_subdeviceId mprop)) Hout). simpl.
  by destruct (mem_type mprop).
Qed.

(** C8: a memory module whose properties report a physical size of zero
    and whose memory state is read with a non-zero size is given the size
    of its state; that size, in kibibytes, is a summand of the total of its
    technology bucket, and the totals are what the device receives as its
    aggregate attributes (an attribute is written when its total is not
    zero). *)
Theorem zero_physical_size_uses_memory_state
    zesh root_osdev nr_osdevs sub_osdevs w o pre mh post mprop s b :
  zesDeviceEnumMemoryModules zesh
    = (ZE_RESULT_SUCCESS, ZE_RESULT_SUCCESS, pre ++ mh :: post) ->
  head (w_heap w) <> Some ENOMEM ->
  deref (w_objs w) root_osdev = Some o ->
  valid_array (w_objs w) nr_osdevs sub_osdevs ->
  zesMemoryGetProperties mh = (ZE_RESULT_SUCCESS, mprop) ->
  physicalSize mprop = 0 ->
  zesMemoryGetState mh = (ZE_RESULT_SUCCESS, s) ->
  mem_state_size s <> 0 ->
  bucket_of (mem_type mprop) = Some b ->
  module_physicalSize mh mprop = mem_state_size s
  /\ exists w' o' total,
       hwloc__levelzero_memory_get zesh root_osdev nr_osdevs sub_osdevs w = Ret 0 w'
       /\ deref (w_objs w') root_osdev = Some o'
       /\ total = (fun b' => uint64 (sumZ (map (module_kB b') (pre ++ mh :: post))))
       /\ total b = uint64 (Z.shiftr (mem_state_size s) 10
                            + sumZ (map (module_kB b) (pre ++ post)))
       /\ obj_infos o' = obj_infos o
                         ++ bucket_attribute (aggregate_name HBM_bucket) (total HBM_bucket)
                         ++ bucket_attribute (aggregate_name DDR_bucket) (total DDR_bucket).
Proof.
  intros Henum Hheap Ho Hv Hp Hzero Hs Hlive Hb.
  assert (module_physicalSize mh mprop = mem_state_size s) as Hsize.
  { unfold module_physicalSize. rewrite Hzero, Hs. done. }
  split; [done|].
  destruct (memory_get_aggregates zesh root_osdev nr_osdevs sub_osdevs w _ o
              Henum ltac:(by destruct pre) Hheap Ho Hv) as (w' & o' & Hrun & Ho' & Hinfos).
  exists w', o', (fun b' => uint64 (sumZ (map (module_kB b') (pre ++ mh :: post)))).
  split_and!; try done.
  f_equal. rewrite !map_app, !sumZ_app. simpl map.
  change (sumZ (module_kB b mh :: map (module_kB b) post))
    with (module_kB b mh + sumZ (map (module_kB b) post)).
  assert (module_kB b mh = Z.shiftr (mem_state_size s) 10) as ->; [|lia].
  unfold module_kB. rewrite Hp, Hb, Hsize.
  change (succeeded ZE_RESULT_SUCCESS) with true.
  by rewrite bool_decide_eq_true_2.
Qed.

Arguments fill_block : simpl never.

Lemma uint32_small z : 0 <= z < 2 ^ 32 -> uint32 z = z.
Proof. unfold uint32. intros. by apply Z.mod_small. Qed.

Lemma uint32_range z : 0 <= uint32 z < 2 ^ 32.
Proof. unfold uint32. apply Z.mod_pos_bound. lia. Qed.

Lemma paints_set L v idx :
  (Z.to_nat idx < L)%nat -> paints L v (fun b => bws_set b idx v) (fun k => k = Z.to_nat idx).
Proof.
  intros Hidx b Hb. unfold bws_set.
  destruct (lookup_lt_is_Some_2 b (Z.to_nat idx)) as [old Hold]; [lia|].
  rewrite Hold. simpl. eexists. split; [done|]. split_and!.
  - by rewrite length_insert.
  - intros k Hk. destruct (decide (k = Z.to_nat idx)) as [->|Hne].
    + apply list_lookup_insert_eq. lia.
    + by rewrite list_lookup_insert_ne.
  - intros k ->. apply list_lookup_insert_eq. lia.
Qed.

Lemma paints_fold {A} L v (f : A -> list Z -> option (list Z)) (T : A -> nat -> Prop) xs :
  (forall x, x ∈ xs -> paints L v (f x) (T x)) ->
  paints L v (fold_opt f xs) (fun k => exists x, x ∈ xs /\ T x k).
Proof.
  induction xs as [|x xs IH]; intros Hxs b Hb.
  - exists b. split_and!; try done. by intros k (x & ?%elem_of_nil & _).
  - simpl. destruct (Hxs x (list_elem_of_here _ _) b Hb) as (b1 & -> & Hl1 & Hk1 & Ht1). simpl.
    destruct (IH (fun y Hy => Hxs y (list_elem_of_further _ _ _ Hy)) b1 Hl1)
      as (b2 & -> & Hl2 & Hk2 & Ht2).
    exists b2. split_and!; auto.
    intros k (y & [->|Hy]%elem_of_cons & HT); [auto|]. apply Ht2. eauto.
Qed.

Lemma fill_block_paints (n i c : Z) :
  0 <= i -> 0 <= c -> i + c < n -> n * n < 2 ^ 32 ->
  paints (Z.to_nat (n * n)) LOCAL_BANDWIDTH (fill_block n i c)
         (fun cell => exists r col, i <= r <= i + c /\ i <= col <= i + c
                                    /\ cell = Z.to_nat (r * n + col)).
Proof.
  intros Hi Hc Hfit Hn. unfold fill_block.
  assert (n < 2 ^ 32) as Hn32 by nia.
  rewrite (uint32_small (c + 1)) by lia.
  intros b Hb.
  edestruct (paints_fold (Z.to_nat (n * n)) LOCAL_BANDWIDTH
     (fun (j : nat) (bws : list Z) =>
        fold_opt (fun (k : nat) (bws0 : list Z) =>
                    bws_set bws0 (uint32 (uint32 (i + Z.of_nat j) * n + uint32 (i + Z.of_nat k)))
                            LOCAL_BANDWIDTH)
                 (seq 0 (Z.to_nat (c + 1))) bws)
     (fun (j : nat) cell =>
        exists k : nat, k ∈ seq 0 (Z.to_nat (c + 1))
          /\ cell = Z.to_nat ((i + Z.of_nat j) * n + (i + Z.of_nat k)))
     (seq 0 (Z.to_nat (c + 1)))) as (b' & Hrun & Hl & Hkeep & Hset); [|exact Hb|].
  - intros j Hj%elem_of_seq.
    eapply (paints_fold _ _ _
              (fun (k : nat) cell => cell = Z.to_nat ((i + Z.of_nat j) * n + (i + Z.of_nat k)))).
    intros k Hk%elem_of_seq.
    assert (uint32 (uint32 (i + Z.of_nat j) * n + uint32 (i + Z.of_nat k))
            = (i + Z.of_nat j) * n + (i + Z.of_nat k)) as ->.
    { rewrite !(uint32_small (i + _)) by lia. apply uint32_small. nia. }
    apply paints_set. nia.
  - exists b'. split_and!; try done.
    intros cell (r & col & Hr & Hcol & ->). apply Hset.
    exists (Z.to_nat (r - i)). split; [apply elem_of_seq; lia|].
    exists (Z.to_nat (col - i)). split; [apply elem_of_seq; lia|].
    f_equal. rewrite !Z2Nat.id by lia. f_equal; lia.
Qed.

Lemma recorded_subdevices_nonneg st p c : recorded_subdevices st p = Some c -> 0 <= c.
Proof.
  unfold recorded_subdevices.
  destruct (hwloc_obj_get_info_by_name st p _) as [[v|]|]; simpl; intros [= <-]; [|done].
  apply uint32_range.
Qed.

Lemma subdevice_count_nonneg st oarray i c : subdevice_count st oarray i = Some c -> 0 <= c.
Proof.
  unfold subdevice_count. destruct (objs oarray !! Z.to_nat i) as [p|]; [|done].
  apply recorded_subdevices_nonneg.
Qed.

Lemma fill_loop_walk st oarray (L : nat) :
  let n := nr oarray in
  n * n < 2 ^ 32 -> L = Z.to_nat (n * n) ->
  forall fuel i bws landed,
  0 <= i -> length bws = L -> Z.max 0 (n - i) < Z.of_nat fuel ->
  (forall x, x ∈ walk st oarray fuel i ->
      exists c, subdevice_count st oarray x = Some c /\ x + c < n) ->
  exists bws',
    fill_loop st oarray fuel i bws landed = Some (bws', landed ++ walk st oarray fuel i)
    /\ length bws' = L
    /\ (forall k, bws !! k = Some LOCAL_BANDWIDTH -> bws' !! k = Some LOCAL_BANDWIDTH)
    /\ (forall x c r col, x ∈ walk st oarray fuel i -> subdevice_count st oarray x = Some c ->
          x <= r <= x + c -> x <= col <= x + c ->
          bws' !! Z.to_nat (r * n + col) = Some LOCAL_BANDWIDTH).
Proof.
  intros n Hn HL. induction fuel as [|fuel IH]; intros i bws landed Hi Hb Hfuel Hfit; [lia|].
  simpl. fold n. simpl in Hfit. fold n in Hfit.
  destruct (Z.ltb_spec i n) as [Hlt|Hge].
  - destruct (Hfit i (list_elem_of_here _ _)) as (c & Hc & Hfits).
    rewrite Hc in Hfit |- *. pose proof (subdevice_count_nonneg _ _ _ _ Hc) as Hc0.
    unfold subdevice_count in Hc.
    destruct (objs oarray !! Z.to_nat i) as [p|] eqn:Hp0; [|done]. simpl in Hc |- *.
    rewrite Hc. simpl.
    pose proof (fill_block_paints n i c Hi Hc0 Hfits Hn) as Hp. unfold paints in Hp.
    destruct (Hp bws) as (b1 & -> & Hl1 & Hk1 & Ht1); [lia|]. clear Hp. simpl.
    assert (n < 2 ^ 32) as Hn32 by nia.
    rewrite (uint32_small (i + c)), (uint32_small (i + c + 1)) by lia.
    destruct (IH (i + c + 1) b1 (landed ++ [i])) as (b2 & -> & Hl2 & Hk2 & Ht2);
      [lia|lia|lia| |].
    { intros x Hx. apply Hfit. by apply list_elem_of_further. }
    exists b2. rewrite <- app_assoc. split_and!; [done|done|by auto|].
    intros x c' r col [->|Hx]%elem_of_cons Hc' Hr Hcol.
    + assert (c' = c) as ->.
      { unfold subdevice_count in Hc'. rewrite Hp0 in Hc'. simpl in Hc'. congruence. }
      apply Hk2, Ht1. eauto.
    + eauto.
  - exists bws. rewrite app_nil_r. split_and!; try done.
    intros x c r col Hx. by apply elem_of_nil in Hx.
Qed.

Lemma walk_ge st oarray fuel : forall i x, x ∈ walk st oarray fuel i -> i <= x.
Proof.
  induction fuel as [|fuel IH]; intros i x; simpl; [by intros ?%elem_of_nil|].
  destruct (i <? nr oarray); [|by intros ?%elem_of_nil].
  intros [->|Hx]%elem_of_cons; [lia|].
  destruct (subdevice_count st oarray i) as [c|] eqn:Hc; [|by apply elem_of_nil in Hx].
  apply IH in Hx. apply subdevice_count_nonneg in Hc. lia.
Qed.

Lemma walk_skips st oarray fuel :
  forall i x c x', x ∈ walk st oarray fuel i -> subdevice_count st oarray x = Some c ->
    x' ∈ walk st oarray fuel i -> x < x' -> x + c < x'.
Proof.
  induction fuel as [|fuel IH]; intros i x c x'; simpl; [by intros ?%elem_of_nil|].
  destruct (i <? nr oarray); [|by intros ?%elem_of_nil].
  intros [->|Hx]%elem_of_cons Hc [->|Hx']%elem_of_cons Hlt.
  - lia.
  - rewrite Hc in Hx'. apply walk_ge in Hx'. lia.
  - destruct (subdevice_count st oarray i) as [c'|] eqn:Hc'; [|by apply elem_of_nil in Hx].
    apply walk_ge in Hx. apply subdevice_count_nonneg in Hc'. lia.
  - destruct (subdevice_count st oarray i) as [c'|]; [|by apply elem_of_nil in Hx].
    by eapply IH.
Qed.

(** X28: when the matrix has less than 2^32 cells and every block stays
    inside the registry ([i + c < nr] at every landing index), the
    synthetic locality fill returns and its outer walk lands exactly on
    the indexes of [landing_indexes]; for each of them, with [c] the
    recorded subdevice count of the device (0 without the attribute),
    every cell with row and column in [i, i+c] holds 1000000 in the end,
    whatever the matrix held before, and the walk then skips past the
    whole range: the landing indexes after [i] are beyond [i+c]. *)
Theorem synthetic_fill_blocks st oarray bws :
  0 <= nr oarray ->
  nr oarray * nr oarray < 2 ^ 32 ->
  Z.of_nat (length bws) = nr oarray * nr oarray ->
  (forall i, i ∈ landing_indexes st oarray ->
     exists c, subdevice_count st oarray i = Some c /\ i + c < nr oarray) ->
  exists bws',
    synthetic_fill st oarray bws = Some (bws', landing_indexes st oarray)
    /\ (forall i c, i ∈ landing_indexes st oarray -> subdevice_count st oarray i = Some c ->
          (forall r col, i <= r <= i + c -> i <= col <= i + c ->
             bws' !! Z.to_nat (r * nr oarray + col) = Some LOCAL_BANDWIDTH)
          /\ (forall i', i' ∈ landing_indexes st oarray -> i < i' -> i + c < i')).
Proof.
  intros Hn0 Hn Hlen Hfit. unfold synthetic_fill, landing_indexes in *.
  destruct (fill_loop_walk st oarray (Z.to_nat (nr oarray * nr oarray)) Hn eq_refl
              (S (Z.to_nat (nr oarray))) 0 bws []) as (bws' & Hrun & _ & _ & Hset);
    [lia|lia|lia|done|].
  exists bws'. split; [done|].
  intros i c Hi Hc. split.
  - intros r col Hr Hcol. by eapply Hset.
  - intros i' Hi' Hlt. by eapply walk_skips.
Qed.

Arguments connect_pair : simpl never.

Lemma adds_ext L f d d' : (forall k, d k = d' k) -> adds L f d -> adds L f d'.
Proof.
  intros Hd Hf b g b' g' Hb Hc Hrun. destruct (Hf b g b' g' Hb Hc Hrun) as (? & ? & Hk).
  split_and!; try done. intros k v Hv. rewrite <- Hd. auto.
Qed.

Lemma adds_skip L : adds L Some (fun _ => 0).
Proof.
  intros b g b' g' Hb Hc [= <- <-]. split_and!; try done.
  intros k v Hv. rewrite Z.add_0_r, uint64_small; [done|].
  by eapply (Forall_lookup_1 _ _ _ _ Hc).
Qed.

Lemma adds_none L d : adds L (fun _ => None) d.
Proof. by intros b g b' g' _ _ ?. Qed.

Lemma adds_fold {A} L (f : A -> list Z * Z -> option (list Z * Z)) (d : A -> nat -> Z) xs :
  (forall x, x ∈ xs -> adds L (f x) (d x)) ->
  adds L (fold_opt f xs) (fun k => sumZ (map (fun x => d x k) xs)).
Proof.
  induction xs as [|x xs IH]; intros Hxs.
  - apply adds_skip.
  - intros b g b2 g2 Hb Hc. simpl.
    destruct (f x (b, g)) as [[b1 g1]|] eqn:Hx; [|done]. simpl. intros Hrest.
    destruct (Hxs x (list_elem_of_here _ _) b g b1 g1 Hb Hc Hx) as (Hl1 & Hc1 & Hk1).
    destruct (IH (fun y Hy => Hxs y (list_elem_of_further _ _ _ Hy)) b1 g1 b2 g2 Hl1 Hc1 Hrest)
      as (Hl2 & Hc2 & Hk2).
    split_and!; try done.
    intros k v Hv. rewrite (Hk2 _ _ (Hk1 _ _ Hv)), uint64_add_l. unfold sumZ. simpl.
    by rewrite Z.add_assoc.
Qed.

Lemma runs_fold {A} L (f : A -> list Z * Z -> option (list Z * Z)) (d : A -> nat -> Z) xs :
  (forall x, x ∈ xs -> adds L (f x) (d x)) ->
  (forall x, x ∈ xs -> runs L (f x)) ->
  runs L (fold_opt f xs).
Proof.
  induction xs as [|x xs IH]; intros Hadds Hruns b g Hb Hc; simpl; [done|].
  destruct (Hruns x (list_elem_of_here _ _) b g Hb Hc) as [[b1 g1] Hx]. rewrite Hx. simpl.
  destruct (Hadds x (list_elem_of_here _ _) b g b1 g1 Hb Hc Hx) as (Hl1 & Hc1 & _).
  apply (IH (fun y Hy => Hadds y (list_elem_of_further _ _ _ Hy))
            (fun y Hy => Hruns y (list_elem_of_further _ _ _ Hy))); done.
Qed.

Lemma bws_add_spec L b idx m :
  length b = L -> canonical b -> (Z.to_nat idx < L)%nat ->
  exists b', bws_add b idx m = Some b' /\ length b' = L /\ canonical b'
    /\ (forall k v, b !! k = Some v ->
          b' !! k = Some (uint64 (v + if bool_decide (k = Z.to_nat idx) then m else 0))).
Proof.
  intros Hb Hc Hidx. unfold bws_add.
  destruct (lookup_lt_is_Some_2 b (Z.to_nat idx)) as [old Hold]; [lia|].
  rewrite Hold. simpl. eexists. split; [done|]. split_and!.
  - by rewrite length_insert.
  - apply Forall_insert; [done|]. apply uint64_range.
  - intros k v Hv. case_bool_decide as Hk; [subst k|].
    + rewrite list_lookup_insert_eq by lia. congruence.
    + rewrite list_lookup_insert_ne by done. rewrite Z.add_0_r, uint64_small; [done|].
      by eapply (Forall_lookup_1 _ _ _ _ Hc).
Qed.

Lemma find_from_range l x : forall i r,
  0 <= i -> i + Z.of_nat (length l) <= 2 ^ 31 ->
  find_from l i x = r -> r = -1 \/ i <= r < i + Z.of_nat (length l).
Proof.
  induction l as [|y l IH]; intros i r Hi Hlen; simpl; [by left|].
  simpl in Hlen. destruct (decide (y = x)).
  - unfold int_of_unsigned. destruct (Z.ltb_spec i (2 ^ 31)); intros <-; lia.
  - rewrite uint32_small by lia. intros H. apply IH in H; lia.
Qed.

Lemma array_find_range oarray x :
  0 <= nr oarray -> nr oarray < 2 ^ 31 ->
  hwloc__levelzero_osdev_array_find oarray x = -1
  \/ 0 <= hwloc__levelzero_osdev_array_find oarray x < nr oarray.
Proof.
  intros H0 H31. unfold hwloc__levelzero_osdev_array_find.
  destruct (find_from_range (registry oarray) x 0 _ (Z.le_refl 0) ltac:(unfold registry; rewrite length_take; lia) eq_refl)
    as [?|?]; [by left|right].
  unfold registry in *. rewrite length_take in *. lia.
Qed.

Lemma strcmp_XeLink s : (strcmp s "XeLink" =? 0) = bool_decide (c_str s = "XeLink"%string).
Proof.
  destruct (Z.eqb_spec (strcmp s "XeLink") 0) as [E|E].
  - apply strcmp_zero in E. by rewrite bool_decide_eq_true_2.
  - rewrite bool_decide_eq_false_2; [done|]. intros Hs. by apply E, strcmp_zero.
Qed.

Section Accumulation.

(** The registry the matrix is built for: its size is an [unsigned], and
    the matrix of its square has less than 2^32 cells. *)
Variable st : list hwloc_obj.

Variable oarray : hwloc_osdev_array.

Hypothesis nr_nonneg : 0 <= nr oarray.

Hypothesis matrix_small : nr oarray * nr oarray < 2 ^ 32.

Lemma nr_below_2_31 : nr oarray < 2 ^ 31.
Proof using nr_nonneg matrix_small. nia. Qed.

Lemma connect_pair_readable pi pj acc r :
  connect_pair st oarray pi pj acc = Some r -> names_readable st pi pj.
Proof using Type.
  unfold connect_pair, names_readable. destruct acc as [b g]. intros Hrun Hid.
  rewrite Hid in Hrun.
  destruct (deref st (osdev pi)); [|done]. destruct (deref st (osdev pj)); [|done]. by split.
Qed.

Lemma connect_pair_spec pi pj b g :
  names_readable st pi pj -> length b = matrix_cells oarray -> canonical b ->
  exists b' g', connect_pair st oarray pi pj (b, g) = Some (b', g')
    /\ length b' = matrix_cells oarray /\ canonical b'
    /\ (forall k v, b !! k = Some v -> b' !! k = Some (uint64 (v + pair_delta oarray pi pj k))).
Proof using nr_nonneg matrix_small.
  pose proof nr_nonneg as H0. pose proof matrix_small as Hn.
  pose proof nr_below_2_31 as H31. unfold matrix_cells in *.
  unfold connect_pair, names_readable, pair_delta, link_matches, parents_registered,
    owner_index, parent_index, cell.
  set (N := nr oarray) in *.
  pose proof (array_find_range oarray (osdev pi) H0 H31) as Hi.
  pose proof (array_find_range oarray (osdev pj) H0 H31) as Hj.
  pose proof (array_find_range oarray (parent_osdev pi) H0 H31) as Hpi.
  pose proof (array_find_range oarray (parent_osdev pj) H0 H31) as Hpj.
  set (ii := hwloc__levelzero_osdev_array_find oarray (osdev pi)) in *.
  set (jj := hwloc__levelzero_osdev_array_find oarray (osdev pj)) in *.
  set (pii := hwloc__levelzero_osdev_array_find oarray (parent_osdev pi)) in *.
  set (pjj := hwloc__levelzero_osdev_array_find oarray (parent_osdev pj)) in *.
  fold N in Hi, Hj, Hpi, Hpj.
  rewrite Z.shiftr_div_pow2 by lia.
  set (amount := rxSpeed_bitRate (state pi) / 2 ^ 20).
  intros Hread Hb Hc.
  assert (exists b' g', Some (b, g) = Some (b', g') /\ length b' = Z.to_nat (N * N)
            /\ canonical b'
            /\ (forall k v, b !! k = Some v -> b' !! k = Some (uint64 (v + (0 + 0))))) as Hskip.
  { exists b, g. split_and!; try done. intros k v Hv. rewrite !Z.add_0_r, uint64_small; [done|].
    by eapply (Forall_lookup_1 _ _ _ _ Hc). }
  destruct (port_id_eqb _ _); simpl; [|exact Hskip].
  destruct (Hread eq_refl) as [[oi ->] [oj ->]]. simpl.
  rewrite strcmp_XeLink.
  destruct (bool_decide (c_str _ = _)); simpl; [|exact Hskip].
  destruct (Z.ltb_spec ii 0) as [Hin|Hip]; simpl.
  { rewrite (proj2 (Z.leb_gt 0 ii)) by lia. simpl. exact Hskip. }
  rewrite (proj2 (Z.leb_le 0 ii)) by lia. simpl.
  destruct (Z.ltb_spec jj 0) as [Hjn|Hjp]; simpl.
  { rewrite (proj2 (Z.leb_gt 0 jj)) by lia. simpl. exact Hskip. }
  rewrite (proj2 (Z.leb_le 0 jj)) by lia. simpl.
  rewrite (uint32_small (ii * N + jj)) by nia.
  destruct (bws_add_spec _ b (ii * N + jj) amount Hb Hc) as (b1 & -> & Hl1 & Hc1 & Hk1);
    [nia|]. simpl.
  assert (forall k v, b !! k = Some v ->
            b1 !! k = Some (uint64 (v + ((if bool_decide (k = Z.to_nat (ii * N + jj))
                                          then amount else 0) + 0)))) as Hk1'.
  { intros k v Hv. by rewrite (Hk1 k v Hv), Z.add_0_r. }
  destruct (negb (Nat.eqb (parent_osdev pi) NULL) && negb (Nat.eqb (parent_osdev pj) NULL));
    simpl; [|by eauto 10].
  destruct (Z.ltb_spec pii 0) as [Hpin|Hpip]; simpl.
  { rewrite (proj2 (Z.leb_gt 0 pii)) by lia. simpl. eauto 10. }
  rewrite (proj2 (Z.leb_le 0 pii)) by lia. simpl.
  destruct (Z.ltb_spec pjj 0) as [Hpjn|Hpjp]; simpl.
  { rewrite (proj2 (Z.leb_gt 0 pjj)) by lia. simpl. eauto 10. }
  rewrite (proj2 (Z.leb_le 0 pjj)) by lia. simpl.
  rewrite (uint32_small (pii * N + pjj)) by nia.
  destruct (bws_add_spec _ b1 (pii * N + pjj) amount Hl1 Hc1) as (b2 & -> & Hl2 & Hc2 & Hk2);
    [nia|]. simpl.
  eexists _, _. split; [done|]. split_and!; try done.
  intros k v Hv. by rewrite (Hk2 _ _ (Hk1 _ _ Hv)), uint64_add_l, Z.add_assoc.
Qed.

Lemma connect_pair_adds pi pj :
  adds (matrix_cells oarray) (connect_pair st oarray pi pj) (pair_delta oarray pi pj).
Proof using nr_nonneg matrix_small.
  intros b g b' g' Hb Hc Hrun.
  destruct (connect_pair_spec pi pj b g (connect_pair_readable _ _ _ _ Hrun) Hb Hc)
    as (b1 & g1 & Hrun1 & ?). rewrite Hrun in Hrun1. by injection Hrun1 as <- <-.
Qed.

Lemma connect_pair_runs pi pj :
  is_Some (deref st (osdev pi)) -> is_Some (deref st (osdev pj)) ->
  runs (matrix_cells oarray) (connect_pair st oarray pi pj).
Proof using nr_nonneg matrix_small.
  intros Hi Hj b g Hb Hc.
  destruct (connect_pair_spec pi pj b g (fun _ => conj Hi Hj) Hb Hc) as (b1 & g1 & -> & _).
  done.
Qed.

Lemma sumZ_zero {A} (xs : list A) : sumZ (map (fun _ => 0) xs) = 0.
Proof. induction xs as [|x xs IH]; [done|]. unfold sumZ in *. simpl. by rewrite IH. Qed.

Lemma sumZ_ext {A} (f g : A -> Z) xs :
  (forall x, x ∈ xs -> f x = g x) -> sumZ (map f xs) = sumZ (map g xs).
Proof.
  induction xs as [|x xs IH]; intros H; [done|]. unfold sumZ in *. simpl.
  rewrite (H x (list_elem_of_here _ _)), IH; [done|].
  intros y Hy. apply H. by apply list_elem_of_further.
Qed.

Lemma connect_row_adds hports i :
  Z.to_nat (hp_nr hports) = length (ports hports) ->
  adds (matrix_cells oarray) (connect_row st oarray hports i)
       (row_delta oarray (ports hports) i).
Proof using nr_nonneg matrix_small.
  intros Hnr. unfold connect_row, row_delta. rewrite Hnr.
  destruct (ports hports !! i) as [pi|]; [|apply adds_none]. simpl.
  unfold healthy.
  destruct (decide (status (state pi) = ZES_FABRIC_PORT_STATUS_HEALTHY)) as [Hh|Hh].
  - rewrite bool_decide_eq_true_2 by done.
    eapply adds_ext; [|apply (adds_fold _ _
      (fun (j : nat) k => if decide (i = j) then 0
                          else match ports hports !! j with
                               | Some pj => pair_delta oarray pi pj k
                               | None => 0
                               end))].
    + intros k. apply sumZ_ext. intros j _. destruct (decide (i = j)); [done|].
      by destruct (ports hports !! j).
    + intros j _. destruct (decide (i = j)); [apply adds_skip|].
      destruct (ports hports !! j) as [pj|]; [|apply adds_none].
      simpl. by apply connect_pair_adds.
  - rewrite bool_decide_eq_false_2 by done.
    eapply adds_ext; [|apply adds_skip].
    intros k. simpl. symmetry.
    etrans; [|apply (sumZ_zero (seq 0 (length (ports hports))))].
    apply sumZ_ext. intros j _. destruct (decide (i = j)); [done|].
    by destruct (ports hports !! j).
Qed.

Lemma connect_row_runs hports i :
  Z.to_nat (hp_nr hports) = length (ports hports) ->
  owners_exist st (ports hports) ->
  (i < length (ports hports))%nat ->
  runs (matrix_cells oarray) (connect_row st oarray hports i).
Proof using nr_nonneg matrix_small.
  intros Hnr Hown Hi. unfold connect_row. rewrite Hnr.
  destruct (lookup_lt_is_Some_2 (ports hports) i Hi) as [pi Hpi]. rewrite Hpi. simpl.
  destruct (decide (status (state pi) = ZES_FABRIC_PORT_STATUS_HEALTHY)); [|by intros b g _ _].
  apply (runs_fold _ _ (fun (j : nat) k => if decide (i = j) then 0
                                           else match ports hports !! j with
                                                | Some pj => pair_delta oarray pi pj k
                                                | None => 0
                                                end)).
  - intros j _. destruct (decide (i = j)); [apply adds_skip|].
    destruct (ports hports !! j) as [pj|]; [|apply adds_none].
    simpl. by apply connect_pair_adds.
  - intros j Hj%elem_of_seq. destruct (decide (i = j)); [by intros b g _ _|].
    destruct (lookup_lt_is_Some_2 (ports hports) j ltac:(lia)) as [pj Hpj]. rewrite Hpj.
    simpl. apply connect_pair_runs.
    + by apply (Forall_lookup_1 _ _ _ _ Hown Hpi).
    + by apply (Forall_lookup_1 _ _ _ _ Hown Hpj).
Qed.

Lemma ports_accumulate_adds hports :
  Z.to_nat (hp_nr hports) = length (ports hports) ->
  adds (matrix_cells oarray)
       (fun acc => fold_opt (connect_row st oarray hports)
                            (seq 0 (Z.to_nat (hp_nr hports))) acc)
       (fun k => sumZ (map (fun i => row_delta oarray (ports hports) i k)
                           (seq 0 (length (ports hports))))).
Proof using nr_nonneg matrix_small.
  intros Hnr. rewrite Hnr.
  apply (adds_fold _ (connect_row st oarray hports) (row_delta oarray (ports hports))).
  intros i _. by apply connect_row_adds.
Qed.

Lemma ports_accumulate_runs hports :
  Z.to_nat (hp_nr hports) = length (ports hports) ->
  owners_exist st (ports hports) ->
  runs (matrix_cells oarray)
       (fun acc => fold_opt (connect_row st oarray hports)
                            (seq 0 (Z.to_nat (hp_nr hports))) acc).
Proof using nr_nonneg matrix_small.
  intros Hnr Hown. rewrite Hnr.
  apply (runs_fold _ (connect_row st oarray hports) (row_delta oarray (ports hports))).
  - intros i _. by apply connect_row_adds.
  - intros i Hi%elem_of_seq. apply connect_row_runs; try done. lia.
Qed.

Lemma flat_index_inj N a b c d :
  0 <= a -> 0 <= c -> 0 <= b < N -> 0 <= d < N ->
  Z.to_nat (a * N + b) = Z.to_nat (c * N + d) -> c = a /\ d = b.
Proof.
  intros Ha Hc Hb Hd E. apply Z2Nat.inj in E; [|nia..].
  assert (a = c) by nia. subst. lia.
Qed.

(** At the cell of the entry [(a, b)], what a healthy [pi] brings with [pj]. *)
Lemma pair_delta_cell pi pj a b :
  0 <= a < nr oarray -> 0 <= b < nr oarray ->
  (if healthy pi then pair_delta oarray pi pj (cell oarray a b) else 0)
  = direct_amount oarray pi pj a b + parent_amount oarray pi pj a b.
Proof using nr_nonneg matrix_small.
  intros Ha Hb. pose proof nr_nonneg as H0. pose proof nr_below_2_31 as H31.
  unfold pair_delta, direct_amount, parent_amount, link_qualifies, link_matches,
    parents_registered, healthy, cell, owner_index, parent_index.
  pose proof (array_find_range oarray (osdev pi) H0 H31) as Hi.
  pose proof (array_find_range oarray (osdev pj) H0 H31) as Hj.
  pose proof (array_find_range oarray (parent_osdev pi) H0 H31) as Hpi.
  pose proof (array_find_range oarray (parent_osdev pj) H0 H31) as Hpj.
  set (ii := hwloc__levelzero_osdev_array_find oarray (osdev pi)) in *.
  set (jj := hwloc__levelzero_osdev_array_find oarray (osdev pj)) in *.
  set (pii := hwloc__levelzero_osdev_array_find oarray (parent_osdev pi)) in *.
  set (pjj := hwloc__levelzero_osdev_array_find oarray (parent_osdev pj)) in *.
  set (N := nr oarray) in *.
  destruct (bool_decide (status (state pi) = _)); simpl; [|done].
  destruct (port_id_eqb _ _); simpl; [|done].
  destruct (bool_decide (c_str _ = _)); simpl; [|done].
  destruct (Z.leb_spec 0 ii); simpl; [|done].
  destruct (Z.leb_spec 0 jj); simpl; [|done].
  f_equal.
  - case_bool_decide as E.
    + apply flat_index_inj in E as [-> ->]; [|lia..]. by rewrite !Z.eqb_refl.
    + destruct (Z.eqb_spec ii a) as [->|?]; simpl; [|done].
      destruct (Z.eqb_spec jj b) as [->|?]; simpl; [|done]. done.
  - destruct (negb _ && negb _); simpl; [|done].
    destruct (Z.leb_spec 0 pii); simpl; [|done].
    destruct (Z.leb_spec 0 pjj); simpl; [|done].
    case_bool_decide as E.
    + apply flat_index_inj in E as [-> ->]; [|lia..]. by rewrite !Z.eqb_refl.
    + destruct (Z.eqb_spec pii a) as [->|?]; simpl; [|done].
      destruct (Z.eqb_spec pjj b) as [->|?]; simpl; [|done]. done.
Qed.

(** The entries of the matrix after the accumulation loops, whenever the
    loops return. *)
Lemma ports_accumulate_entries hports bws bws' gotbw :
  Z.to_nat (hp_nr hports) = length (ports hports) ->
  Z.of_nat (length bws) = nr oarray * nr oarray ->
  canonical bws ->
  ports_accumulate st oarray hports bws = Some (bws', gotbw) ->
  length bws' = length bws
  /\ forall a b v, 0 <= a < nr oarray -> 0 <= b < nr oarray ->
       bws !! cell oarray a b = Some v ->
       bws' !! cell oarray a b =
         Some (uint64 (v + sum_links (ports hports)
                              (fun pi pj => direct_amount oarray pi pj a b
                                            + parent_amount oarray pi pj a b))).
Proof using nr_nonneg matrix_small.
  intros Hnr Hlen Hc Hrun.
  destruct (ports_accumulate_adds hports Hnr bws 0 bws' gotbw) as (Hl & _ & Hk);
    [unfold matrix_cells in *; lia|done|done|].
  split; [unfold matrix_cells in Hl; lia|].
  intros a b v Ha Hb Hv. rewrite (Hk _ _ Hv). do 3 f_equal.
  unfold sum_links, row_delta. apply sumZ_ext. intros i _. apply sumZ_ext. intros j _.
  destruct (decide (i = j)); [done|].
  destruct (ports hports !! i) as [pi|]; [|done].
  destruct (ports hports !! j) as [pj|]; [|done].
  by apply pair_delta_cell.
Qed.

(** The loops return when the owner of every captured port exists. *)
Lemma ports_accumulate_returns hports bws :
  Z.to_nat (hp_nr hports) = length (ports hports) ->
  Z.of_nat (length bws) = nr oarray * nr oarray ->
  canonical bws ->
  owners_exist st (ports hports) ->
  is_Some (ports_accumulate st oarray hports bws).
Proof using nr_nonneg matrix_small.
  intros Hnr Hlen Hc Hown.
  apply (ports_accumulate_runs hports Hnr Hown bws 0); [unfold matrix_cells; lia|done].
Qed.

End Accumulation.

Lemma sumZ_add {A} (f g : A -> Z) xs :
  sumZ (map (fun x => f x + g x) xs) = sumZ (map f xs) + sumZ (map g xs).
Proof. induction xs as [|x xs IH]; [done|]. unfold sumZ in *. simpl. rewrite IH. lia. Qed.

Lemma sumZ_split (f : nat -> Z) xs i0 :
  NoDup xs -> i0 ∈ xs ->
  sumZ (map f xs) = f i0 + sumZ (map (fun i => if decide (i = i0) then 0 else f i) xs).
Proof.
  induction xs as [|x xs IH]; intros Hnd Hin; [by apply elem_of_nil in Hin|].
  apply NoDup_cons in Hnd as [Hx Hnd]. unfold sumZ in *. simpl.
  destruct (decide (x = i0)) as [->|Hne].
  - f_equal. change (foldr Z.add 0 (map f xs)) with (sumZ (map f xs)).
    rewrite Z.add_0_l. apply sumZ_ext. intros y Hy.
    destruct (decide (y = i0)) as [->|]; [done|done].
  - apply elem_of_cons in Hin as [->|Hin]; [done|]. rewrite (IH Hnd Hin). lia.
Qed.

Lemma sum_links_split ps i0 j0 pi pj f :
  ps !! i0 = Some pi -> ps !! j0 = Some pj -> i0 <> j0 ->
  sum_links ps f = f pi pj + sum_other_links ps i0 j0 f.
Proof.
  intros Hi Hj Hne. unfold sum_links, sum_other_links.
  assert (i0 ∈ seq 0 (length ps)) as Hi0.
  { apply elem_of_seq. apply lookup_lt_Some in Hi. lia. }
  assert (j0 ∈ seq 0 (length ps)) as Hj0.
  { apply elem_of_seq. apply lookup_lt_Some in Hj. lia. }
  rewrite (sumZ_split _ _ i0 (NoDup_seq _ _) Hi0).
  rewrite (sumZ_split _ _ j0 (NoDup_seq _ _) Hj0).
  destruct (decide (i0 = j0)); [done|]. rewrite Hi, Hj.
  rewrite (sumZ_split (fun i => sumZ (map _ (seq 0 (length ps)))) _ i0 (NoDup_seq _ _) Hi0).
  rewrite <- Z.add_assoc. f_equal. f_equal.
  - apply sumZ_ext. intros j _. destruct (decide (j = j0)) as [->|Hjne].
    + destruct (decide (i0 = j0)); [done|]. by rewrite decide_True.
    + destruct (decide (i0 = j)); [done|]. rewrite decide_False by tauto. by rewrite Hi.
  - apply sumZ_ext. intros i _. destruct (decide (i = i0)) as [->|Hine]; [done|].
    apply sumZ_ext. intros j _. destruct (decide (i = j)); [done|].
    by rewrite decide_False by tauto.
Qed.

Lemma sum_links_add ps f g :
  sum_links ps (fun pi pj => f pi pj + g pi pj) = sum_links ps f + sum_links ps g.
Proof.
  unfold sum_links. rewrite <- sumZ_add. apply sumZ_ext. intros i _.
  rewrite <- sumZ_add. apply sumZ_ext. intros j _.
  destruct (decide (i = j)); [done|].
  by destruct (ps !! i), (ps !! j).
Qed.

Lemma port_id_eqb_true a b :
  fabricId a = fabricId b -> attachId a = attachId b -> portNumber a = portNumber b ->
  port_id_eqb a b = true.
Proof. unfold port_id_eqb. intros -> -> ->. by rewrite !Z.eqb_refl. Qed.

(** X27: the closed form of the accumulation loops at the entry of the two
    owners. For an ordered pair of distinct captured ports where the first
    is healthy, its remote port identity is the local identity of the
    second in its three fields, the model of the link is "XeLink" and both
    owners are in the registry: whenever the loops return, the entry of
    the two owners' indexes holds what it held plus the bit rate of the
    first port divided by 2^20 (rounded down) plus what the other
    qualifying links bring to the same entry, modulo 2^64. The loops
    return when the owner of every captured port is an object. *)
Theorem xelink_bandwidth_accumulated st oarray hports bws (i j : nat) pi pj v :
  0 <= nr oarray -> nr oarray * nr oarray < 2 ^ 32 ->
  Z.to_nat (hp_nr hports) = length (ports hports) ->
  Z.of_nat (length bws) = nr oarray * nr oarray -> canonical bws ->
  ports hports !! i = Some pi -> ports hports !! j = Some pj -> i <> j ->
  status (state pi) = ZES_FABRIC_PORT_STATUS_HEALTHY ->
  fabricId (remotePortId (state pi)) = fabricId (portId (props pj)) ->
  attachId (remotePortId (state pi)) = attachId (portId (props pj)) ->
  portNumber (remotePortId (state pi)) = portNumber (portId (props pj)) ->
  c_str (port_model (props pj)) = "XeLink"%string ->
  0 <= owner_index oarray pi -> 0 <= owner_index oarray pj ->
  bws !! cell oarray (owner_index oarray pi) (owner_index oarray pj) = Some v ->
  (owners_exist st (ports hports) -> is_Some (ports_accumulate st oarray hports bws))
  /\ forall bws' gotbw,
       ports_accumulate st oarray hports bws = Some (bws', gotbw) ->
       bws' !! cell oarray (owner_index oarray pi) (owner_index oarray pj) =
         Some (uint64 (v + rxSpeed_bitRate (state pi) / 2 ^ 20
                       + sum_other_links (ports hports) i j
                           (fun p q => direct_amount oarray p q
                                         (owner_index oarray pi) (owner_index oarray pj))
                       + sum_links (ports hports)
                           (fun p q => parent_amount oarray p q
                                         (owner_index oarray pi) (owner_index oarray pj)))).
Proof.
  intros H0 Hn Hnr Hlen Hc Hi Hj Hne Hh Hf Ha Hp Hx Hoi Hoj Hv.
  assert (nr oarray < 2 ^ 31) as H31 by nia.
  split; [by apply ports_accumulate_returns|].
  intros bws' gotbw Hrun.
  destruct (ports_accumulate_entries st oarray H0 Hn hports bws bws' gotbw Hnr Hlen Hc Hrun)
    as [_ Hcells].
  pose proof (array_find_range oarray (osdev pi) H0 H31) as Hri.
  pose proof (array_find_range oarray (osdev pj) H0 H31) as Hrj.
  fold (owner_index oarray pi) in Hri. fold (owner_index oarray pj) in Hrj.
  rewrite (Hcells _ _ v) by (done || lia). do 2 f_equal.
  rewrite sum_links_add, (sum_links_split _ i j pi pj) by done.
  assert (direct_amount oarray pi pj (owner_index oarray pi) (owner_index oarray pj)
          = rxSpeed_bitRate (state pi) / 2 ^ 20) as ->; [|lia].
  unfold direct_amount, link_qualifies.
  rewrite bool_decide_eq_true_2, port_id_eqb_true, bool_decide_eq_true_2 by done.
  rewrite !Z.eqb_refl. rewrite !(proj2 (Z.leb_le 0 _)) by done. done.
Qed.

(** C4: for a qualifying link between two ports that both record a parent
    device, both parents being in the registry, the amount added to the
    entry of the two owners' indexes, the bit rate of the first port
    divided by 2^20, is also added to the entry of the two parents'
    indexes. Whenever the accumulation loops return, each of the two
    entries holds what it held plus that amount plus what the other links
    bring to it, modulo 2^64; the loops return when the owner of every
    captured port is an object. *)
Theorem parent_devices_receive_link_bandwidth st oarray hports bws (i j : nat) pi pj u v :
  0 <= nr oarray -> nr oarray * nr oarray < 2 ^ 32 ->
  Z.to_nat (hp_nr hports) = length (ports hports) ->
  Z.of_nat (length bws) = nr oarray * nr oarray -> canonical bws ->
  ports hports !! i = Some pi -> ports hports !! j = Some pj -> i <> j ->
  link_qualifies oarray pi pj = true ->
  parent_osdev pi <> NULL -> parent_osdev pj <> NULL ->
  0 <= parent_index oarray pi -> 0 <= parent_index oarray pj ->
  bws !! cell oarray (owner_index oarray pi) (owner_index oarray pj) = Some u ->
  bws !! cell oarray (parent_index oarray pi) (parent_index oarray pj) = Some v ->
  (owners_exist st (ports hports) -> is_Some (ports_accumulate st oarray hports bws))
  /\ forall bws' gotbw,
       ports_accumulate st oarray hports bws = Some (bws', gotbw) ->
       bws' !! cell oarray (owner_index oarray pi) (owner_index oarray pj) =
         Some (uint64 (u + rxSpeed_bitRate (state pi) / 2 ^ 20
                       + sum_other_links (ports hports) i j
                           (fun p q => direct_amount oarray p q
                                         (owner_index oarray pi) (owner_index oarray pj))
                       + sum_links (ports hports)
                           (fun p q => parent_amount oarray p q
                                         (owner_index oarray pi) (owner_index oarray pj))))
       /\ bws' !! cell oarray (parent_index oarray pi) (parent_index oarray pj) =
            Some (uint64 (v + rxSpeed_bitRate (state pi) / 2 ^ 20
                          + sum_links (ports hports)
                              (fun p q => direct_amount oarray p q
                                            (parent_index oarray pi) (parent_index oarray pj))
                          + sum_other_links (ports hports) i j
                              (fun p q => parent_amount oarray p q
                                            (parent_index oarray pi)
                                            (parent_index oarray pj)))).
Proof.
  intros H0 Hn Hnr Hlen Hc Hi Hj Hne Hq Hpi Hpj Hoi Hoj Hu Hv.
  assert (nr oarray < 2 ^ 31) as H31 by nia.
  split; [by apply ports_accumulate_returns|].
  intros bws' gotbw Hrun.
  destruct (ports_accumulate_entries st oarray H0 Hn hports bws bws' gotbw Hnr Hlen Hc Hrun)
    as [_ Hcells].
  pose proof (array_find_range oarray (osdev pi) H0 H31) as Hwi.
  pose proof (array_find_range oarray (osdev pj) H0 H31) as Hwj.
  pose proof (array_find_range oarray (parent_osdev pi) H0 H31) as Hri.
  pose proof (array_find_range oarray (parent_osdev pj) H0 H31) as Hrj.
  fold (owner_index oarray pi) in Hwi. fold (owner_index oarray pj) in Hwj.
  fold (parent_index oarray pi) in Hri. fold (parent_index oarray pj) in Hrj.
  assert (0 <= owner_index oarray pi /\ 0 <= owner_index oarray pj) as [Hwi0 Hwj0].
  { unfold link_qualifies in Hq. apply andb_prop in Hq as [Hq Hq5].
    apply andb_prop in Hq as [_ Hq4]. split; by apply Z.leb_le. }
  split.
  - rewrite (Hcells _ _ u) by (done || lia). do 2 f_equal.
    rewrite sum_links_add, (sum_links_split _ i j pi pj) by done.
    assert (direct_amount oarray pi pj (owner_index oarray pi) (owner_index oarray pj)
            = rxSpeed_bitRate (state pi) / 2 ^ 20) as ->; [|lia].
    unfold direct_amount. rewrite Hq. by rewrite !Z.eqb_refl.
  - rewrite (Hcells _ _ v) by (done || lia). do 2 f_equal.
    rewrite sum_links_add,
      (sum_links_split _ i j pi pj (fun p q => parent_amount oarray p q _ _)) by done.
    assert (parent_amount oarray pi pj (parent_index oarray pi) (parent_index oarray pj)
            = rxSpeed_bitRate (state pi) / 2 ^ 20) as ->; [|lia].
    unfold parent_amount, parents_registered. rewrite Hq.
    apply Nat.eqb_neq in Hpi, Hpj. rewrite Hpi, Hpj.
    rewrite !Z.eqb_refl. rewrite !(proj2 (Z.leb_le 0 _)) by done. done.
Qed.

Lemma grown_refl w : grown 0 w w.
Proof. unfold grown. split_and!; [done|lia|done]. Qed.

Lemma grown_trans n m w w1 w2 : grown n w w1 -> grown m w1 w2 -> grown (n + m) w w2.
Proof.
  intros (Ht1 & Hl1 & Hh1) (Ht2 & Hl2 & Hh2). split_and!; [congruence|lia|by etrans].
Qed.

Lemma clean_heap_suffix h h' : clean_heap h -> h' `suffix_of` h -> clean_heap h'.
Proof. intros Hc [pre ->]. by apply Forall_app in Hc as [_ ?]. Qed.

Lemma no_failure_suffix h h' : no_failure h -> h' `suffix_of` h -> no_failure h'.
Proof. unfold no_failure. intros Hn [pre ->] Hin. apply Hn, elem_of_app. by right. Qed.

Lemma wp_quiet {A B} (m : M A) (f : A -> M B) w (Q : B -> world -> Prop) :
  wp m w (fun _ w1 => grown 0 w w1) ->
  (forall a w1, grown 0 w w1 -> wp (f a) w1 Q) ->
  wp (m ≫= f) w Q.
Proof. intros Hm Hf. apply wp_bind. eapply wp_mono; [exact Hm|]. simpl. auto. Qed.

Lemma alloc_grown w :
  wp alloc w (fun a w1 => grown 0 w w1 /\ w_objs w1 = w_objs w
                          /\ (clean_heap (w_heap w) -> clean_block a)
                          /\ (no_failure (w_heap w) -> a <> ENOMEM)).
Proof.
  unfold wp, alloc. destruct (w_heap w) as [|a rest] eqn:Hh; simpl.
  - split; [|split; [done|split]].
    + unfold grown. rewrite Hh. split_and!; [done|lia|done].
    + intros _. by apply Forall_nil.
    + done.
  - split; [|split; [done|split]].
    + unfold grown. simpl. rewrite Hh. split_and!; [done|lia|]. by exists [a].
    + intros Hc. by apply Forall_cons in Hc as [? _].
    + intros Hn ->. apply Hn. apply list_elem_of_here.
Qed.

Lemma get_objs_spec w (Q : list hwloc_obj -> world -> Prop) :
  Q (w_objs w) w -> wp get_objs w Q.
Proof. done. Qed.

Lemma set_objs_grown st w :
  length st = length (w_objs w) ->
  wp (set_objs st) w (fun _ w1 => grown 0 w w1 /\ w_objs w1 = st).
Proof. intros Hl. unfold wp, set_objs, grown. simpl. split_and!; try done. lia. Qed.

Lemma modify_obj_grown p f w : wp (modify_obj p f) w (fun _ w1 => grown 0 w w1).
Proof.
  unfold modify_obj. apply wp_bind, get_objs_spec. apply wp_bind, wp_lift. intros o Ho.
  eapply wp_mono; [apply set_objs_grown, length_update_obj|]. simpl. tauto.
Qed.

Lemma obj_add_info_grown p name value w :
  wp (obj_add_info p name value) w (fun _ w1 => grown 0 w w1).
Proof.
  unfold obj_add_info. apply wp_bind, get_objs_spec. apply wp_bind, wp_lift.
  intros st' (o & _ & ->)%hwloc_obj_add_info_inv.
  eapply wp_mono; [apply set_objs_grown, length_update_obj|]. simpl. tauto.
Qed.

Lemma alloc_quiet w : wp alloc w (fun _ w1 => grown 0 w w1).
Proof. eapply wp_mono; [apply alloc_grown|]. simpl. tauto. Qed.

Lemma wp_ret_quiet {A} (a : A) w : wp (mret a) w (fun _ w1 => grown 0 w w1).
Proof. apply wp_ret, grown_refl. Qed.

Lemma cqprops_get_grown zeh osdev w :
  wp (hwloc__levelzero_cqprops_get zeh osdev) w (fun _ w1 => grown 0 w w1).
Proof.
  unfold hwloc__levelzero_cqprops_get.
  destruct (zeDeviceGetCommandQueueGroupProperties zeh) as [[res res2] cqprops].
  destruct (negb (succeeded res) || _); [apply wp_ret_quiet|].
  wp_step alloc_quiet. intros [|stale] w1 H1.
  - by apply wp_ret.
  - destruct (succeeded res2); [|by apply wp_ret].
    eapply wp_mono; [apply modify_obj_grown|]. intros ? w2 H2.
    apply (grown_trans 0 0 _ _ _ H1 H2).
Qed.

Lemma memory_get_grown zesh root_osdev nr_osdevs sub_osdevs w :
  wp (hwloc__levelzero_memory_get zesh root_osdev nr_osdevs sub_osdevs) w
     (fun _ w1 => grown 0 w w1).
Proof.
  unfold hwloc__levelzero_memory_get.
  destruct (zesDeviceEnumMemoryModules zesh) as [[res res2] mems].
  destruct (negb (succeeded res)); [apply wp_ret_quiet|].
  destruct (_ =? 0); [apply wp_ret_quiet|].
  wp_step alloc_quiet. intros mh w1 H1.
  apply wp_bind.
  apply wp_mono with (Q := fun _ w2 => grown 0 w w2).
  { destruct mh as [|stale]; [by apply wp_ret|].
    destruct (succeeded res2); [|by apply wp_ret].
    apply wp_bind, get_objs_spec. apply wp_bind, wp_lift.
    intros [[st' hbm] ddr] Hfold.
    assert (length st' = length (w_objs w1)) as Hlen.
    { apply memory_modules_inv in Hfold; [tauto|lia..]. }
    apply wp_bind. eapply wp_mono; [by apply set_objs_grown|]. intros ? w2 [H2 _].
    apply wp_ret. apply (grown_trans 0 0 _ _ _ H1 H2). }
  intros [h d] w2 H2.
  apply wp_bind.
  apply wp_mono with (Q := fun _ w3 => grown 0 w w3).
  { destruct (negb _); [|by apply wp_ret].
    eapply wp_mono; [apply obj_add_info_grown|]. intros ? w3 H3.
    apply (grown_trans 0 0 _ _ _ H2 H3). }
  intros ? w3 H3.
  apply wp_bind.
  apply wp_mono with (Q := fun _ w4 => grown 0 w w4).
  { destruct (negb _); [|by apply wp_ret].
    eapply wp_mono; [apply obj_add_info_grown|]. intros ? w4 H4.
    apply (grown_trans 0 0 _ _ _ H3 H4). }
  intros ? w4 H4. by apply wp_ret.
Qed.

Lemma ports_get_grown zesh root_osdev nr_sub_osdevs sub_osdevs hports w :
  wp (hwloc__levelzero_ports_get zesh root_osdev nr_sub_osdevs sub_osdevs hports) w
     (fun _ w1 => grown 0 w w1).
Proof.
  unfold hwloc__levelzero_ports_get.
  destruct (zesDeviceEnumFabricPorts zesh) as [[res res2] fports].
  destruct (negb (succeeded res) || _); [apply wp_ret_quiet|].
  apply wp_bind.
  apply wp_mono with (Q := fun _ w1 => grown 0 w w1).
  { destruct (_ <? _); [|apply wp_ret_quiet].
    wp_step alloc_quiet.
    intros [|stale] w1 H1; by apply wp_ret. }
  intros [h|] w1 H1; [|by apply wp_ret].
  wp_step alloc_quiet. intros [|stale] w2 H2.
  - apply wp_ret. apply (grown_trans 0 0 _ _ _ H1 H2).
  - destruct (succeeded res2); [|apply wp_undefined].
    apply wp_lift. intros h' _. apply (grown_trans 0 0 _ _ _ H1 H2).
Qed.

Lemma pci_parent_grown topology answer w :
  wp (pci_parent topology answer) w (fun _ w1 => grown 0 w w1).
Proof.
  unfold pci_parent. destruct answer as [res pci].
  destruct (succeeded res); [|apply wp_ret_quiet].
  destruct (Nat.eqb _ NULL); [apply wp_ret_quiet|].
  apply wp_bind, get_objs_spec. apply wp_bind, wp_lift. intros o Ho.
  apply wp_bind.
  apply wp_mono with (Q := fun _ w1 => grown 0 w w1).
  { destruct (_ && _); [|apply wp_ret_quiet].
    eapply wp_mono; [apply set_objs_grown, length_update_obj|]. simpl. tauto. }
  intros ? w1 H1. by apply wp_ret.
Qed.

Lemma resolve_parent_grown topology zeh zesh w :
  wp (resolve_parent topology zeh zesh) w (fun _ w1 => grown 0 w w1).
Proof.
  unfold resolve_parent. apply wp_bind.
  apply wp_mono with (Q := fun _ w1 => grown 0 w w1).
  { destruct (topo_have_pci_ext topology); [apply pci_parent_grown|apply wp_ret_quiet]. }
  intros parent w1 H1. apply wp_bind.
  apply wp_mono with (Q := fun _ w2 => grown 0 w w2).
  { destruct (Nat.eqb parent NULL); [|by apply wp_ret].
    eapply wp_mono; [apply pci_parent_grown|]. intros ? w2 H2.
    apply (grown_trans 0 0 _ _ _ H1 H2). }
  intros parent' w2 H2. by apply wp_ret.
Qed.

Lemma alloc_setup_object_spec ty w :
  wp (hwloc_alloc_setup_object ty) w
     (fun p w1 => p = S (length (w_objs w)) /\ grown 1 w w1).
Proof.
  unfold wp, hwloc_alloc_setup_object, grown. simpl.
  split_and!; try done. by rewrite length_app.
Qed.

Lemma insert_object_spec parent obj w :
  wp (hwloc_insert_object_by_parent parent obj) w
     (fun _ w1 => w_tree w1 = w_tree w ++ [(parent, obj)]
                  /\ w_objs w1 = w_objs w /\ w_heap w1 = w_heap w).
Proof.
  unfold wp, hwloc_insert_object_by_parent.
  destruct (deref (w_objs w) parent), (deref (w_objs w) obj); done.
Qed.

(** ** Appending to the registry *)

Lemma registry_wf a : wf_oarray a -> length (registry a) = Z.to_nat (nr a).
Proof. intros (? & ? & Hl). unfold registry. rewrite length_take. lia. Qed.

Lemma realloc_slots_spec (old : list nat) n :
  length (realloc_slots NULL old n) = Z.to_nat n
  /\ forall k, (k <= length old)%nat -> (k <= Z.to_nat n)%nat ->
       take k (realloc_slots NULL old n) = take k old.
Proof.
  unfold realloc_slots. split.
  - rewrite length_take, length_app, length_replicate. lia.
  - intros k Hk Hn. rewrite take_take, Nat.min_l by done.
    by rewrite take_app_le.
Qed.

Lemma array_add_spec a x w :
  wf_oarray a ->
  wp (hwloc__levelzero_osdev_array_add a x) w
     (fun r w1 =>
        wf_oarray r.2
        /\ w_objs w1 = w_objs w /\ w_tree w1 = w_tree w /\ w_heap w1 `suffix_of` w_heap w
        /\ (registry r.2 = registry a ++ [x] \/ registry r.2 = registry a)
        /\ (no_failure (w_heap w) -> registry r.2 = registry a ++ [x])).
Proof.
  intros Hwf. pose proof Hwf as ((Hn0 & Hna) & H32 & Hlen).
  unfold hwloc__levelzero_osdev_array_add.
  assert (forall a' w1, wf_oarray a' -> registry a' = registry a ->
            (Z.to_nat (nr a') < length (objs a'))%nat ->
            w_objs w1 = w_objs w -> w_tree w1 = w_tree w -> w_heap w1 `suffix_of` w_heap w ->
            (fun (r : Z * hwloc_osdev_array) w2 =>
                  wf_oarray r.2
                  /\ w_objs w2 = w_objs w /\ w_tree w2 = w_tree w
                  /\ w_heap w2 `suffix_of` w_heap w
                  /\ (registry r.2 = registry a ++ [x] \/ registry r.2 = registry a)
                  /\ (no_failure (w_heap w) -> registry r.2 = registry a ++ [x]))
              (0, {| nr := uint32 (nr a' + 1); nr_allocated := nr_allocated a';
                     objs := <[Z.to_nat (nr a') := x]> (objs a') |}) w1) as Hstore.
  { intros a' w1 ((Hn0' & Hna') & H32' & Hlen') Hreg Hlt Ho Ht Hh. simpl.
    rewrite uint32_small by lia.
    assert (registry {| nr := nr a' + 1; nr_allocated := nr_allocated a';
                        objs := <[Z.to_nat (nr a'):=x]> (objs a') |} = registry a ++ [x]) as Hr.
    { unfold registry at 1. simpl. rewrite <- Hreg. unfold registry.
      replace (Z.to_nat (nr a' + 1)) with (S (Z.to_nat (nr a'))) by lia.
      rewrite (take_S_r _ _ x) by (apply list_lookup_insert_eq; lia).
      by rewrite take_insert_ge by lia. }
    split_and!; try done; [|by left].
    unfold wf_oarray. simpl. rewrite length_insert. lia. }
  apply wp_bind.
  destruct (Z.eqb_spec (nr_allocated a) (nr a)) as [Heq|Hne].
  - wp_step alloc_grown.
    intros [|stale] w1 ((Ht & _ & Hh) & Ho & _ & Hnf).
    + apply wp_ret. apply wp_ret. simpl. split_and!; try done; [by right|].
      intros Hn. by destruct (Hnf Hn).
    + apply wp_ret. cbv beta iota.
      destruct (realloc_slots_spec (objs a) (uint32 (nr_allocated a + 40))) as [Hl Htake].
      pose proof (uint32_range (nr_allocated a + 40)) as Hr.
      destruct (decide _) as [Hlt|]; [|apply wp_undefined].
      simpl in Hlt. rewrite Hl in Hlt.
      apply wp_ret, Hstore; try done.
      * unfold wf_oarray. simpl. lia.
      * unfold registry. simpl. apply Htake; lia.
      * simpl. lia.
  - apply wp_ret. cbv beta iota.
    destruct (decide _) as [Hlt|]; [|apply wp_undefined].
    by apply wp_ret, Hstore.
Qed.

Lemma discover_subdevice_spec zesdr zeidx k subzeh slots w :
  wp (discover_subdevice zesdr zeidx k subzeh slots) w
     (fun slots' w1 =>
        (slots' = slots /\ grown 0 w w1)
        \/ (slots' = <[Z.to_nat k := S (length (w_objs w))]> slots /\ grown 1 w w1)).
Proof.
  unfold discover_subdevice.
  destruct (zeDeviceGetProperties subzeh) as [res props].
  destruct (negb (succeeded res)); [apply wp_ret; left; split; [done|apply grown_refl]|].
  destruct (zesDriverGetDeviceByUuidExp _ _) as [subzesh|];
    [|apply wp_ret; left; split; [done|apply grown_refl]].
  wp_step alloc_setup_object_spec.
  intros sub w1 [-> H1].
  wp_step modify_obj_grown. intros ? w2 H2.
  wp_step obj_add_info_grown. intros ? w3 H3.
  wp_step modify_obj_grown. intros ? w4 H4.
  wp_step cqprops_get_grown. intros ? w5 H5.
  apply wp_ret. right. split; [done|].
  apply (grown_trans 1 0 _ _ _ H1).
  apply (grown_trans 0 0 _ _ _ H2).
  apply (grown_trans 0 0 _ _ _ H3).
  apply (grown_trans 0 0 _ _ _ H4 H5).
Qed.

Lemma filter_replicate_NULL n : filter (fun p : nat => p <> NULL) (replicate n NULL) = [].
Proof. induction n as [|n IH]; [done|]. simpl. by rewrite filter_cons_False by (intros ?; done). Qed.

Lemma discover_subdevices_loop zesdr zeidx subzehs :
  forall k pre rest w,
  length pre = Z.to_nat k -> 0 <= k -> (length subzehs <= rest)%nat ->
  wp (for_each (discover_subdevice zesdr zeidx) k subzehs (pre ++ replicate rest NULL)) w
     (fun slots' w1 =>
        exists new c,
          slots' = pre ++ new ++ replicate (rest - length subzehs) NULL
          /\ length new = length subzehs
          /\ filter (fun p => p <> NULL) new = seq (S (length (w_objs w))) c
          /\ grown c w w1).
Proof.
  induction subzehs as [|subzeh subzehs IH]; intros k pre rest w Hpre Hk Hrest; simpl.
  - apply wp_ret. exists [], 0%nat. simpl. rewrite Nat.sub_0_r.
    split_and!; try done; apply grown_refl.
  - simpl in Hrest. destruct rest as [|rest]; [lia|]. simpl.
    wp_step discover_subdevice_spec.
    intros slots1 w1 [[-> H1]|[-> H1]].
    + replace (pre ++ NULL :: replicate rest NULL) with ((pre ++ [NULL]) ++ replicate rest NULL)
        by by rewrite <- app_assoc.
      eapply wp_mono; [apply IH; [rewrite length_app; simpl; lia|lia|lia]|].
      intros slots' w2 (new & c & -> & Hl & Hf & H2).
      exists (NULL :: new), c. rewrite <- app_assoc. simpl. split_and!; try done.
      * by rewrite Hl.
      * rewrite filter_cons_False by (intros ?; done). rewrite Hf.
        destruct H1 as (_ & Hlen & _). rewrite Hlen. by rewrite Nat.add_0_r.
      * apply (grown_trans 0 c _ _ _ H1 H2).
    + rewrite insert_app_r_alt by lia. replace (Z.to_nat k - length pre)%nat with 0%nat by lia.
      simpl.
      replace (pre ++ S (length (w_objs w)) :: replicate rest NULL)
        with ((pre ++ [S (length (w_objs w))]) ++ replicate rest NULL)
        by by rewrite <- app_assoc.
      eapply wp_mono; [apply IH; [rewrite length_app; simpl; lia|lia|lia]|].
      intros slots' w2 (new & c & -> & Hl & Hf & H2).
      exists (S (length (w_objs w)) :: new), (S c). rewrite <- app_assoc. simpl.
      split_and!; try done.
      * by rewrite Hl.
      * rewrite filter_cons_True by done. rewrite Hf.
        destruct H1 as (_ & Hlen & _). rewrite Hlen.
        by replace (length (w_objs w) + 1)%nat with (S (length (w_objs w))) by lia.
      * apply (grown_trans 1 c _ _ _ H1 H2).
Qed.

Lemma block_slots_clean stale n :
  Forall (fun p => p = NULL) stale -> block_slots stale n = replicate (Z.to_nat n) NULL.
Proof.
  intros Hs. unfold block_slots. symmetry. apply replicate_as_Forall. split.
  - rewrite length_take, length_app, length_replicate. lia.
  - apply Forall_take, Forall_app. split.
    + eapply Forall_impl; [exact Hs|]. by intros p ->.
    + by apply Forall_replicate.
Qed.

Lemma block_slots_length stale n : length (block_slots stale n) = Z.to_nat n.
Proof. unfold block_slots. rewrite length_take, length_app, length_replicate. lia. Qed.

(** Whatever the slots hold at first, the loop creates objects and keeps
    the number of slots. *)
Lemma discover_subdevices_loop_grown zesdr zeidx subzehs k slots w :
  wp (for_each (discover_subdevice zesdr zeidx) k subzehs slots) w
     (fun slots' w1 => (exists c, grown c w w1) /\ length slots' = length slots).
Proof.
  apply (wp_for_each _ (fun s w1 => (exists c, grown c w w1) /\ length s = length slots)).
  { split; [|done]. exists 0%nat. apply grown_refl. }
  intros i a s w0 [[c Hc] Hs].
  eapply wp_mono; [apply discover_subdevice_spec|].
  intros s' w1 [[-> H1]|[-> H1]].
  - split; [|done]. exists (c + 0)%nat. by eapply grown_trans.
  - split; [|by rewrite length_insert]. exists (c + 1)%nat. by eapply grown_trans.
Qed.

Lemma grown_count n m w w1 : grown n w w1 -> grown m w w1 -> n = m.
Proof. intros (_ & Hn & _) (_ & Hm & _). lia. Qed.

(** The subdevices of a device: objects are created, nothing is inserted,
    and the array has one slot per reported subdevice. When the blocks
    handed out by the allocator read as zeroes, the slots that are not
    NULL are the objects created, in creation order. *)
Lemma discover_subdevices_spec zesdr zeidx zeh osdev w :
  wp (discover_subdevices zesdr zeidx zeh osdev) w
     (fun r w1 =>
        exists c, grown c w w1
          /\ (forall slots, r.2 = Some slots -> length slots = Z.to_nat r.1)
          /\ (clean_heap (w_heap w) ->
              created_subdevices r.2 = seq (S (length (w_objs w))) c)).
Proof.
  unfold discover_subdevices.
  destruct (zeDeviceGetSubDevices zeh) as [[res res2] subzehs].
  destruct (succeeded res && _).
  2:{ apply wp_ret. exists 0%nat. split_and!; [apply grown_refl|done|done]. }
  wp_step obj_add_info_grown. intros ? w1 H1.
  wp_step alloc_grown. intros a1 w2 (H2 & _ & _ & _).
  pose proof (grown_trans 0 0 _ _ _ H1 H2) as H12.
  wp_step alloc_grown. intros a2 w3 (H3 & _ & Hc3 & _).
  pose proof (grown_trans 0 0 _ _ _ H12 H3) as H13.
  destruct a1 as [|stale1]; [apply wp_ret; exists 0%nat; by split_and!|].
  destruct a2 as [|stale]; [apply wp_ret; exists 0%nat; by split_and!|].
  destruct (succeeded res2); [|apply wp_undefined].
  apply wp_bind. eapply wp_mono.
  { apply wp_conj; [apply discover_subdevices_loop_grown|].
    apply (wp_when (clean_heap (w_heap w))). intros Hclean.
    rewrite block_slots_clean.
    2:{ apply Hc3. eapply clean_heap_suffix; [done|]. apply H12. }
    rewrite Nat2Z.id.
    apply (discover_subdevices_loop zesdr zeidx subzehs 0 [] (length subzehs)); [done|lia|lia]. }
  intros slots' w4 [[[c H4] Hlen] Hnew]. apply wp_ret.
  exists c. simpl. split_and!.
  - apply (grown_trans 0 c _ _ _ H13 H4).
  - intros slots [= <-]. by rewrite Hlen, block_slots_length.
  - intros Hclean. destruct (Hnew Hclean) as (new & c' & -> & Hl & Hf & H4').
    rewrite (grown_count _ _ _ _ H4 H4').
    rewrite Nat.sub_diag. simpl. rewrite app_nil_r, Hf.
    destruct H13 as (_ & Hlen13 & _). rewrite Hlen13. by rewrite Nat.add_0_r.
Qed.

Lemma inserted_nil a w : wf_oarray a -> inserted [] [] a w a w.
Proof. intros Hwf. exists []. rewrite !app_nil_r. by split_and!. Qed.

Lemma inserted_app t1 u1 t2 u2 a w a1 w1 a2 w2 :
  inserted t1 u1 a w a1 w1 -> inserted t2 u2 a1 w1 a2 w2 ->
  inserted (t1 ++ t2) (u1 ++ u2) a w a2 w2.
Proof.
  intros (k1 & Ht1 & Ho1 & Hh1 & Hr1 & Hs1 & Hn1 & Hw1)
         (k2 & Ht2 & Ho2 & Hh2 & Hr2 & Hs2 & Hn2 & Hw2).
  exists (k1 ++ k2). split_and!.
  - by rewrite Ht2, Ht1, app_assoc.
  - congruence.
  - by etrans.
  - by rewrite Hr2, Hr1, app_assoc.
  - by apply sublist_app.
  - intros Hn. rewrite Hn1 by done. rewrite Hn2; [done|]. by eapply no_failure_suffix.
  - done.
Qed.

Lemma insert_subdevice_spec osdev sub s w :
  wf_oarray s.2 ->
  wp (insert_subdevice osdev sub s) w
     (fun s' w1 => inserted (map (pair osdev) (filter (fun p => p <> NULL) [sub]))
                            (filter (fun p => p <> NULL) [sub]) s.2 w s'.2 w1).
Proof.
  intros Hwf. unfold insert_subdevice.
  destruct (Nat.eqb_spec sub NULL) as [->|Hne].
  - apply wp_ret. rewrite filter_cons_False by (intros ?; done). by apply inserted_nil.
  - rewrite filter_cons_True by done. simpl.
    wp_step insert_object_spec.
    intros ? w1 (Ht1 & Ho1 & Hh1).
    apply wp_bind. eapply wp_mono; [by apply array_add_spec|].
    intros r w2 (Hwf2 & Ho2 & Ht2 & Hh2 & Hreg & Hnf). apply wp_ret. simpl.
    destruct Hreg as [Hreg|Hreg].
    + exists [sub].
      split_and!; [congruence|congruence|by rewrite Hh1 in Hh2|done|done|done|done].
    + exists []. rewrite app_nil_r.
      split_and!; [congruence|congruence|by rewrite Hh1 in Hh2|done|apply sublist_nil_l| |done].
      intros Hn. rewrite Hh1 in Hnf. specialize (Hnf Hn). rewrite Hreg in Hnf.
      symmetry in Hnf. apply app_inv_head with (l := registry s.2).
      by rewrite app_nil_r.
Qed.

Lemma insert_subdevices_spec osdev slots len :
  forall start s w,
  wf_oarray s.2 -> (start + len <= length slots)%nat ->
  wp (insert_subdevices osdev (Some slots) (seq start len) s) w
     (fun s' w1 =>
        inserted (map (pair osdev) (filter (fun p => p <> NULL) (take len (drop start slots))))
                 (filter (fun p => p <> NULL) (take len (drop start slots))) s.2 w s'.2 w1).
Proof.
  induction len as [|len IH]; intros start s w Hwf Hlen; cbn [seq insert_subdevices].
  - apply wp_ret. by apply inserted_nil.
  - apply wp_bind, wp_lift. intros sub Hsub. simpl in Hsub.
    apply wp_bind. eapply wp_mono; [by apply insert_subdevice_spec|].
    intros s1 w1 H1.
    eapply wp_mono; [apply IH; [by destruct H1 as (? & ? & ? & ? & ? & ? & ? & ?)|lia]|].
    intros s2 w2 H2.
    rewrite (drop_S _ _ _ Hsub), firstn_cons.
    change (sub :: take len (drop (S start) slots))
      with ([sub] ++ take len (drop (S start) slots)).
    rewrite filter_app, map_app.
    eapply inserted_app; [exact H1|exact H2].
Qed.

Lemma insert_device_spec parent osdev nr_subdevices subosdevs s w :
  wf_oarray s.2 ->
  (forall slots, subosdevs = Some slots -> length slots = Z.to_nat nr_subdevices) ->
  wp (insert_device parent osdev nr_subdevices subosdevs s) w
     (fun s' w1 =>
        inserted ((parent, osdev) :: map (pair osdev) (created_subdevices subosdevs))
                 (osdev :: created_subdevices subosdevs) s.2 w s'.2 w1).
Proof.
  intros Hwf Hslots. unfold insert_device.
  wp_step insert_object_spec.
  intros ? w1 (Ht1 & Ho1 & Hh1).
  apply wp_bind. eapply wp_mono; [by apply array_add_spec|].
  intros r w2 (Hwf2 & Ho2 & Ht2 & Hh2 & Hreg & Hnf).
  assert (inserted [(parent, osdev)] [osdev] s.2 w r.2 w2) as Hdev.
  { destruct Hreg as [Hreg|Hreg].
    - exists [osdev].
      split_and!; [congruence|congruence|by rewrite Hh1 in Hh2|done|done|done|done].
    - exists []. rewrite app_nil_r.
      split_and!; [congruence|congruence|by rewrite Hh1 in Hh2|done|apply sublist_nil_l| |done].
      intros Hn. rewrite Hh1 in Hnf. specialize (Hnf Hn). rewrite Hreg in Hnf.
      symmetry in Hnf. apply app_inv_head with (l := registry s.2).
      by rewrite app_nil_r. }
  change ((parent, osdev) :: map (pair osdev) (created_subdevices subosdevs))
    with ([(parent, osdev)] ++ map (pair osdev) (created_subdevices subosdevs)).
  change (osdev :: created_subdevices subosdevs)
    with ([osdev] ++ created_subdevices subosdevs).
  destruct (Z.eqb_spec nr_subdevices 0) as [->|Hne].
  - apply wp_ret.
    assert (created_subdevices subosdevs = []) as ->.
    { destruct subosdevs as [slots|]; [|done]. simpl.
      specialize (Hslots slots eq_refl). by destruct slots. }
    exact Hdev.
  - destruct subosdevs as [slots|].
    + specialize (Hslots slots eq_refl).
      eapply wp_mono; [apply (insert_subdevices_spec osdev slots (Z.to_nat nr_subdevices) 0);
                       [done|simpl; lia]|].
      intros s2 w3 H3. rewrite drop_0, <- Hslots, firstn_all in H3.
      eapply inserted_app; [exact Hdev|exact H3].
    + destruct (Z.to_nat nr_subdevices) eqn:E; cbn [seq insert_subdevices].
      * apply wp_ret. exact Hdev.
      * apply wp_bind, wp_lift. by intros sub Hsub.
Qed.

Lemma pass_step_refl w a : wf_oarray a -> pass_step w a w a.
Proof.
  intros Hwf. exists [], []. simpl. rewrite !app_nil_r, Nat.sub_diag.
  split_and!; try done; by constructor.
Qed.

Lemma pass_step_quiet w a w1 : wf_oarray a -> grown 0 w w1 -> pass_step w a w1 a.
Proof.
  intros Hwf (Ht & Hl & Hh). exists [], []. simpl.
  rewrite !app_nil_r, Hl, Nat.add_0_r, Nat.sub_diag.
  split_and!; try done; by constructor.
Qed.

Lemma pass_step_trans w a w1 a1 w2 a2 :
  pass_step w a w1 a1 -> pass_step w1 a1 w2 a2 -> pass_step w a w2 a2.
Proof.
  intros (b1 & k1 & Ht1 & Hr1 & Hf1 & Hn1 & Hu1 & Hl1 & Hh1 & Hw1)
         (b2 & k2 & Ht2 & Hr2 & Hf2 & Hn2 & Hu2 & Hl2 & Hh2 & Hw2).
  exists (b1 ++ b2), (k1 ++ k2). split_and!.
  - by rewrite Ht2, Ht1, map_app, concat_app, app_assoc.
  - by rewrite Hr2, Hr1, concat_app, app_assoc.
  - by apply Forall2_app.
  - intros Hn. rewrite map_app, Hn1 by done. rewrite Hn2; [done|].
    by eapply no_failure_suffix.
  - intros Hclean. rewrite map_app, concat_app, Hu1 by done.
    rewrite Hu2 by by eapply clean_heap_suffix.
    replace (length (w_objs w2) - length (w_objs w))%nat
      with ((length (w_objs w1) - length (w_objs w))
            + (length (w_objs w2) - length (w_objs w1)))%nat by lia.
    rewrite seq_app. do 2 f_equal. lia.
  - lia.
  - by etrans.
  - done.
Qed.

Lemma discover_device_spec topology zesdr i j zeh s w :
  wf_oarray (ps_oarray s) ->
  wp (discover_device topology zesdr i j zeh s) w
     (fun s' w' => pass_step w (ps_oarray s) w' (ps_oarray s')).
Proof.
  intros Hwf. unfold discover_device.
  destruct (zeDeviceGetProperties (ze_core zeh)) as [res props].
  destruct (negb (succeeded res)); [by apply wp_ret, pass_step_refl|].
  destruct (zesDriverGetDeviceByUuidExp _ _) as [zesh|]; [|by apply wp_ret, pass_step_refl].
  wp_step alloc_setup_object_spec.
  intros osdev w1 [-> H1].
  wp_step modify_obj_grown. intros ? w2 H2.
  wp_step obj_add_info_grown. intros ? w3 H3.
  wp_step obj_add_info_grown. intros ? w4 H4.
  wp_step modify_obj_grown. intros ? w5 H5.
  wp_step cqprops_get_grown. intros ? w6 H6.
  assert (grown 1 w w6) as G6.
  { apply (grown_trans 1 0 _ _ _ H1). apply (grown_trans 0 0 _ _ _ H2).
    apply (grown_trans 0 0 _ _ _ H3). apply (grown_trans 0 0 _ _ _ H4).
    apply (grown_trans 0 0 _ _ _ H5 H6). }
  clear H1 H2 H3 H4 H5 H6.
  wp_step discover_subdevices_spec.
  intros [nr_subdevices subosdevs] w7 (c & H7 & Hslots & Hsubs). simpl in Hsubs, Hslots.
  pose proof (grown_trans 1 c _ _ _ G6 H7) as G7.
  wp_step memory_get_grown. intros ? w8 H8.
  apply wp_bind.
  apply wp_mono with (Q := fun _ w9 => grown 0 w8 w9).
  { destruct (negb _); [apply ports_get_grown|apply wp_ret_quiet]. }
  intros hports w9 H9.
  wp_step resolve_parent_grown. intros parent w10 H10.
  assert (grown (1 + c) w w10) as G10.
  { replace (1 + c)%nat with (1 + c + 0)%nat by lia.
    apply (grown_trans (1 + c) 0 _ _ _ G7). apply (grown_trans 0 0 _ _ _ H8).
    apply (grown_trans 0 0 _ _ _ H9 H10). }
  apply wp_bind. eapply wp_mono; [by apply insert_device_spec|].
  intros r w11 (kept & Ht & Ho & Hh & Hreg & Hsub & Hnf & Hwf'). simpl in Hreg.
  apply wp_ret. simpl.
  destruct G10 as (Gt & Gl & Gh).
  exists [(parent, S (length (w_objs w)), created_subdevices subosdevs)], [kept].
  unfold insertions_of, units_of. simpl. rewrite !app_nil_r.
  split_and!.
  - by rewrite Ht, Gt.
  - done.
  - constructor; [exact Hsub|constructor].
  - intros Hn. rewrite Hnf; [done|]. by eapply no_failure_suffix.
  - intros Hclean. rewrite Ho, Gl, Hsubs by (eapply clean_heap_suffix; [done|apply G6]).
    destruct G6 as (_ & G6l & _). rewrite G6l.
    replace (length (w_objs w) + (1 + c) - length (w_objs w))%nat with (S c) by lia.
    simpl. do 2 f_equal. lia.
  - rewrite Ho. lia.
  - by etrans.
  - done.
Qed.

Lemma discover_driver_spec topology zesdrh i drh_i s w :
  wf_oarray (ps_oarray s) ->
  wp (discover_driver topology zesdrh i drh_i s) w
     (fun s' w' => pass_step w (ps_oarray s) w' (ps_oarray s')).
Proof.
  intros Hwf. unfold discover_driver.
  destruct (zeDeviceGet drh_i) as [[res res2] dvh].
  destruct (negb (succeeded res) || _); [by apply wp_ret, pass_step_refl|].
  wp_step alloc_quiet. intros a w1 H1.
  assert (pass_step w (ps_oarray s) w1 (ps_oarray s)) as P1 by by apply pass_step_quiet.
  destruct a as [|stale]; [by apply wp_ret|].
  destruct (negb (succeeded res2)); [by apply wp_ret|].
  apply wp_bind, wp_lift. intros zesdr _.
  apply (wp_for_each _ (fun s' w' => pass_step w (ps_oarray s) w' (ps_oarray s'))); [done|].
  intros j zeh s1 w2 P2.
  eapply wp_mono.
  { apply discover_device_spec.
    by destruct P2 as (? & ? & ? & ? & ? & ? & ? & ? & ? & ?). }
  intros s2 w3 P3. by eapply pass_step_trans.
Qed.

Lemma devices_get_spec topology lz oarray hports w :
  wf_oarray oarray ->
  wp (hwloc__levelzero_devices_get topology lz oarray hports) w
     (fun r w' => pass_step w oarray w' r.1.2).
Proof.
  intros Hwf. unfold hwloc__levelzero_devices_get.
  destruct (zeDriverGet lz) as [[res res2] drh].
  destruct (negb (succeeded res) || _); [by apply wp_ret, pass_step_refl|].
  destruct (zesDriverGet lz) as [[zres zres2] zesdrh].
  destruct (negb (succeeded zres) || _); [by apply wp_ret, pass_step_refl|].
  wp_step alloc_quiet. intros a1 w1 H1.
  wp_step alloc_quiet. intros a2 w2 H2.
  pose proof (grown_trans 0 0 _ _ _ H1 H2) as G2.
  assert (pass_step w oarray w2 oarray) as P2 by by apply pass_step_quiet.
  destruct a1 as [|s1]; [by apply wp_ret|].
  destruct a2 as [|s2]; [by apply wp_ret|].
  destruct (negb (succeeded res2)); [by apply wp_ret|].
  destruct (negb (succeeded zres2)); [by apply wp_ret|].
  apply wp_bind. eapply wp_mono.
  { apply (wp_for_each _ (fun s' w' => pass_step w oarray w' (ps_oarray s'))); [exact P2|].
    intros i drh_i s1' w3 P3.
    eapply wp_mono.
    { apply discover_driver_spec.
      by destruct P3 as (? & ? & ? & ? & ? & ? & ? & ? & ? & ?). }
    intros s2' w4 P4. by eapply pass_step_trans. }
  intros s' w3 P3. by apply wp_ret.
Qed.






(** Running a closed computation: the result is computed once, and the
    equation between the computation and its result is kept. *)
Ltac run m E :=
  let v := eval vm_compute in m in
  assert (m = v) as E by (vm_compute; reflexivity).



Lemma synthetic_fill_blocks_witness :
  0 <= nr tile_registry
  /\ nr tile_registry * nr tile_registry < 2 ^ 32
  /\ landing_indexes tile_objects tile_registry = [0]
  /\ subdevice_count tile_objects tile_registry 0 = Some 2
  /\ exists bws',
       synthetic_fill tile_objects tile_registry (replicate 9 0)
       = Some (bws', landing_indexes tile_objects tile_registry)
       /\ (forall i c, i ∈ landing_indexes tile_objects tile_registry ->
             subdevice_count tile_objects tile_registry i = Some c ->
             (forall r col, i <= r <= i + c -> i <= col <= i + c ->
                bws' !! Z.to_nat (r * nr tile_registry + col) = Some LOCAL_BANDWIDTH)
             /\ (forall i', i' ∈ landing_indexes tile_objects tile_registry ->
                   i < i' -> i + c < i')).
Proof.
  assert (landing_indexes tile_objects tile_registry = [0]) as Hl by (vm_compute; reflexivity).
  assert (subdevice_count tile_objects tile_registry 0 = Some 2) as Hc
    by (vm_compute; reflexivity).
  split; [simpl; lia|]. split; [simpl; lia|]. split; [exact Hl|]. split; [exact Hc|].
  apply (synthetic_fill_blocks tile_objects tile_registry (replicate 9 0)).
  - simpl; lia.
  - simpl; lia.
  - reflexivity.
  - rewrite Hl. intros i Hi. apply list_elem_of_singleton in Hi. subst i.
    exists 2. split; [exact Hc|simpl; lia].
Defined.

(** C2: the fill can write past the matrix. The device reports two
    subdevices and only the first is created: the registry has two
    entries and the matrix four cells, while the count recorded on the
    device is 2. With a link between the device and its subdevice the
    builder reaches the fill, which lands on index 0 and sets the block of
    rows and columns 0 to 2: the cell of row 0 and column 2 is the cell of
    row 1 and column 0, and the cells of the rows 1 and 2 and column 2 are
    outside the matrix. *)
Theorem synthetic_fill_overruns_matrix :
  exists n oarray' hports' w' bws1,
    hwloc__levelzero_devices_get sample_topology half_tile_level_zero
      hwloc__levelzero_osdev_array_init hwloc__levelzero_ports_init (sample_world [])
    = Ret (n, oarray', hports') w'
    /\ registry oarray' = [2; 3]%nat
    /\ subdevice_count (w_objs w') oarray' 0 = Some 2
    /\ ports_accumulate (w_objs w') oarray' hports' (replicate 4 0) = Some (bws1, 2)
    /\ length bws1 = 4%nat
    /\ fill_block (nr oarray') 0 2 bws1 = None
    /\ synthetic_fill (w_objs w') oarray' bws1 = None
    /\ hwloc__levelzero_ports_connect oarray' hports' w' = Undefined.
Proof.
  run (hwloc__levelzero_devices_get sample_topology half_tile_level_zero
         hwloc__levelzero_osdev_array_init hwloc__levelzero_ports_init (sample_world [])) E.
  eexists _, _, _, _, _. split; [exact E|].
  split; [reflexivity|]. split; [reflexivity|]. split; [vm_compute; reflexivity|].
  split; [reflexivity|]. split; [reflexivity|]. split; reflexivity.
Qed.

(** C3: the amount added for a link is not its receive bit rate in
    megabytes per second. Two healthy XeLink ports of 8,000,000 bit/s, one
    megabyte per second, are wired to each other and owned by the
    registered subdevices of indexes 1 and 2: the entry of the two indexes
    receives [8000000 >> 20 = 7]. *)
Theorem xelink_amount_is_not_megabytes :
  exists bws' gotbw,
    ports_accumulate tile_objects tile_registry slow_ports (replicate 9 0)
    = Some (bws', gotbw)
    /\ rxSpeed_bitRate (state (tile_port 0 3%nat 8000000)) = 8000000
    /\ bws' !! cell tile_registry 1 2 = Some 7
    /\ megabytes_per_second 8000000 = 1.
Proof.
  run (ports_accumulate tile_objects tile_registry slow_ports (replicate 9 0)) E.
  eexists _, _. split; [exact E|]. split; [reflexivity|]. split; reflexivity.
Qed.

Lemma tile_owners_exist : owners_exist tile_objects (ports tile_ports).
Proof. repeat (apply Forall_cons_2; [vm_compute; eexists; reflexivity|]). apply Forall_nil_2. Defined.

Lemma xelink_bandwidth_accumulated_witness :
  owners_exist tile_objects (ports tile_ports)
  /\ exists bws' gotbw,
       ports_accumulate tile_objects tile_registry tile_ports (replicate 9 0)
       = Some (bws', gotbw)
       /\ bws' !! cell tile_registry 1 2 = Some 3
       /\ bws' !! cell tile_registry 1 2
          = Some (uint64 (0 + rxSpeed_bitRate (state (tile_port 0 3%nat (3 * 2 ^ 20))) / 2 ^ 20
                          + sum_other_links (ports tile_ports) 0 1
                              (fun p q => direct_amount tile_registry p q 1 2)
                          + sum_links (ports tile_ports)
                              (fun p q => parent_amount tile_registry p q 1 2))).
Proof.
  split; [exact tile_owners_exist|].
  run (ports_accumulate tile_objects tile_registry tile_ports (replicate 9 0)) E.
  eexists _, _. split; [exact E|]. split; [reflexivity|].
  refine (proj2 (xelink_bandwidth_accumulated tile_objects tile_registry tile_ports
                   (replicate 9 0) 0 1
                   (tile_port 0 3%nat (3 * 2 ^ 20)) (tile_port 1 4%nat (5 * 2 ^ 20)) 0
                   _ _ _ _ _ _ _ _ _ _ _ _ _ _ _ _) _ _ E).
  - simpl; lia.
  - simpl; lia.
  - reflexivity.
  - reflexivity.
  - apply Forall_replicate. lia.
  - reflexivity.
  - reflexivity.
  - lia.
  - reflexivity.
  - reflexivity.
  - reflexivity.
  - reflexivity.
  - reflexivity.
  - vm_compute. discriminate.
  - vm_compute. discriminate.
  - reflexivity.
Defined.

Lemma parent_devices_receive_link_bandwidth_witness :
  owners_exist tile_objects (ports tile_ports)
  /\ exists bws' gotbw,
       ports_accumulate tile_objects tile_registry tile_ports (replicate 9 0)
       = Some (bws', gotbw)
       /\ bws' !! cell tile_registry 1 2 = Some 3
       /\ bws' !! cell tile_registry 0 0 = Some 8
       /\ bws' !! cell tile_registry 1 2
          = Some (uint64 (0 + rxSpeed_bitRate (state (tile_port 0 3%nat (3 * 2 ^ 20))) / 2 ^ 20
                          + sum_other_links (ports tile_ports) 0 1
                              (fun p q => direct_amount tile_registry p q 1 2)
                          + sum_links (ports tile_ports)
                              (fun p q => parent_amount tile_registry p q 1 2)))
       /\ bws' !! cell tile_registry 0 0
          = Some (uint64 (0 + rxSpeed_bitRate (state (tile_port 0 3%nat (3 * 2 ^ 20))) / 2 ^ 20
                          + sum_links (ports tile_ports)
                              (fun p q => direct_amount tile_registry p q 0 0)
                          + sum_other_links (ports tile_ports) 0 1
                              (fun p q => parent_amount tile_registry p q 0 0))).
Proof.
  split; [exact tile_owners_exist|].
  run (ports_accumulate tile_objects tile_registry tile_ports (replicate 9 0)) E.
  eexists _, _. split; [exact E|]. split; [reflexivity|]. split; [reflexivity|].
  refine (proj2 (parent_devices_receive_link_bandwidth tile_objects tile_registry tile_ports
                   (replicate 9 0) 0 1
                   (tile_port 0 3%nat (3 * 2 ^ 20)) (tile_port 1 4%nat (5 * 2 ^ 20)) 0 0
                   _ _ _ _ _ _ _ _ _ _ _ _ _ _ _) _ _ E).
  - simpl; lia.
  - simpl; lia.
  - reflexivity.
  - reflexivity.
  - apply Forall_replicate. lia.
  - reflexivity.
  - reflexivity.
  - lia.
  - vm_compute. reflexivity.
  - simpl. discriminate.
  - simpl. discriminate.
  - vm_compute. discriminate.
  - vm_compute. discriminate.
  - reflexivity.
  - reflexivity.
Defined.

Lemma driver_count_mismatch_aborts_witness :
  length (zesDriverGet mismatched_level_zero).2 <> length (zeDriverGet mismatched_level_zero).2
  /\ hwloc__levelzero_devices_get sample_topology mismatched_level_zero
       hwloc__levelzero_osdev_array_init hwloc__levelzero_ports_init (sample_world [])
     = Ret (0, hwloc__levelzero_osdev_array_init, hwloc__levelzero_ports_init) (sample_world []).
Proof.
  split; [simpl; lia|].
  apply driver_count_mismatch_aborts. right. simpl. lia.
Defined.

Lemma out_of_range_module_is_aggregated_witness :
  memory_module 2%nat 2 (Some [3; 4]%nat) (sample_module 7 4096) ([sample_root], 0, 0)
  = Some ([sample_root], 4, 0).
Proof.
  apply (out_of_range_module_is_aggregated 2%nat 2 (Some [3; 4]%nat) (sample_module 7 4096)
           (zesMemoryGetProperties (sample_module 7 4096)).2 [sample_root] 0 0).
  - reflexivity.
  - reflexivity.
  - simpl. lia.
Defined.

Lemma retained_ports_healthy_or_degraded_witness :
  Forall healthy_or_degraded (ports hwloc__levelzero_ports_init)
  /\ exists n oarray' hports' w',
       hwloc__levelzero_devices_get sample_topology tile_level_zero
         hwloc__levelzero_osdev_array_init hwloc__levelzero_ports_init (sample_world [])
       = Ret (n, oarray', hports') w'
       /\ length (ports hports') = 2%nat
       /\ Forall healthy_or_degraded (ports hports').
Proof.
  assert (Forall healthy_or_degraded (ports hwloc__levelzero_ports_init)) as H0
    by constructor.
  split; [exact H0|].
  run (hwloc__levelzero_devices_get sample_topology tile_level_zero
         hwloc__levelzero_osdev_array_init hwloc__levelzero_ports_init (sample_world [])) E.
  eexists _, _, _, _. split; [exact E|]. split; [reflexivity|].
  exact (proj1 (retained_ports_healthy_or_degraded sample_topology tile_level_zero
                  _ _ _ _ _ _ _ H0 E)).
Defined.

Lemma zero_physical_size_uses_memory_state_witness :
  module_physicalSize (sample_module 0 4096)
    (zesMemoryGetProperties (sample_module 0 4096)).2 = 4096
  /\ exists w' o' total,
       hwloc__levelzero_memory_get
         (sample_zes_device [sample_module 0 4096; sample_module 1 8192] [])
         2%nat 2 (Some [3; 4]%nat)
         {| w_objs := tile_objects; w_tree := []; w_heap := []; w_backend := [];
            w_distances := [] |} = Ret 0 w'
       /\ deref (w_objs w') 2%nat = Some o'
       /\ total = (fun b' => uint64 (sumZ (map (module_kB b')
                                     ([] ++ sample_module 0 4096 :: [sample_module 1 8192]))))
       /\ total HBM_bucket
          = uint64 (Z.shiftr 4096 10
                    + sumZ (map (module_kB HBM_bucket) ([] ++ [sample_module 1 8192])))
       /\ obj_infos o'
          = [("LevelZeroSubdevices", "2")]%string
            ++ bucket_attribute (aggregate_name HBM_bucket) (total HBM_bucket)
            ++ bucket_attribute (aggregate_name DDR_bucket) (total DDR_bucket).
Proof.
  apply (zero_physical_size_uses_memory_state
           (sample_zes_device [sample_module 0 4096; sample_module 1 8192] [])
           2%nat 2 (Some [3; 4]%nat)
           {| w_objs := tile_objects; w_tree := []; w_heap := []; w_backend := [];
              w_distances := [] |}
           (add_info (set_name "ze0" sample_root) "LevelZeroSubdevices" "2")
           [] (sample_module 0 4096) [sample_module 1 8192]
           (zesMemoryGetProperties (sample_module 0 4096)).2
           (zesMemoryGetState (sample_module 0 4096)).2 HBM_bucket).
  - reflexivity.
  - simpl. discriminate.
  - reflexivity.
  - intros subs [= <-]. split; [lia|]. split; [reflexivity|].
    repeat (apply Forall_cons_2; [right; vm_compute; eexists; reflexivity|]).
    apply Forall_nil_2.
  - reflexivity.
  - reflexivity.
  - reflexivity.
  - simpl. lia.
  - reflexivity.
Defined.

Lemma sysman_strings_attached_witness :
  exists added,
    obj_infos (hwloc__levelzero_properties_get (sample_core 0 0 7) (sample_zes_device [] [])
                 None sample_root)
    = obj_infos sample_root ++ added
    /\ forall key v, (key, v) ∈ sysman_strings sample_sysman_properties ->
         forall v', (key, v') ∈ added <-> v' = c_str v /\ ~ is_unknown v.
Proof.
  apply (sysman_strings_attached (sample_core 0 0 7) (sample_zes_device [] []) None
           sample_root 0 sample_sysman_properties).
  - intros p Hp. vm_compute in Hp. injection Hp as <-. reflexivity.
  - reflexivity.
  - reflexivity.
Defined.

(** C10: the code can append a port that references no device unit. The
    properties of the second subdevice cannot be read, so its slot of the
    subdevice array is never written; a healthy port reported on that
    subdevice passes the range test and is captured with the content of
    the slot as its owner. *)
Theorem port_of_skipped_subdevice_is_captured :
  exists n oarray' hports' w' e,
    hwloc__levelzero_devices_get sample_topology skipped_tile_level_zero
      hwloc__levelzero_osdev_array_init hwloc__levelzero_ports_init (sample_world [])
    = Ret (n, oarray', hports') w'
    /\ registry oarray' = [2; 3]%nat
    /\ ports hports' !! 1%nat = Some e
    /\ port_onSubdevice (props e) = true
    /\ port_subdeviceId (props e) = 1
    /\ osdev e = NULL
    /\ deref (w_objs w') (osdev e) = None.
Proof.
  run (hwloc__levelzero_devices_get sample_topology skipped_tile_level_zero
         hwloc__levelzero_osdev_array_init hwloc__levelzero_ports_init (sample_world [])) E.
  eexists _, _, _, _, _. split; [exact E|].
  split; [reflexivity|]. split; [reflexivity|]. split; [reflexivity|].
  split; [reflexivity|]. split; reflexivity.
Qed.

Lemma find_from_absent l x : forall i, x ∉ l -> find_from l i x = -1.
Proof.
  induction l as [|y l IH]; intros i Hx; simpl; [done|].
  apply not_elem_of_cons in Hx as [Hne Hx].
  destruct (decide (y = x)); [congruence|]. by apply IH.
Qed.

Lemma find_from_first pre x post : forall i,
  0 <= i -> i + Z.of_nat (length pre) < 2 ^ 31 -> x ∉ pre ->
  find_from (pre ++ x :: post) i x = i + Z.of_nat (length pre).
Proof.
  induction pre as [|y pre IH]; intros i Hi Hlen Hx; simpl in *.
  - rewrite decide_True by done. unfold int_of_unsigned.
    destruct (Z.ltb_spec i (2 ^ 31)); lia.
  - apply not_elem_of_cons in Hx as [Hne Hx].
    rewrite decide_False by congruence.
    rewrite uint32_small by lia. rewrite IH by (try done; lia). lia.
Qed.

Lemma registry_length_le a : 0 <= nr a -> Z.of_nat (length (registry a)) <= nr a.
Proof. intros H. unfold registry. rewrite length_take. lia. Qed.

(** X1: a lookup returns the index of the first occurrence. *)
Theorem array_find_first_occurrence a x pre post :
  0 <= nr a < 2 ^ 31 ->
  registry a = pre ++ x :: post -> x ∉ pre ->
  hwloc__levelzero_osdev_array_find a x = Z.of_nat (length pre).
Proof.
  intros Hn Hreg Hx. unfold hwloc__levelzero_osdev_array_find. rewrite Hreg.
  pose proof (registry_length_le a ltac:(lia)) as Hl. rewrite Hreg, length_app in Hl.
  simpl in Hl. rewrite find_from_first; [lia|lia| |done]. lia.
Qed.

(** X2: a lookup answers -1 exactly for the objects that are not in the
    registry. *)
Theorem array_find_absent a x :
  0 <= nr a < 2 ^ 31 ->
  hwloc__levelzero_osdev_array_find a x = -1 <-> x ∉ registry a.
Proof.
  intros Hn. unfold hwloc__levelzero_osdev_array_find. split.
  - intros Hf Hin. apply list_elem_of_split_l in Hin as (pre & post & Hreg & Hx).
    pose proof (registry_length_le a ltac:(lia)) as Hl. rewrite Hreg, length_app in Hl.
    simpl in Hl. rewrite Hreg, find_from_first in Hf; [lia|lia| |done]. lia.
  - intros Hx. by apply find_from_absent.
Qed.

Lemma alloc_eq w :
  alloc w = Ret (default (Block []) (head (w_heap w)))
                (if w_heap w is [] then w else after_alloc w).
Proof. unfold alloc, after_alloc. by destruct (w_heap w). Qed.

Lemma alloc_total w :
  exists a w1, alloc w = Ret a w1 /\ w_objs w1 = w_objs w /\ w_tree w1 = w_tree w.
Proof. unfold alloc. destruct (w_heap w); eexists _, _; (split; [reflexivity|done]). Qed.

Lemma alloc_distances w a w1 : alloc w = Ret a w1 -> w_distances w1 = w_distances w.
Proof. unfold alloc. destruct (w_heap w); by intros [= <- <-]. Qed.

(** What one append does, on a well-formed registry whose capacity can
    still grow. *)
Lemma array_add_run a x w :
  wf_oarray a -> nr_allocated a + 40 < 2 ^ 32 ->
  exists r a' w',
    hwloc__levelzero_osdev_array_add a x w = Ret (r, a') w'
    /\ w_objs w' = w_objs w /\ w_tree w' = w_tree w
    /\ w_backend w' = w_backend w /\ w_distances w' = w_distances w
    /\ w_heap w' = (if decide (nr_allocated a = nr a) then tail (w_heap w) else w_heap w)
    /\ if decide (growth_fails a w)
       then r = -1 /\ a' = a
       else r = 0
            /\ registry a' = registry a ++ [x]
            /\ nr a' = nr a + 1
            /\ nr_allocated a'
               = (if decide (nr_allocated a = nr a) then nr_allocated a + 40
                  else nr_allocated a)
            /\ wf_oarray a'.
Proof.
  intros ((Hn0 & Hna) & H32 & Hlen) Hgrow.
  assert (forall a1, wf_oarray a1 -> nr a1 < nr_allocated a1 -> registry a1 = registry a ->
            nr a1 = nr a ->
            let a' := {| nr := uint32 (nr a1 + 1); nr_allocated := nr_allocated a1;
                         objs := <[Z.to_nat (nr a1) := x]> (objs a1) |} in
            registry a' = registry a ++ [x] /\ nr a' = nr a + 1 /\ wf_oarray a') as Hstore.
  { intros a1 ((Hn0' & Hna') & H32' & Hlen') Hlt Hreg Hnr a'. subst a'.
    unfold wf_oarray, registry in *. simpl. rewrite uint32_small by lia.
    rewrite length_insert. split_and!; try lia.
    rewrite <- Hreg.
    replace (Z.to_nat (nr a1 + 1)) with (S (Z.to_nat (nr a1))) by lia.
    rewrite (take_S_r _ _ x) by (apply list_lookup_insert_eq; lia).
    by rewrite take_insert_ge by lia. }
  unfold hwloc__levelzero_osdev_array_add.
  unfold mbind, M_bind. destruct (Z.eqb_spec (nr_allocated a) (nr a)) as [Heq|Hne].
  - rewrite (decide_True _ _ Heq). unfold mbind, M_bind. rewrite alloc_eq.
    set (W := if w_heap w is [] then w else after_alloc w).
    assert (w_objs W = w_objs w /\ w_tree W = w_tree w /\ w_backend W = w_backend w
            /\ w_distances W = w_distances w /\ w_heap W = tail (w_heap w))
      as (Ho & Ht & Hb & Hd & Hh).
    { subst W. destruct (w_heap w) eqn:E; simpl; rewrite ?E; done. }
    destruct (decide (growth_fails a w)) as [[_ Hf]|Hnf].
    + rewrite Hf. simpl. eexists _, _, _. split; [reflexivity|]. by split_and!.
    + assert (exists stale, default (Block []) (head (w_heap w)) = Block stale) as [stale ->].
      { destruct (head (w_heap w)) as [[|stale]|] eqn:E; simpl; eauto.
        destruct Hnf. by split. }
      simpl.
      set (a1 := {| nr := nr a; nr_allocated := uint32 (nr_allocated a + 40);
                    objs := realloc_slots NULL (objs a) (uint32 (nr_allocated a + 40)) |}).
      destruct (realloc_slots_spec (objs a) (uint32 (nr_allocated a + 40))) as [Hl Htake].
      rewrite uint32_small in Hl, Htake by lia.
      assert (nr_allocated a1 = nr_allocated a + 40) as Hcap
        by (subst a1; simpl; by rewrite uint32_small by lia).
      assert (length (objs a1) = Z.to_nat (nr_allocated a + 40)) as Hlen1
        by (subst a1; simpl; by rewrite uint32_small by lia).
      assert (wf_oarray a1) as Hwf1.
      { unfold wf_oarray. rewrite Hcap, Hlen1. subst a1. simpl. lia. }
      assert (registry a1 = registry a) as Hreg1.
      { unfold registry, a1. simpl. rewrite uint32_small by lia. apply Htake; lia. }
      destruct (Hstore a1 Hwf1) as (Hr & Hnr & Hwf'); [rewrite Hcap; subst a1; simpl; lia|done|done|].
      rewrite decide_True by (rewrite ?uint32_small by lia; rewrite ?Hl; simpl; lia).
      eexists _, _, _. split; [reflexivity|].
      split_and!; try done.
      simpl. rewrite decide_True by done. by rewrite uint32_small by lia.
  - rewrite (decide_False _ _ Hne).
    destruct (decide (growth_fails a w)) as [[? _]|_]; [done|]. simpl.
    destruct (Hstore a) as (Hr & Hnr & Hwf'); [done|lia|done|done|].
    rewrite decide_True by lia.
    eexists _, _, _. split; [reflexivity|]. split_and!; try done.
    simpl. by rewrite decide_False by done.
Qed.

(** X3: an append to a well-formed registry returns. It fails, with -1 and
    the registry as it was, exactly when the registry is full and its
    growth by 40 slots is refused; otherwise it returns 0, the object is
    the new last entry, the earlier entries are kept, and the capacity
    grows by 40 only when the registry was full. *)
Theorem array_add_appends_or_fails a x w :
  wf_oarray a -> nr_allocated a + 40 < 2 ^ 32 ->
  exists r a' w',
    hwloc__levelzero_osdev_array_add a x w = Ret (r, a') w'
    /\ w_objs w' = w_objs w /\ w_tree w' = w_tree w
    /\ if decide (growth_fails a w)
       then r = -1 /\ a' = a
       else r = 0
            /\ registry a' = registry a ++ [x]
            /\ nr a' = nr a + 1
            /\ nr_allocated a'
               = (if decide (nr_allocated a = nr a) then nr_allocated a + 40
                  else nr_allocated a)
            /\ wf_oarray a'.
Proof.
  intros Hwf Hgrow.
  destruct (array_add_run a x w Hwf Hgrow) as (r & a' & w' & Hrun & Ho & Ht & _ & _ & _ & H).
  by exists r, a', w'.
Qed.

(** X4: an object appended to the registry is found at the index it was
    given, and the lookups of the objects registered before are not
    changed. *)
Theorem array_add_then_find a x w a' w' :
  wf_oarray a -> nr_allocated a + 40 < 2 ^ 32 -> nr a + 1 < 2 ^ 31 ->
  hwloc__levelzero_osdev_array_add a x w = Ret (0, a') w' ->
  (x ∉ registry a -> hwloc__levelzero_osdev_array_find a' x = nr a)
  /\ (forall y, y ∈ registry a ->
        hwloc__levelzero_osdev_array_find a' y = hwloc__levelzero_osdev_array_find a y).
Proof.
  intros Hwf Hgrow Hsmall Hrun.
  destruct (array_add_run a x w Hwf Hgrow) as (r & a1 & w1 & Hrun' & _ & _ & _ & _ & _ & H).
  rewrite Hrun in Hrun'. injection Hrun' as <- <- <-.
  destruct (decide (growth_fails a w)); [by destruct H|].
  destruct H as (_ & Hreg & Hnr & _ & Hwf').
  pose proof Hwf as ((Hn0 & _) & _ & _).
  pose proof (registry_wf a Hwf) as Hlen.
  unfold hwloc__levelzero_osdev_array_find. rewrite Hreg. split.
  - intros Hx. rewrite find_from_first; [lia|lia|lia|done].
  - intros y Hy. apply list_elem_of_split_l in Hy as (pre & post & Hsplit & Hpre).
    rewrite Hsplit in *. rewrite length_app in Hlen. simpl in Hlen.
    rewrite <- app_assoc. simpl.
    rewrite !find_from_first; [done|lia|lia|done|lia|lia|done].
Qed.

Lemma known_string_infos (v key : string) (o : hwloc_obj) :
  obj_infos (if negb (strcasecmp v "Unknown" =? 0) then add_info o key (c_str v) else o)
  = obj_infos o ++ (if decide (is_unknown v) then [] else [(key, c_str v)]).
Proof.
  pose proof (strcasecmp_Unknown v) as H.
  destruct (strcasecmp v "Unknown" =? 0); simpl.
  - rewrite decide_True by by apply H. by rewrite app_nil_r.
  - rewrite decide_False; [done|]. intros Hu. apply H in Hu. done.
Qed.

Lemma known_string_frame (v key : string) (o : hwloc_obj) :
  let o' := if negb (strcasecmp v "Unknown" =? 0) then add_info o key (c_str v) else o in
  obj_type o' = obj_type o /\ obj_name o' = obj_name o /\ obj_subtype o' = obj_subtype o.
Proof. simpl. by destruct (negb _). Qed.

(** X5: the attributes a unit receives are, in this order, the six
    attributes of its core properties when they are available, then,
    unless these properties flag the unit as a subdevice, the known strings
    of the monitoring extension when its query succeeds. Nothing else of
    the object changes. *)
Theorem properties_get_attributes zeh zesh prop osdev :
  let osdev' := hwloc__levelzero_properties_get zeh zesh prop osdev in
  obj_infos osdev'
  = obj_infos osdev
    ++ match device_properties zeh prop with
       | Some p => core_attributes p
                   ++ (if decide (flagged_subdevice p) then [] else sysman_attributes zesh)
       | None => sysman_attributes zesh
       end
  /\ obj_type osdev' = obj_type osdev
  /\ obj_name osdev' = obj_name osdev
  /\ obj_subtype osdev' = obj_subtype osdev.
Proof.
  unfold hwloc__levelzero_properties_get, sysman_attributes, flagged_subdevice.
  destruct (zesDeviceGetProperties zesh) as [res prop2] eqn:Hq. simpl fst. simpl snd.
  assert (forall o : hwloc_obj,
    let o' :=
      if succeeded res then
        let o := if negb (strcasecmp (vendorName prop2) "Unknown" =? 0)
                 then add_info o "LevelZeroVendor" (c_str (vendorName prop2)) else o in
        let o := if negb (strcasecmp (modelName prop2) "Unknown" =? 0)
                 then add_info o "LevelZeroModel" (c_str (modelName prop2)) else o in
        let o := if negb (strcasecmp (brandName prop2) "Unknown" =? 0)
                 then add_info o "LevelZeroBrand" (c_str (brandName prop2)) else o in
        let o := if negb (strcasecmp (serialNumber prop2) "Unknown" =? 0)
                 then add_info o "LevelZeroSerialNumber" (c_str (serialNumber prop2)) else o in
        let o := if negb (strcasecmp (boardNumber prop2) "Unknown" =? 0)
                 then add_info o "LevelZeroBoardNumber" (c_str (boardNumber prop2)) else o in
        o
      else o in
    obj_infos o' = obj_infos o ++ (if decide (res = ZE_RESULT_SUCCESS)
                                   then known_strings prop2 else [])
    /\ obj_type o' = obj_type o /\ obj_name o' = obj_name o
    /\ obj_subtype o' = obj_subtype o) as Hsys.
  { intros o. unfold succeeded. destruct (Z.eqb_spec res ZE_RESULT_SUCCESS) as [->|Hne].
    - rewrite decide_True by done. cbv zeta. split.
      + rewrite !known_string_infos, <- !app_assoc. f_equal.
        unfold known_strings, sysman_strings. simpl.
        by repeat (destruct (decide (is_unknown _)); simpl).
      + repeat match goal with
               | |- context [if negb (strcasecmp ?v "Unknown" =? 0) then add_info ?o ?k _ else _] =>
                   destruct (negb (strcasecmp v "Unknown" =? 0))
               end; done.
    - rewrite decide_False by done. simpl. by rewrite app_nil_r. }
  destruct (device_properties zeh prop) as [p|].
  - cbv beta iota zeta.
    destruct (Z.eqb_spec (Z.land (dp_flags p) ZE_DEVICE_PROPERTY_FLAG_SUBDEVICE) 0) as [E|E].
    + rewrite decide_False by (intros H; by apply H). simpl negb. cbv iota.
      match goal with
      | |- context [if succeeded res then _ else ?o] => destruct (Hsys o) as (Hi & Ht & Hn & Hs)
      end.
      cbv zeta in Hi, Ht, Hn, Hs. rewrite Hi, Ht, Hn, Hs. simpl.
      by rewrite <- !app_assoc.
    + rewrite decide_True by done. simpl. by rewrite <- !app_assoc.
  - cbv beta iota zeta. apply Hsys.
Qed.

Lemma hex_value_digit n : 0 <= n < 16 -> hex_value (hex_digit n) = n.
Proof.
  intros [Hlow Hhigh]. destruct n as [|p|p]; [reflexivity| |lia].
  do 4 (destruct p as [p|p|]; try reflexivity; try lia).
Qed.

Lemma fmt_02x_inj a b : is_byte a -> is_byte b -> fmt_02x a = fmt_02x b -> a = b.
Proof.
  unfold is_byte, fmt_02x. intros Ha Hb [= H1 H2].
  apply (f_equal hex_value) in H1, H2.
  rewrite !Z.mod_small in H1 by lia.
  assert (0 <= a / 16 < 16 /\ 0 <= b / 16 < 16 /\ 0 <= a mod 16 < 16 /\ 0 <= b mod 16 < 16)
    as (? & ? & ? & ?) by (Z.div_mod_to_equations; lia).
  rewrite !hex_value_digit in H1, H2 by done.
  Z.div_mod_to_equations. lia.
Qed.

Lemma fmt_02x_length b : String.length (fmt_02x b) = 2%nat.
Proof. done. Qed.

(** The identity string, for the bytes from index [k]. *)
Lemma fmt_uuid_from_inj (id1 id2 : list Z) ks :
  (forall k, k ∈ ks -> exists a b, id1 !! k = Some a /\ id2 !! k = Some b
                                   /\ is_byte a /\ is_byte b) ->
  foldr (fun i s => fmt_02x (nth i id1 0) +:+ s) EmptyString ks
  = foldr (fun i s => fmt_02x (nth i id2 0) +:+ s) EmptyString ks ->
  forall k, k ∈ ks -> id1 !! k = id2 !! k.
Proof.
  induction ks as [|k0 ks IH]; intros Hb Heq k Hk; [by apply elem_of_nil in Hk|].
  simpl in Heq. injection Heq as H1 H2 Hrest.
  destruct (Hb k0 (list_elem_of_here _ _)) as (a & b & Ha & Hb0 & Hba & Hbb).
  assert (nth k0 id1 0 = a) as Hna by (by apply nth_lookup_Some with (d := 0) in Ha).
  assert (nth k0 id2 0 = b) as Hnb by (by apply nth_lookup_Some with (d := 0) in Hb0).
  apply elem_of_cons in Hk as [->|Hk].
  - rewrite Ha, Hb0. f_equal. apply fmt_02x_inj; [done..|].
    unfold fmt_02x. rewrite <- Hna, <- Hnb. congruence.
  - apply IH; [|done|done]. intros k' Hk'. apply Hb. by apply list_elem_of_further.
Qed.

(** X6: the identity attribute has 32 characters, and two identities of 16
    bytes with the same attribute are the same identity. *)
Theorem uuid_attribute_faithful (id1 id2 : list Z) :
  length id1 = ZE_MAX_DEVICE_UUID_SIZE -> length id2 = ZE_MAX_DEVICE_UUID_SIZE ->
  Forall is_byte id1 -> Forall is_byte id2 ->
  String.length (fmt_uuid id1) = 32%nat
  /\ (fmt_uuid id1 = fmt_uuid id2 -> id1 = id2).
Proof.
  intros Hl1 Hl2 Hb1 Hb2. split; [done|].
  intros Heq. unfold fmt_uuid in Heq.
  apply list_eq_same_length with (n := ZE_MAX_DEVICE_UUID_SIZE); [done..|].
  intros k a b Hk Ha Hb.
  assert (id1 !! k = id2 !! k) as E; [|congruence].
  apply (fmt_uuid_from_inj id1 id2 (seq 0 ZE_MAX_DEVICE_UUID_SIZE)); [|exact Heq|].
  - intros k' Hk'. apply elem_of_seq in Hk'.
    destruct (lookup_lt_is_Some_2 id1 k') as [a' Ha']; [lia|].
    destruct (lookup_lt_is_Some_2 id2 k') as [b' Hb']; [lia|].
    exists a', b'. split_and!; try done.
    + by eapply (Forall_lookup_1 _ _ _ _ Hb1).
    + by eapply (Forall_lookup_1 _ _ _ _ Hb2).
  - apply elem_of_seq. lia.
Qed.

Lemma cqgroup_infos_spec cqprops : forall k o,
  0 <= k ->
  obj_infos (cqgroup_infos k cqprops o)
  = obj_infos o
    ++ imap (fun i cq => ("LevelZeroCQGroup" +:+ fmt_u (k + Z.of_nat i),
                          fmt_u (uint32 (cq_numQueues cq)) +:+ "*0x" +:+ fmt_lx (cq_flags cq)))
            cqprops
  /\ obj_type (cqgroup_infos k cqprops o) = obj_type o
  /\ obj_name (cqgroup_infos k cqprops o) = obj_name o
  /\ obj_subtype (cqgroup_infos k cqprops o) = obj_subtype o.
Proof.
  induction cqprops as [|cq rest IH]; intros k o Hk; simpl.
  - by rewrite app_nil_r.
  - destruct (IH (k + 1) (add_info o ("LevelZeroCQGroup" +:+ fmt_u k)
                 (fmt_u (uint32 (cq_numQueues cq)) +:+ "*0x" +:+ fmt_lx (cq_flags cq))))
      as (Hi & Ht & Hn & Hs); [lia|].
    rewrite Hi, Ht, Hn, Hs. simpl. split_and!; try done.
    rewrite <- app_assoc. simpl. rewrite Z.add_0_r. do 2 f_equal.
    apply imap_ext. intros i x _. simpl. do 3 f_equal. lia.
Qed.

(** X7: when the two queries of the command queue groups and the
    allocation of their array succeed, for at least one group, the unit
    receives the number of groups and then one attribute per group, in
    the order of the groups; in every other case the call returns with the
    objects as they were. *)
Theorem cqprops_get_attributes zeh osdev w o :
  deref (w_objs w) osdev = Some o ->
  exists w' o',
    hwloc__levelzero_cqprops_get zeh osdev w = Ret tt w'
    /\ w_tree w' = w_tree w
    /\ (forall q, q <> osdev -> deref (w_objs w') q = deref (w_objs w) q)
    /\ deref (w_objs w') osdev = Some o'
    /\ obj_name o' = obj_name o /\ obj_type o' = obj_type o
    /\ obj_infos o'
       = obj_infos o
         ++ (if decide (cqgroups_available zeh w)
             then cqgroup_attributes (zeDeviceGetCommandQueueGroupProperties zeh).2
             else []).
Proof.
  intros Ho.
  destruct (decide (cqgroups_available zeh w)) as [Hav|Hnav];
    unfold cqgroups_available in *; unfold hwloc__levelzero_cqprops_get;
    destruct (zeDeviceGetCommandQueueGroupProperties zeh) as [[res res2] cqprops];
    simpl in *.
  - destruct Hav as (-> & -> & Hne & Hheap).
    change (succeeded ZE_RESULT_SUCCESS) with true. simpl.
    destruct (Z.eqb_spec (Z.of_nat (length cqprops)) 0) as [Hz|_];
      [by destruct cqprops|].
    destruct (alloc_run w Hheap) as (stale & w1 & Ha & Ho1 & Ht1).
    rewrite (bind_run _ _ _ _ _ Ha).
    unfold modify_obj, mbind, M_bind, get_objs, lift. rewrite Ho1, Ho. simpl.
    eexists _, _. split; [reflexivity|]. simpl. split; [done|].
    split; [intros q Hq; by apply deref_update_ne|].
    split; [apply deref_update_eq; by eexists|].
    destruct (cqgroup_infos_spec cqprops 0
                (add_info o "LevelZeroCQGroups" (fmt_u (Z.of_nat (length cqprops)))))
      as (Hi & Ht & Hn & _); [lia|].
    rewrite Hi, Ht, Hn. simpl. split_and!; try done.
    rewrite <- app_assoc. done.
  - assert (forall w1, w_objs w1 = w_objs w -> w_tree w1 = w_tree w ->
              exists w' o',
                Ret tt w1 = Ret tt w' /\ w_tree w' = w_tree w
                /\ (forall q, q <> osdev -> deref (w_objs w') q = deref (w_objs w) q)
                /\ deref (w_objs w') osdev = Some o'
                /\ obj_name o' = obj_name o /\ obj_type o' = obj_type o
                /\ obj_infos o' = obj_infos o ++ []) as Hsame.
    { intros w1 Ho1 Ht1. exists w1, o. rewrite Ho1, app_nil_r. by split_and!. }
    unfold succeeded.
    destruct (Z.eqb_spec res ZE_RESULT_SUCCESS) as [->|Hres]; simpl; [|by apply Hsame].
    destruct (Z.eqb_spec (Z.of_nat (length cqprops)) 0) as [Hz|Hnz]; [by apply Hsame|].
    unfold mbind, M_bind, alloc.
    destruct (w_heap w) as [|[|stale] rest] eqn:Hh; simpl.
    + destruct (Z.eqb_spec res2 ZE_RESULT_SUCCESS) as [->|Hres2]; [|by apply Hsame].
      destruct Hnav. split_and!; try done. by destruct cqprops.
    + by apply Hsame.
    + destruct (Z.eqb_spec res2 ZE_RESULT_SUCCESS) as [->|Hres2]; [|by apply Hsame].
      destruct Hnav. split_and!; try done. by destruct cqprops.
Qed.

(** X8: a memory module of a subdevice whose index is in range, with a size
    that is not zero, is written on the object of that subdevice at once,
    as the attribute LevelZeroHBMSize, LevelZeroDDRSize or
    LevelZeroMemorySize with the size in KiB; a module of another
    technology than HBM and DDR counts in no total. *)
Theorem subdevice_module_sets_attribute
    root_osdev nr_osdevs subs mh mprop st hbm ddr p o :
  zesMemoryGetProperties mh = (ZE_RESULT_SUCCESS, mprop) ->
  mem_onSubdevice mprop = true ->
  0 <= mem_subdeviceId mprop < nr_osdevs ->
  subs !! Z.to_nat (mem_subdeviceId mprop) = Some p ->
  p <> NULL -> p <> root_osdev ->
  deref st p = Some o ->
  module_physicalSize mh mprop <> 0 ->
  memory_module root_osdev nr_osdevs (Some subs) mh (st, hbm, ddr)
  = Some (update_obj st p
            (add_info o ("LevelZero" +:+ memory_type_name (mem_type mprop) +:+ "Size")
                      (fmt_u (Z.shiftr (module_physicalSize mh mprop) 10))),
          match bucket_of (mem_type mprop) with
          | Some HBM_bucket => uint64 (hbm + Z.shiftr (module_physicalSize mh mprop) 10)
          | _ => hbm
          end,
          match bucket_of (mem_type mprop) with
          | Some DDR_bucket => uint64 (ddr + Z.shiftr (module_physicalSize mh mprop) 10)
          | _ => ddr
          end).
Proof.
  intros Hp Hon Hid Hsub Hnull Hroot Ho Hsize. unfold memory_module. rewrite Hp, Hon.
  change (succeeded ZE_RESULT_SUCCESS) with true. cbv iota.
  rewrite (proj2 (Z.leb_gt nr_osdevs (mem_subdeviceId mprop))) by lia.
  rewrite (proj2 (Z.eqb_neq nr_osdevs 0)) by lia.
  rewrite bool_decide_eq_true_2 by by eexists. simpl. rewrite Hsub. simpl.
  apply eqb_NULL_false in Hnull. rewrite Hnull.
  rewrite (proj2 (Z.eqb_neq _ 0) Hsize).
  rewrite (proj2 (Nat.eqb_neq p root_osdev) Hroot). simpl.
  unfold memory_type_name, hwloc_obj_add_info.
  destruct (mem_type mprop); simpl; rewrite Ho; reflexivity.
Qed.

(** One module only writes on the objects of the subdevices. *)
Lemma memory_module_frame root_osdev nr_osdevs sub_osdevs mh st hbm ddr st' hbm' ddr' :
  memory_module root_osdev nr_osdevs sub_osdevs mh (st, hbm, ddr) = Some (st', hbm', ddr') ->
  forall q, q ∉ subdevice_objects sub_osdevs -> deref st' q = deref st q.
Proof.
  unfold memory_module.
  destruct (zesMemoryGetProperties mh) as [res mprop].
  destruct (succeeded res); simpl; [|by intros [= <- <- <-]].
  intros H q Hq.
  destruct (mem_onSubdevice mprop) eqn:Hon.
  - destruct (_ || _) eqn:Hrange; simpl in H.
    + destruct (mem_type mprop); simpl in H; by injection H as <- <- <-.
    + destruct sub_osdevs as [subs|]; [|done]. simpl in H, Hq.
      destruct (subs !! Z.to_nat (mem_subdeviceId mprop)) as [owner|] eqn:Hsub; [|done].
      simpl in H. apply list_elem_of_lookup_2 in Hsub.
      assert (owner <> q) as Hne by congruence.
      destruct (mem_type mprop); simpl in H;
        (destruct (Nat.eqb owner NULL || _); [by injection H as <- <- <-|]);
        (destruct (Nat.eqb owner root_osdev); simpl in H; [by injection H as <- <- <-|]);
        (destruct (hwloc_obj_add_info _ _ _ _) as [st1|] eqn:Ha; [|done]);
        simpl in H; injection H as <- <- <-;
        apply hwloc_obj_add_info_inv in Ha as (o & Ho & ->);
        by apply deref_update_ne.
  - simpl in H. rewrite Nat.eqb_refl in H. simpl in H.
    destruct (mem_type mprop); simpl in H;
      (destruct (Nat.eqb root_osdev NULL || _); by injection H as <- <- <-).
Qed.

Lemma memory_modules_frame root_osdev nr_osdevs sub_osdevs mems :
  forall st hbm ddr st' hbm' ddr',
  fold_opt (memory_module root_osdev nr_osdevs sub_osdevs) mems (st, hbm, ddr)
    = Some (st', hbm', ddr') ->
  forall q, q ∉ subdevice_objects sub_osdevs -> deref st' q = deref st q.
Proof.
  induction mems as [|mh mems IH]; intros st hbm ddr st' hbm' ddr'; simpl.
  - by intros [= <- <- <-].
  - destruct (memory_module root_osdev nr_osdevs sub_osdevs mh (st, hbm, ddr))
      as [[[st1 hbm1] ddr1]|] eqn:H1; simpl; [|done].
    intros H q Hq. rewrite (IH _ _ _ _ _ _ H q Hq).
    by eapply memory_module_frame.
Qed.

Lemma only_touches_refl l w : only_touches l w w.
Proof. by intros q _. Qed.

Lemma only_touches_trans l w w1 w2 :
  only_touches l w w1 -> only_touches l w1 w2 -> only_touches l w w2.
Proof. intros H1 H2 q Hq. by rewrite H2, H1. Qed.

Lemma only_touches_mono l l' w w' : l ⊆ l' -> only_touches l w w' -> only_touches l' w w'.
Proof. intros Hl H q Hq. apply H. intros Hin. by apply Hq, Hl. Qed.

Lemma alloc_touches w : wp alloc w (fun _ w1 => only_touches [] w w1).
Proof. unfold wp, alloc. destruct (w_heap w); by intros q _. Qed.

Lemma obj_add_info_touches p name value w :
  wp (obj_add_info p name value) w (fun _ w1 => only_touches [p] w w1).
Proof.
  unfold obj_add_info. apply wp_bind, get_objs_spec. apply wp_bind, wp_lift.
  intros st' (o & _ & ->)%hwloc_obj_add_info_inv.
  unfold wp, set_objs. simpl. intros q Hq. apply deref_update_ne.
  intros ->. apply Hq, list_elem_of_here.
Qed.

Lemma memory_get_touches zesh root_osdev nr_osdevs sub_osdevs w :
  wp (hwloc__levelzero_memory_get zesh root_osdev nr_osdevs sub_osdevs) w
     (fun _ w1 => only_touches (root_osdev :: subdevice_objects sub_osdevs) w w1).
Proof.
  set (T := root_osdev :: subdevice_objects sub_osdevs).
  unfold hwloc__levelzero_memory_get.
  destruct (zesDeviceEnumMemoryModules zesh) as [[res res2] mems].
  destruct (negb (succeeded res)); [apply wp_ret, only_touches_refl|].
  destruct (_ =? 0); [apply wp_ret, only_touches_refl|].
  wp_step alloc_touches. intros mh w1 H1.
  apply (only_touches_mono _ T) in H1; [|by intros ? ?%elem_of_nil].
  apply wp_bind.
  apply wp_mono with (Q := fun _ w2 => only_touches T w w2).
  { destruct mh as [|stale]; [by apply wp_ret|].
    destruct (succeeded res2); [|by apply wp_ret].
    apply wp_bind, get_objs_spec. apply wp_bind, wp_lift.
    intros [[st' hbm] ddr] Hfold.
    unfold wp, mbind, M_bind, set_objs. simpl.
    intros q Hq. simpl. rewrite (memory_modules_frame _ _ _ _ _ _ _ _ _ _ Hfold q).
    - by apply H1.
    - intros Hin. apply Hq. by apply list_elem_of_further. }
  intros [h d] w2 H2.
  apply wp_bind.
  apply wp_mono with (Q := fun _ w3 => only_touches T w w3).
  { destruct (negb _); [|by apply wp_ret].
    eapply wp_mono; [apply obj_add_info_touches|]. intros ? w3 H3.
    apply (only_touches_trans _ _ _ _ H2), (only_touches_mono [root_osdev]); [|done].
    subst T. intros x ->%list_elem_of_singleton. apply list_elem_of_here. }
  intros ? w3 H3.
  apply wp_bind.
  apply wp_mono with (Q := fun _ w4 => only_touches T w w4).
  { destruct (negb _); [|by apply wp_ret].
    eapply wp_mono; [apply obj_add_info_touches|]. intros ? w4 H4.
    apply (only_touches_trans _ _ _ _ H3), (only_touches_mono [root_osdev]); [|done].
    subst T. intros x ->%list_elem_of_singleton. apply list_elem_of_here. }
  intros ? w4 H4. by apply wp_ret.
Qed.

(** X9: the memory harvester writes on no other object than the device
    and its subdevices, creates no object and inserts nothing in the
    tree. *)
Theorem memory_get_touches_only_the_device zesh root_osdev nr_osdevs sub_osdevs w r w' :
  hwloc__levelzero_memory_get zesh root_osdev nr_osdevs sub_osdevs w = Ret r w' ->
  only_touches (root_osdev :: subdevice_objects sub_osdevs) w w'
  /\ length (w_objs w') = length (w_objs w)
  /\ w_tree w' = w_tree w.
Proof.
  intros Hrun. split.
  - exact (wp_elim _ _ _ _ _ (memory_get_touches zesh root_osdev nr_osdevs sub_osdevs w) Hrun).
  - destruct (wp_elim _ _ _ _ _ (memory_get_grown zesh root_osdev nr_osdevs sub_osdevs w) Hrun)
      as (Ht & Hl & _).
    split; [lia|done].
Qed.

(** X10: the memory harvester returns -1 exactly when the memory modules
    cannot be enumerated. When the array of their handles cannot be
    allocated, or the handles cannot be read, it returns 0 and the objects
    are as they were. *)
Theorem memory_get_reports_only_enumeration_failure zesh root_osdev nr_osdevs sub_osdevs w :
  valid_array (w_objs w) nr_osdevs sub_osdevs ->
  is_Some (deref (w_objs w) root_osdev) ->
  exists r w',
    hwloc__levelzero_memory_get zesh root_osdev nr_osdevs sub_osdevs w = Ret r w'
    /\ r = (if decide ((zesDeviceEnumMemoryModules zesh).1.1 = ZE_RESULT_SUCCESS)
            then 0 else -1)
    /\ (handles_unavailable zesh w -> w_objs w' = w_objs w).
Proof.
  intros Hv [o Ho]. unfold handles_unavailable.
  destruct (zesDeviceEnumMemoryModules zesh) as [[res res2] mems] eqn:Hq. simpl.
  destruct (decide (res = ZE_RESULT_SUCCESS)) as [->|Hres].
  2:{ unfold hwloc__levelzero_memory_get. rewrite Hq. unfold succeeded.
      rewrite (proj2 (Z.eqb_neq _ _) Hres). simpl.
      eexists _, _. split; [reflexivity|]. split; [done|]. by intros (? & _). }
  destruct mems as [|mh mems].
  { unfold hwloc__levelzero_memory_get. rewrite Hq. simpl.
    eexists _, _. split; [reflexivity|]. split; [done|]. by intros (_ & ? & _). }
  destruct (decide (head (w_heap w) = Some ENOMEM)) as [Hfail|Hheap].
  { unfold hwloc__levelzero_memory_get. rewrite Hq.
    change (succeeded ZE_RESULT_SUCCESS) with true. simpl.
    unfold mbind, M_bind, alloc.
    destruct (w_heap w) as [|a rest]; [done|]. injection Hfail as ->. simpl.
    eexists _, _. split; [reflexivity|]. done. }
  destruct (decide (res2 = ZE_RESULT_SUCCESS)) as [->|Hres2].
  - destruct (memory_get_aggregates zesh root_osdev nr_osdevs sub_osdevs w _ o Hq)
      as (w' & o' & Hrun & _); [done..|].
    exists 0, w'. split; [done|]. split; [done|].
    intros (_ & _ & [?|?]); done.
  - unfold hwloc__levelzero_memory_get. rewrite Hq.
    change (succeeded ZE_RESULT_SUCCESS) with true. simpl.
    destruct (alloc_run w Hheap) as (stale & w1 & Ha & Ho1 & Ht1).
    rewrite (bind_run _ _ _ _ _ Ha). unfold succeeded.
    rewrite (proj2 (Z.eqb_neq _ _) Hres2). simpl.
    eexists _, _. split; [reflexivity|]. done.
Qed.

Lemma capture_port_defined root_osdev nr_sub_osdevs sub_osdevs port h :
  hp_nr h < hp_nr_allocated h -> covers nr_sub_osdevs sub_osdevs ->
  unsigned_subdevice port ->
  is_Some (capture_port root_osdev nr_sub_osdevs sub_osdevs port h).
Proof.
  intros Hlt Hcov Hpos. unfold capture_port, unsigned_subdevice in *.
  rewrite (proj2 (Z.ltb_lt _ _) Hlt).
  destruct (zesFabricPortGetProperties port) as [res p]. simpl in Hpos.
  destruct (negb (succeeded res)); [by eexists|].
  destruct (zesFabricPortGetState port) as [res' s].
  destruct (port_onSubdevice p).
  - destruct (Z.ltb_spec (port_subdeviceId p) nr_sub_osdevs) as [Hid|Hid]; simpl.
    + destruct Hcov as (subs & -> & Hlen); [lia|]. simpl.
      destruct (lookup_lt_is_Some_2 subs (Z.to_nat (port_subdeviceId p))) as [sub ->]; [lia|].
      simpl. destruct (negb (succeeded res')); [by eexists|].
      destruct (negb (port_status_kept _)); by eexists.
    + by eexists.
  - simpl. destruct (negb (succeeded res')); [by eexists|].
    destruct (negb (port_status_kept _)); by eexists.
Qed.

(** The loop over the ports of a device, when the registry has room for
    all of them. *)
Lemma capture_ports_run root_osdev nr_sub_osdevs sub_osdevs fports :
  forall h,
  0 <= hp_nr h -> hp_nr h + Z.of_nat (length fports) <= hp_nr_allocated h ->
  hp_nr_allocated h < 2 ^ 32 -> Z.to_nat (hp_nr h) = length (ports h) ->
  covers nr_sub_osdevs sub_osdevs -> Forall unsigned_subdevice fports ->
  exists h' new,
    fold_opt (capture_port root_osdev nr_sub_osdevs sub_osdevs) fports h = Some h'
    /\ ports h' = ports h ++ new
    /\ (length new <= length fports)%nat
    /\ hp_nr h' = hp_nr h + Z.of_nat (length new)
    /\ hp_nr_allocated h' = hp_nr_allocated h
    /\ Forall (owned_by root_osdev nr_sub_osdevs sub_osdevs) new.
Proof.
  induction fports as [|port fports IH]; intros h H0 Hroom H32 Hlen Hcov Hpos.
  - exists h, []. simpl. rewrite app_nil_r. split_and!; try done. lia.
  - apply Forall_cons in Hpos as [Hport Hpos]. simpl in Hroom. simpl.
    destruct (capture_port_defined root_osdev nr_sub_osdevs sub_osdevs port h)
      as [h1 Hh1]; [lia|done|done|].
    rewrite Hh1. simpl.
    destruct (capture_port_inv _ _ _ _ _ _ Hh1) as [->|(e & -> & _ & _ & _ & Hown)].
    + destruct (IH h) as (h' & new & Hrun & Hp & Hl & Hn & Ha & Ho); [lia|lia|done..|].
      exists h', new. split_and!; try done. lia.
    + destruct (IH {| hp_nr_allocated := hp_nr_allocated h; hp_nr := uint32 (hp_nr h + 1);
                      ports := ports h ++ [e] |})
        as (h' & new & Hrun & Hp & Hl & Hn & Ha & Ho); simpl;
        rewrite ?uint32_small by lia; try done; try lia.
      { rewrite length_app. simpl. lia. }
      simpl in *. rewrite uint32_small in Hn by lia.
      rewrite uint32_small in Hrun by lia.
      exists h', (e :: new). split; [done|].
      split; [by rewrite Hp, <- app_assoc|]. split; [simpl; lia|].
      split; [simpl length; lia|]. split; [done|by apply Forall_cons].
Qed.

(** X11: capturing the ports of a device never writes past the capacity of
    the port registry: on a well-formed registry the call returns, the
    entries captured before are kept, at most one entry per port of the
    device is appended, and the count stays within the capacity. No object
    is written and nothing is inserted in the tree. *)
Theorem ports_get_never_overflows zesh root_osdev nr_sub_osdevs sub_osdevs hports w :
  wf_hports hports ->
  hp_nr_allocated hports
    + 8 * Z.of_nat (length (zesDeviceEnumFabricPorts zesh).2) < 2 ^ 32 ->
  (zesDeviceEnumFabricPorts zesh).1.2 = ZE_RESULT_SUCCESS ->
  covers nr_sub_osdevs sub_osdevs ->
  Forall unsigned_subdevice (zesDeviceEnumFabricPorts zesh).2 ->
  exists hports' w' new,
    hwloc__levelzero_ports_get zesh root_osdev nr_sub_osdevs sub_osdevs hports w
    = Ret hports' w'
    /\ ports hports' = ports hports ++ new
    /\ (length new <= length (zesDeviceEnumFabricPorts zesh).2)%nat
    /\ wf_hports hports'
    /\ w_objs w' = w_objs w /\ w_tree w' = w_tree w.
Proof.
  intros ((H0 & Hcap) & H32 & Hlen) Hgrow Hres2 Hcov Hpos.
  unfold hwloc__levelzero_ports_get.
  destruct (zesDeviceEnumFabricPorts zesh) as [[res res2] fports]. simpl in *. subst res2.
  assert (exists new, ports hports = ports hports ++ new
                      /\ (length new <= length fports)%nat) as Hnone.
  { exists []. rewrite app_nil_r. split; [done|simpl; lia]. }
  destruct (negb (succeeded res) || _) eqn:Hskip.
  { destruct Hnone as (new & ? & ?). exists hports, w, new. by split_and!. }
  apply orb_false_iff in Hskip as [_ Hnz]. apply Z.eqb_neq in Hnz.
  unfold mbind, M_bind.
  assert (forall h1 w1,
            0 <= hp_nr h1 -> hp_nr h1 + Z.of_nat (length fports) <= hp_nr_allocated h1 ->
            hp_nr_allocated h1 < 2 ^ 32 -> ports h1 = ports hports -> hp_nr h1 = hp_nr hports ->
            w_objs w1 = w_objs w -> w_tree w1 = w_tree w ->
            exists hports' w' new,
              match alloc w1 with
              | Ret a w2 =>
                  match a with
                  | ENOMEM => mret h1
                  | Block _ =>
                      if succeeded ZE_RESULT_SUCCESS
                      then lift (fold_opt (capture_port root_osdev nr_sub_osdevs sub_osdevs)
                                          fports h1)
                      else undefined
                  end w2
              | Undefined => Undefined
              end = Ret hports' w'
              /\ ports hports' = ports hports ++ new
              /\ (length new <= length fports)%nat
              /\ wf_hports hports'
              /\ w_objs w' = w_objs w /\ w_tree w' = w_tree w) as Hloop.
  { intros h1 w1 H01 Hroom H321 Hp1 Hn1 Ho1 Ht1.
    destruct (alloc_total w1) as (a & w2 & -> & Ho2 & Ht2).
    destruct a as [|stale].
    - destruct Hnone as (new & ? & ?). exists h1, w2, new.
      split; [done|]. unfold wf_hports. rewrite Hp1, Hn1. split_and!; try done; try lia; congruence.
    - change (succeeded ZE_RESULT_SUCCESS) with true. cbv iota.
      destruct (capture_ports_run root_osdev nr_sub_osdevs sub_osdevs fports h1)
        as (h' & new & Hrun & Hp & Hl & Hn & Ha & _); try done.
      { rewrite Hp1, Hn1. done. }
      rewrite Hrun. exists h', w2, new. split; [done|].
      unfold wf_hports. rewrite Hp, Hp1, Hn, Ha, length_app.
      split_and!; try done; try lia; congruence. }
  destruct (Z.ltb_spec (uint32 (hp_nr_allocated hports - hp_nr hports))
                       (Z.of_nat (length fports))) as [Hext|Hroom].
  - (* we must extend the array *)
    unfold mbind, M_bind.
    destruct (alloc_total w) as (a & w1 & -> & Ho1 & Ht1).
    destruct a as [|stale]; simpl.
    + destruct Hnone as (new & ? & ?). exists hports, w1, new. by split_and!.
    + apply Hloop; simpl; rewrite ?uint32_small by lia; try done; lia.
  - simpl. rewrite uint32_small in Hroom by lia. apply Hloop; try done; lia.
Qed.

(** What the loop over the ports appends. *)
Lemma capture_ports_owned root_osdev nr_sub_osdevs sub_osdevs fports :
  forall h h',
  fold_opt (capture_port root_osdev nr_sub_osdevs sub_osdevs) fports h = Some h' ->
  exists new, ports h' = ports h ++ new
              /\ Forall (owned_by root_osdev nr_sub_osdevs sub_osdevs) new.
Proof.
  induction fports as [|port fports IH]; intros h h'; simpl.
  - intros [= <-]. exists []. by rewrite app_nil_r.
  - destruct (capture_port _ _ _ port h) as [h1|] eqn:Hh1; [|done]. simpl. intros Hrest.
    destruct (IH _ _ Hrest) as (new & Hp & Ho).
    destruct (capture_port_inv _ _ _ _ _ _ Hh1) as [->|(e & -> & _ & _ & _ & Hown)].
    + by exists new.
    + exists (e :: new). simpl in Hp. rewrite Hp, <- app_assoc. split; [done|].
      by apply Forall_cons.
Qed.

(** X12: every entry the capture of the ports of a device appends records
    as owner the device itself, without parent, for a port that is not on
    a subdevice, and the slot of the subdevice of the port, with the
    device as parent, for a port on a subdevice whose index is below the
    number of subdevices; the entries captured before are kept. *)
Theorem ports_get_records_owners zesh root_osdev nr_sub_osdevs sub_osdevs hports w hports' w' :
  hwloc__levelzero_ports_get zesh root_osdev nr_sub_osdevs sub_osdevs hports w
  = Ret hports' w' ->
  exists new,
    ports hports' = ports hports ++ new
    /\ Forall (owned_by root_osdev nr_sub_osdevs sub_osdevs) new.
Proof.
  assert (exists new, ports hports = ports hports ++ new
                      /\ Forall (owned_by root_osdev nr_sub_osdevs sub_osdevs) new) as Hnone.
  { exists []. by rewrite app_nil_r. }
  unfold hwloc__levelzero_ports_get.
  destruct (zesDeviceEnumFabricPorts zesh) as [[res res2] fports].
  destruct (negb (succeeded res) || _); [by intros [= <- <-]|].
  unfold mbind, M_bind.
  assert (forall h1 w1,
            ports h1 = ports hports ->
            match alloc w1 with
            | Ret a w2 =>
                match a with
                | ENOMEM => mret h1
                | Block _ =>
                    if succeeded res2
                    then lift (fold_opt (capture_port root_osdev nr_sub_osdevs sub_osdevs)
                                        fports h1)
                    else undefined
                end w2
            | Undefined => Undefined
            end = Ret hports' w' ->
            exists new, ports hports' = ports hports ++ new
                        /\ Forall (owned_by root_osdev nr_sub_osdevs sub_osdevs) new) as Hloop.
  { intros h1 w1 Hp1. destruct (alloc w1) as [[|stale] w2|]; [| |done].
    - intros [= <- <-]. by rewrite Hp1.
    - destruct (succeeded res2); [|done].
      destruct (fold_opt _ fports h1) as [h'|] eqn:Hfold; [|done].
      simpl. intros [= <- <-]. rewrite <- Hp1. by eapply capture_ports_owned. }
  destruct (_ <? _).
  - unfold mbind, M_bind. destruct (alloc w) as [[|stale] w1|]; [| |done].
    + by intros [= <- <-].
    + by apply Hloop.
  - by apply Hloop.
Qed.

Lemma bws_add_length b idx m b' : bws_add b idx m = Some b' -> length b' = length b.
Proof.
  unfold bws_add. destruct (b !! Z.to_nat idx); [|done]. simpl.
  intros [= <-]. by rewrite length_insert.
Qed.

Lemma bws_set_length b idx v b' : bws_set b idx v = Some b' -> length b' = length b.
Proof.
  unfold bws_set. destruct (b !! Z.to_nat idx); [|done]. simpl.
  intros [= <-]. by rewrite length_insert.
Qed.

Lemma connect_pair_length st oarray pi pj acc acc' :
  connect_pair st oarray pi pj acc = Some acc' -> length acc'.1 = length acc.1.
Proof.
  unfold connect_pair. destruct acc as [bws gotbw].
  destruct (port_id_eqb _ _); [|by intros [= <-]].
  destruct (deref st (osdev pi)); [|done]. destruct (deref st (osdev pj)); [|done]. simpl.
  destruct (negb _); [by intros [= <-]|].
  destruct (_ || _); [by intros [= <-]|].
  destruct (bws_add bws _ _) as [bws1|] eqn:H1; [|done]. simpl.
  apply bws_add_length in H1.
  destruct (_ && _); [|by intros [= <-]].
  destruct (_ || _); [by intros [= <-]|].
  destruct (bws_add bws1 _ _) as [bws2|] eqn:H2; [|done]. simpl.
  apply bws_add_length in H2. intros [= <-]. simpl. congruence.
Qed.

Lemma connect_row_length st oarray hports i acc acc' :
  connect_row st oarray hports i acc = Some acc' -> length acc'.1 = length acc.1.
Proof.
  unfold connect_row. destruct (ports hports !! i) as [pi|]; [|done]. simpl.
  destruct (decide _); [|by intros [= <-]].
  intros H.
  apply (fold_opt_invariant _ (fun s => length s.1 = length acc.1) _) in H; [done| |done].
  intros j s s' Hs Hl. destruct (decide (i = j)); [by injection Hs as <-|].
  destruct (ports hports !! j) as [pj|]; [|done]. simpl in Hs.
  apply connect_pair_length in Hs. congruence.
Qed.

Lemma ports_accumulate_length st oarray hports bws bws' gotbw :
  ports_accumulate st oarray hports bws = Some (bws', gotbw) -> length bws' = length bws.
Proof.
  unfold ports_accumulate. intros H.
  apply (fold_opt_invariant _ (fun s => length s.1 = length bws) _) in H; [done| |done].
  intros i s s' Hs Hl. apply connect_row_length in Hs. congruence.
Qed.

Lemma fill_block_length n i nrsd bws bws' :
  fill_block n i nrsd bws = Some bws' -> length bws' = length bws.
Proof.
  unfold fill_block. intros H.
  apply (fold_opt_invariant _ (fun s => length s = length bws) _) in H; [done| |done].
  intros j s s' Hs Hl.
  apply (fold_opt_invariant _ (fun s => length s = length bws) _) in Hs; [done| |done].
  intros k t t' Ht Hlt. apply bws_set_length in Ht. congruence.
Qed.

Lemma fill_loop_length st oarray fuel :
  forall i bws landed bws' landed',
  fill_loop st oarray fuel i bws landed = Some (bws', landed') -> length bws' = length bws.
Proof.
  induction fuel as [|fuel IH]; intros i bws landed bws' landed'; simpl; [done|].
  destruct (i <? nr oarray); [|by intros [= <- _]].
  destruct (objs oarray !! Z.to_nat i) as [p|]; [|done]. simpl.
  destruct (recorded_subdevices st p) as [nrsd|]; [|done]. simpl.
  destruct (fill_block _ _ _ _) as [bws1|] eqn:H1; [|done]. simpl.
  apply fill_block_length in H1. intros H. apply IH in H. congruence.
Qed.

Lemma backend_call_frame w :
  exists b w1, backend_call w = Ret b w1
    /\ w_objs w1 = w_objs w /\ w_tree w1 = w_tree w /\ w_distances w1 = w_distances w.
Proof.
  unfold backend_call. destruct (w_backend w); eexists _, _; (split; [reflexivity|done]).
Qed.

Lemma add_xelink_bandwidth_frame oarray bws w r oarray' w' :
  hwloc__levelzero_ports_add_xelink_bandwidth oarray bws w = Ret (r, oarray') w' ->
  w_objs w' = w_objs w /\ w_tree w' = w_tree w /\ nr oarray' = nr oarray
  /\ ((r = -1 /\ w_distances w' = w_distances w)
      \/ (r = 0 /\ w_distances w' = w_distances w ++ [xelink_dataset oarray bws])).
Proof.
  unfold hwloc__levelzero_ports_add_xelink_bandwidth, mbind, M_bind.
  destruct (backend_call_frame w) as (b1 & w1 & -> & Ho1 & Ht1 & Hd1).
  destruct b1; simpl; [|intros [= <- <- <-]; split_and!; try done; by left].
  destruct (backend_call_frame w1) as (b2 & w2 & -> & Ho2 & Ht2 & Hd2).
  destruct b2; simpl; [|intros [= <- <- <-]; split_and!; try congruence; left; split; congruence].
  destruct (backend_call_frame w2) as (b3 & w3 & -> & Ho3 & Ht3 & Hd3).
  destruct b3; simpl; intros [= <- <- <-]; simpl.
  - split_and!; try congruence. right. split; [done|]. unfold xelink_dataset. congruence.
  - split_and!; try congruence. left. split; congruence.
Qed.

(** The builder inserts nothing in the tree. *)
Lemma ports_connect_tree oarray hports w :
  wp (hwloc__levelzero_ports_connect oarray hports) w (fun _ w1 => w_tree w1 = w_tree w).
Proof.
  unfold hwloc__levelzero_ports_connect.
  destruct (hp_nr hports =? 0); [by apply wp_ret|].
  wp_step alloc_quiet. intros a w1 (Ht1 & _).
  destruct a as [|stale]; [by apply wp_ret|].
  apply wp_bind, get_objs_spec.
  apply wp_bind, wp_lift. intros [bws1 gotbw] _.
  destruct (gotbw =? 0); [by apply wp_ret|].
  apply wp_bind, wp_lift. intros [bws2 landed] _.
  unfold wp.
  destruct (hwloc__levelzero_ports_add_xelink_bandwidth oarray bws2 w1)
    as [[r oarray'] w2|] eqn:Hadd; [|done].
  apply add_xelink_bandwidth_frame in Hadd as (_ & Ht2 & _). congruence.
Qed.

(** X13: the builder writes on no object and inserts nothing in the tree.
    It commits at most one dataset: the return value is then 0, the
    dataset has the name XeLinkBandwidth, lists the entries of the
    registry and holds a matrix of nr*nr values. *)
Theorem ports_connect_commits_at_most_one_matrix oarray hports w r oarray' w' :
  hwloc__levelzero_ports_connect oarray hports w = Ret (r, oarray') w' ->
  w_objs w' = w_objs w /\ w_tree w' = w_tree w /\ nr oarray' = nr oarray
  /\ (w_distances w' = w_distances w
      \/ exists bws,
           r = 0
           /\ w_distances w' = w_distances w ++ [xelink_dataset oarray bws]
           /\ length bws = Z.to_nat (uint32 (nr oarray * nr oarray))).
Proof.
  unfold hwloc__levelzero_ports_connect.
  destruct (hp_nr hports =? 0); [intros [= <- <- <-]; split_and!; try done; by left|].
  unfold mbind, M_bind.
  destruct (alloc_total w) as (a & w1 & Ha & Ho1 & Ht1).
  pose proof (alloc_distances _ _ _ Ha) as Hd1. rewrite Ha.
  destruct a as [|stale]; simpl; [intros [= <- <- <-]; split_and!; try done; by left|].
  unfold lift, get_objs.
  destruct (ports_accumulate (w_objs w1) oarray hports _) as [[bws1 gotbw]|] eqn:Hacc; [|done].
  apply ports_accumulate_length in Hacc. rewrite length_replicate in Hacc.
  simpl.
  destruct (gotbw =? 0); [intros [= <- <- <-]; split_and!; try done; by left|].
  unfold mbind, M_bind. simpl.
  destruct (synthetic_fill (w_objs w1) oarray bws1) as [[bws2 landed]|] eqn:Hfill; [|done].
  apply fill_loop_length in Hfill. simpl.
  intros (Ho & Ht & Hn & Hd)%add_xelink_bandwidth_frame.
  split_and!; try congruence.
  destruct Hd as [[_ Hd]|[-> Hd]]; [left; congruence|right].
  exists bws2. split_and!; congruence.
Qed.

(** Without a healthy port the accumulation loops leave the matrix and
    the link count as they are. *)
Lemma ports_accumulate_unhealthy st oarray hports bws :
  Z.to_nat (hp_nr hports) = length (ports hports) ->
  Forall (fun e => status (state e) <> ZES_FABRIC_PORT_STATUS_HEALTHY) (ports hports) ->
  ports_accumulate st oarray hports bws = Some (bws, 0).
Proof.
  intros Hnr Hall. unfold ports_accumulate. rewrite Hnr.
  assert (forall rows acc, (forall i, i ∈ rows -> (i < length (ports hports))%nat) ->
            fold_opt (connect_row st oarray hports) rows acc = Some acc) as Hfold.
  { induction rows as [|i rows IH]; intros acc Hin; [done|].
    assert (connect_row st oarray hports i acc = Some acc) as Hrow.
    { unfold connect_row.
      destruct (lookup_lt_is_Some_2 (ports hports) i) as [pi Hpi];
        [apply Hin, list_elem_of_here|].
      rewrite Hpi. simpl.
      by rewrite decide_False by by eapply (Forall_lookup_1 _ _ _ _ Hall). }
    simpl. rewrite Hrow. simpl. apply IH. intros j Hj. by apply Hin, list_elem_of_further. }
  apply Hfold. intros i Hi. apply elem_of_seq in Hi. lia.
Qed.

(** X14: ports that are all in another state than healthy, degraded ones
    included, give no matrix: the builder returns with the registry as it
    was and commits nothing; its return value is 0, or -1 when the matrix
    could not be allocated. *)
Theorem unhealthy_ports_give_no_matrix oarray hports w :
  Z.to_nat (hp_nr hports) = length (ports hports) ->
  Forall (fun e => status (state e) <> ZES_FABRIC_PORT_STATUS_HEALTHY) (ports hports) ->
  exists w',
    hwloc__levelzero_ports_connect oarray hports w
    = Ret (if decide (hp_nr hports <> 0 /\ head (w_heap w) = Some ENOMEM) then -1 else 0,
           oarray) w'
    /\ w_distances w' = w_distances w /\ w_objs w' = w_objs w /\ w_tree w' = w_tree w.
Proof.
  intros Hnr Hall. unfold hwloc__levelzero_ports_connect.
  destruct (Z.eqb_spec (hp_nr hports) 0) as [Hz|Hnz].
  { rewrite decide_False by (intros [? _]; done). by exists w. }
  unfold mbind, M_bind.
  destruct (alloc_total w) as (a & w1 & Ha & Ho1 & Ht1).
  pose proof (alloc_distances _ _ _ Ha) as Hd1.
  pose proof (alloc_eq w) as Ha'. rewrite Ha in Ha'. injection Ha' as -> _.
  rewrite Ha.
  destruct (head (w_heap w)) as [[|stale]|] eqn:Hh; simpl.
  - rewrite decide_True by done. by exists w1.
  - rewrite decide_False by (intros [_ ?]; done).
    unfold get_objs. simpl.
    rewrite (ports_accumulate_unhealthy _ _ _ _ Hnr Hall). simpl. by exists w1.
  - rewrite decide_False by (intros [_ ?]; done).
    unfold get_objs. simpl.
    rewrite (ports_accumulate_unhealthy _ _ _ _ Hnr Hall). simpl. by exists w1.
Qed.

(** Every index of the registry is in the block of a landing index. *)
Lemma walk_covers st oarray :
  forall fuel i,
  0 <= i -> Z.max 0 (nr oarray - i) < Z.of_nat fuel ->
  (forall x, x ∈ walk st oarray fuel i ->
     exists c, subdevice_count st oarray x = Some c /\ x + c < nr oarray) ->
  forall k, i <= k < nr oarray ->
  exists x c, x ∈ walk st oarray fuel i /\ subdevice_count st oarray x = Some c
              /\ x <= k <= x + c.
Proof.
  induction fuel as [|fuel IH]; intros i Hi Hfuel Hfit k Hk; [lia|].
  simpl in Hfit |- *.
  destruct (Z.ltb_spec i (nr oarray)) as [_|?]; [|lia].
  destruct (Hfit i (list_elem_of_here _ _)) as (c & Hc & Hin).
  pose proof (subdevice_count_nonneg _ _ _ _ Hc) as Hc0.
  rewrite Hc in Hfit |- *.
  destruct (Z.le_gt_cases k (i + c)) as [Hle|Hgt].
  - exists i, c. split; [apply list_elem_of_here|]. split; [done|lia].
  - destruct (IH (i + c + 1)) with (k := k) as (x & c' & Hx & Hc' & Hr); [lia|lia| |lia|].
    + intros x Hx. apply Hfit. by apply list_elem_of_further.
    + exists x, c'. split; [by apply list_elem_of_further|done].
Qed.

(** X15: when the blocks of the synthetic fill stay inside the matrix, the
    fill returns and every cell of the diagonal of the matrix holds
    1000000 in the end. *)
Theorem synthetic_fill_sets_diagonal st oarray bws :
  0 <= nr oarray ->
  nr oarray * nr oarray < 2 ^ 32 ->
  Z.of_nat (length bws) = nr oarray * nr oarray ->
  (forall i, i ∈ landing_indexes st oarray ->
     exists c, subdevice_count st oarray i = Some c /\ i + c < nr oarray) ->
  exists bws' landed,
    synthetic_fill st oarray bws = Some (bws', landed)
    /\ forall k, 0 <= k < nr oarray ->
         bws' !! Z.to_nat (k * nr oarray + k) = Some LOCAL_BANDWIDTH.
Proof.
  intros Hn0 Hn Hlen Hfit. unfold synthetic_fill, landing_indexes in *.
  destruct (fill_loop_walk st oarray (Z.to_nat (nr oarray * nr oarray)) Hn eq_refl
              (S (Z.to_nat (nr oarray))) 0 bws []) as (bws' & Hrun & _ & _ & Hset);
    [lia|lia|lia|done|].
  eexists _, _. split; [exact Hrun|].
  intros k Hk.
  destruct (walk_covers st oarray (S (Z.to_nat (nr oarray))) 0) with (k := k)
    as (x & c & Hx & Hc & Hr); [lia|lia|done|lia|].
  by apply (Hset x c).
Qed.

Lemma uint32_add_l a b : uint32 (uint32 a + b) = uint32 (a + b).
Proof. unfold uint32. by rewrite Zplus_mod_idemp_l. Qed.

Lemma counts_refl c w : 0 <= c < 2 ^ 32 -> counts c c w w.
Proof.
  intros Hc. exists []. rewrite app_nil_r. simpl. by rewrite Z.add_0_r, uint32_small.
Qed.

Lemma counts_quiet c w w1 : 0 <= c < 2 ^ 32 -> w_tree w1 = w_tree w -> counts c c w w1.
Proof.
  intros Hc Ht. exists []. rewrite app_nil_r. simpl. by rewrite Z.add_0_r, uint32_small.
Qed.

Lemma counts_trans a b c w w1 w2 : counts a b w w1 -> counts b c w1 w2 -> counts a c w w2.
Proof.
  intros (i1 & Ht1 & ->) (i2 & Ht2 & ->). exists (i1 ++ i2).
  rewrite Ht2, Ht1, <- app_assoc. split; [done|].
  rewrite uint32_add_l, length_app. f_equal. lia.
Qed.

Lemma array_add_tree a x w :
  wp (hwloc__levelzero_osdev_array_add a x) w (fun _ w1 => w_tree w1 = w_tree w).
Proof.
  unfold hwloc__levelzero_osdev_array_add. apply wp_bind.
  apply wp_mono with (Q := fun _ w1 => w_tree w1 = w_tree w).
  - destruct (_ =? _); [|by apply wp_ret].
    wp_step alloc_quiet. intros [|stale] w1 (Ht & _); by apply wp_ret.
  - intros [a'|] w1 Ht; [|by apply wp_ret].
    destruct (decide _); [by apply wp_ret|apply wp_undefined].
Qed.

Lemma insert_subdevice_counts osdev sub s w :
  0 <= s.1 < 2 ^ 32 ->
  wp (insert_subdevice osdev sub s) w (fun s' w1 => counts s.1 s'.1 w w1).
Proof.
  intros Hc. unfold insert_subdevice.
  destruct (Nat.eqb sub NULL); [by apply wp_ret, counts_refl|].
  wp_step insert_object_spec. intros ? w1 (Ht1 & _ & _).
  wp_step array_add_tree. intros r w2 Ht2. apply wp_ret. simpl.
  exists [(osdev, sub)]. split; [congruence|done].
Qed.

Lemma insert_subdevices_counts osdev subosdevs ks :
  forall s w, 0 <= s.1 < 2 ^ 32 ->
  wp (insert_subdevices osdev subosdevs ks s) w (fun s' w1 => counts s.1 s'.1 w w1).
Proof.
  induction ks as [|k ks IH]; intros s w Hc; [apply wp_ret; by apply counts_refl|].
  cbn [insert_subdevices].
  apply wp_bind, wp_lift. intros sub _.
  apply wp_bind. eapply wp_mono; [by apply insert_subdevice_counts|].
  intros s1 w1 H1.
  eapply wp_mono; [apply IH|].
  - destruct H1 as (? & _ & ->). apply uint32_range.
  - intros s2 w2 H2. exact (counts_trans _ _ _ _ _ _ H1 H2).
Qed.

Lemma insert_device_counts parent osdev nr_subdevices subosdevs s w :
  wp (insert_device parent osdev nr_subdevices subosdevs s) w
     (fun s' w1 => counts s.1 s'.1 w w1).
Proof.
  unfold insert_device.
  wp_step insert_object_spec. intros ? w1 (Ht1 & _ & _).
  wp_step array_add_tree. intros r w2 Ht2.
  assert (counts s.1 (uint32 (s.1 + 1)) w w2) as H2.
  { exists [(parent, osdev)]. split; [congruence|done]. }
  destruct (_ =? 0); [by apply wp_ret|].
  eapply wp_mono; [apply insert_subdevices_counts; simpl; apply uint32_range|].
  intros s2 w3 H3. exact (counts_trans _ _ _ _ _ _ H2 H3).
Qed.

Lemma discover_subdevices_tree zesdr zeidx zeh osdev w :
  wp (discover_subdevices zesdr zeidx zeh osdev) w (fun _ w1 => w_tree w1 = w_tree w).
Proof.
  unfold discover_subdevices.
  destruct (zeDeviceGetSubDevices zeh) as [[res res2] subzehs].
  destruct (succeeded res && _); [|by apply wp_ret].
  wp_step obj_add_info_grown. intros ? w1 (H1 & _).
  wp_step alloc_quiet. intros a1 w2 (H2 & _).
  wp_step alloc_quiet. intros a2 w3 (H3 & _).
  destruct a1 as [|stale1]; [apply wp_ret; congruence|].
  destruct a2 as [|stale]; [apply wp_ret; congruence|].
  destruct (succeeded res2); [|apply wp_undefined].
  apply wp_bind.
  eapply wp_mono.
  { apply (wp_for_each _ (fun _ w' => w_tree w' = w_tree w)); [congruence|].
    intros k subzeh slots w4 H4.
    eapply wp_mono; [apply discover_subdevice_spec|].
    intros slots' w5 [[_ (H5 & _)]|[_ (H5 & _)]]; congruence. }
  intros slots' w4 H4. by apply wp_ret.
Qed.

(** One device: the counter follows the insertions in the tree. *)
Lemma discover_device_counts topology zesdr i j zeh s w :
  0 <= ps_added s < 2 ^ 32 ->
  wp (discover_device topology zesdr i j zeh s) w
     (fun s' w1 => counts (ps_added s) (ps_added s') w w1).
Proof.
  intros Hc. unfold discover_device.
  destruct (zeDeviceGetProperties (ze_core zeh)) as [res props].
  destruct (negb (succeeded res)); [by apply wp_ret, counts_refl|].
  destruct (zesDriverGetDeviceByUuidExp _ _) as [zesh|]; [|by apply wp_ret, counts_refl].
  wp_step alloc_setup_object_spec. intros osdev w1 (_ & H1 & _).
  wp_step modify_obj_grown. intros ? w2 (H2 & _).
  wp_step obj_add_info_grown. intros ? w3 (H3 & _).
  wp_step obj_add_info_grown. intros ? w4 (H4 & _).
  wp_step modify_obj_grown. intros ? w5 (H5 & _).
  wp_step cqprops_get_grown. intros ? w6 (H6 & _).
  wp_step discover_subdevices_tree. intros [nr_subdevices subosdevs] w7 H7.
  wp_step memory_get_grown. intros ? w8 (H8 & _).
  apply wp_bind.
  apply wp_mono with (Q := fun _ w9 => w_tree w9 = w_tree w8).
  { destruct (negb _); [|by apply wp_ret].
    eapply wp_mono; [apply ports_get_grown|]. by intros ? ? (? & _). }
  intros hports w9 H9.
  wp_step resolve_parent_grown. intros parent w10 (H10 & _).
  apply wp_bind. eapply wp_mono; [apply insert_device_counts|].
  intros r w11 (ins & Ht & Hr). simpl in Hr. apply wp_ret. simpl.
  exists ins. split; [congruence|done].
Qed.

Lemma discover_driver_counts topology zesdrh i drh_i s w :
  0 <= ps_added s < 2 ^ 32 ->
  wp (discover_driver topology zesdrh i drh_i s) w
     (fun s' w1 => counts (ps_added s) (ps_added s') w w1).
Proof.
  intros Hc. unfold discover_driver.
  destruct (zeDeviceGet drh_i) as [[res res2] dvh].
  destruct (negb (succeeded res) || _); [by apply wp_ret, counts_refl|].
  wp_step alloc_quiet. intros a w1 (H1 & _).
  destruct a as [|stale]; [by apply wp_ret, counts_quiet|].
  destruct (negb (succeeded res2)); [by apply wp_ret, counts_quiet|].
  apply wp_bind, wp_lift. intros zesdr _.
  apply (wp_for_each _ (fun s' w' => counts (ps_added s) (ps_added s') w w'));
    [by apply counts_quiet|].
  intros j zeh s1 w2 P2.
  eapply wp_mono; [apply discover_device_counts|].
  - destruct P2 as (? & _ & ->). apply uint32_range.
  - intros s2 w3 P3. exact (counts_trans _ _ _ _ _ _ P2 P3).
Qed.

Lemma devices_get_counts topology lz oarray hports w :
  wp (hwloc__levelzero_devices_get topology lz oarray hports) w
     (fun r w' => exists c, counts 0 c w w' /\ r.1.1 = int_of_unsigned c).
Proof.
  assert (forall w1, w_tree w1 = w_tree w ->
            exists c, counts 0 c w w1 /\ 0 = int_of_unsigned c) as Hnone.
  { intros w1 Ht. exists 0. split; [by apply counts_quiet|done]. }
  unfold hwloc__levelzero_devices_get.
  destruct (zeDriverGet lz) as [[res res2] drh].
  destruct (negb (succeeded res) || _); [by apply wp_ret, Hnone|].
  destruct (zesDriverGet lz) as [[zres zres2] zesdrh].
  destruct (negb (succeeded zres) || _); [by apply wp_ret, Hnone|].
  wp_step alloc_quiet. intros a1 w1 (H1 & _).
  wp_step alloc_quiet. intros a2 w2 (H2 & _).
  assert (w_tree w2 = w_tree w) as Ht2 by congruence.
  destruct a1 as [|s1]; [by apply wp_ret, Hnone|].
  destruct a2 as [|s2]; [by apply wp_ret, Hnone|].
  destruct (negb (succeeded res2)); [by apply wp_ret, Hnone|].
  destruct (negb (succeeded zres2)); [by apply wp_ret, Hnone|].
  apply wp_bind. eapply wp_mono.
  { apply (wp_for_each _ (fun s' w' => counts 0 (ps_added s') w w')).
    - simpl. by apply counts_quiet.
    - intros i drh_i s1' w3 P3.
      eapply wp_mono; [apply discover_driver_counts|].
      + destruct P3 as (? & _ & ->). apply uint32_range.
      + intros s2' w4 P4. exact (counts_trans _ _ _ _ _ _ P3 P4). }
  intros s w3 P3. apply wp_ret. simpl. by exists (ps_added s).
Qed.

(** X16: the number of devices a pass reports is the number of objects it
    inserted in the tree (devices and subdevices), whether or not they
    could be appended to the registry; the insertions of the pass come
    after those the tree held. *)
Theorem devices_get_counts_insertions topology lz oarray hports w n oarray' hports' w' :
  hwloc__levelzero_devices_get topology lz oarray hports w = Ret (n, oarray', hports') w' ->
  w_tree w `prefix_of` w_tree w'
  /\ (insertions w w' < 2 ^ 31 -> n = insertions w w').
Proof.
  intros Hrun.
  destruct (wp_elim _ _ _ _ _ (devices_get_counts topology lz oarray hports w) Hrun)
    as (c & (ins & Ht & ->) & Hn). simpl in Hn.
  unfold insertions. rewrite Ht, length_app.
  split; [by exists ins|].
  replace (length (w_tree w) + length ins - length (w_tree w))%nat with (length ins) by lia.
  intros Hsmall. rewrite Hn. simpl. rewrite uint32_small by lia.
  rewrite Z.add_0_l. unfold int_of_unsigned.
  destruct (Z.ltb_spec (Z.of_nat (length ins)) (2 ^ 31)); lia.
Qed.

(** With the flag that disables distances, one device captures no port. *)
Lemma discover_device_no_distances topology zesdr i j zeh s w :
  topo_no_distances topology = true ->
  wp (discover_device topology zesdr i j zeh s) w (fun s' _ => ps_hports s' = ps_hports s).
Proof.
  intros Hflag. unfold discover_device. rewrite Hflag.
  destruct (zeDeviceGetProperties (ze_core zeh)) as [res props].
  destruct (negb (succeeded res)); [by apply wp_ret|].
  destruct (zesDriverGetDeviceByUuidExp _ _) as [zesh|]; [|by apply wp_ret].
  do 6 (apply wp_skip; intros ? ?).
  apply wp_skip. intros [nr_subdevices subosdevs] ?.
  apply wp_skip; intros ? ?.
  simpl negb. cbv iota.
  apply wp_bind, wp_ret.
  do 2 (apply wp_skip; intros ? ?).
  by apply wp_ret.
Qed.

Lemma discover_driver_no_distances topology zesdrh i drh_i s w :
  topo_no_distances topology = true ->
  wp (discover_driver topology zesdrh i drh_i s) w (fun s' _ => ps_hports s' = ps_hports s).
Proof.
  intros Hflag. unfold discover_driver.
  destruct (zeDeviceGet drh_i) as [[res res2] dvh].
  destruct (negb (succeeded res) || _); [by apply wp_ret|].
  apply wp_skip. intros [|stale] ?; [by apply wp_ret|].
  destruct (negb (succeeded res2)); [by apply wp_ret|].
  apply wp_skip. intros zesdr ?.
  apply (wp_for_each _ (fun s' _ => ps_hports s' = ps_hports s)); [done|].
  intros j zeh s1 wj H1. rewrite <- H1. by apply discover_device_no_distances.
Qed.

Lemma devices_get_no_distances topology lz oarray hports w :
  topo_no_distances topology = true ->
  wp (hwloc__levelzero_devices_get topology lz oarray hports) w (fun r _ => r.2 = hports).
Proof.
  intros Hflag. unfold hwloc__levelzero_devices_get.
  destruct (zeDriverGet lz) as [[res res2] drh].
  destruct (negb (succeeded res) || _); [by apply wp_ret|].
  destruct (zesDriverGet lz) as [[zres zres2] zesdrh].
  destruct (negb (succeeded zres) || _); [by apply wp_ret|].
  apply wp_skip. intros a1 ?. apply wp_skip. intros a2 ?.
  destruct a1, a2; try by apply wp_ret.
  destruct (negb (succeeded res2)); [by apply wp_ret|].
  destruct (negb (succeeded zres2)); [by apply wp_ret|].
  apply wp_bind.
  eapply wp_mono.
  { apply (wp_for_each _ (fun s' _ => ps_hports s' = hports)); [done|].
    intros i drh_i s1 wi H1. rewrite <- H1. by apply discover_driver_no_distances. }
  intros s' ? Hs'. by apply wp_ret.
Qed.

(** X17: on a topology whose flags disable the distances, a pass captures
    no fabric port: the port registry it returns is the one it was
    given. *)
Theorem no_distances_flag_captures_no_port topology lz oarray hports w n oarray' hports' w' :
  topo_no_distances topology = true ->
  hwloc__levelzero_devices_get topology lz oarray hports w = Ret (n, oarray', hports') w' ->
  hports' = hports.
Proof.
  intros Hflag Hrun.
  exact (wp_elim _ _ _ _ _ (devices_get_no_distances topology lz oarray hports w Hflag) Hrun).
Qed.

Create HintDb kd.

Lemma kd_ret {A} (a : A) : keeps_distances (mret a).
Proof. intros w. by apply wp_ret. Qed.

Lemma kd_undefined {A} : keeps_distances (@undefined A).
Proof. intros w. apply wp_undefined. Qed.

Lemma kd_lift {A} (o : option A) : keeps_distances (lift o).
Proof. intros w. by apply wp_lift. Qed.

Lemma kd_bind {A B} (m : M A) (f : A -> M B) :
  keeps_distances m -> (forall a, keeps_distances (f a)) -> keeps_distances (m ≫= f).
Proof.
  intros Hm Hf w. apply wp_bind. eapply wp_mono; [apply Hm|].
  intros a w1 H1. eapply wp_mono; [apply Hf|]. intros b w2 H2. simpl in *. congruence.
Qed.

Lemma kd_for_each {A S} (body : Z -> A -> S -> M S) l :
  (forall i a s, keeps_distances (body i a s)) ->
  forall i s, keeps_distances (for_each body i l s).
Proof.
  intros Hbody. induction l as [|a l IH]; intros i s; cbn [for_each].
  - apply kd_ret.
  - apply kd_bind; [apply Hbody|]. intros s'. apply IH.
Qed.

Lemma kd_get_objs : keeps_distances get_objs.
Proof. by intros w. Qed.

Lemma kd_set_objs st : keeps_distances (set_objs st).
Proof. by intros w. Qed.

Lemma kd_alloc : keeps_distances alloc.
Proof. intros w. unfold wp, alloc. by destruct (w_heap w). Qed.

Lemma kd_alloc_setup_object ty : keeps_distances (hwloc_alloc_setup_object ty).
Proof. by intros w. Qed.

Lemma kd_insert_object parent obj : keeps_distances (hwloc_insert_object_by_parent parent obj).
Proof.
  intros w. unfold wp, hwloc_insert_object_by_parent.
  by destruct (deref (w_objs w) parent), (deref (w_objs w) obj).
Qed.

#[global] Hint Resolve kd_get_objs kd_set_objs kd_alloc kd_alloc_setup_object
  kd_insert_object : kd.

(** One step of a proof that a computation commits no distances. *)
Ltac kd_step :=
  first
    [ apply kd_ret | apply kd_undefined | apply kd_lift
    | solve [auto with kd nocore]
    | apply kd_bind; [|intros]
    | apply kd_for_each; intros
    | match goal with
      | |- keeps_distances (match ?x with _ => _ end) => destruct x
      end ].

Ltac kd := repeat kd_step.

Lemma kd_obj_add_info p name value : keeps_distances (obj_add_info p name value).
Proof. unfold obj_add_info. kd. Qed.

Lemma kd_modify_obj p f : keeps_distances (modify_obj p f).
Proof. unfold modify_obj. kd. Qed.

#[global] Hint Resolve kd_obj_add_info kd_modify_obj : kd.

Lemma kd_cqprops_get zeh osdev : keeps_distances (hwloc__levelzero_cqprops_get zeh osdev).
Proof. unfold hwloc__levelzero_cqprops_get. kd. Qed.

Lemma kd_memory_get zesh root_osdev nr_osdevs sub_osdevs :
  keeps_distances (hwloc__levelzero_memory_get zesh root_osdev nr_osdevs sub_osdevs).
Proof. unfold hwloc__levelzero_memory_get. kd. Qed.

Lemma kd_ports_get zesh root_osdev nr_sub_osdevs sub_osdevs hports :
  keeps_distances (hwloc__levelzero_ports_get zesh root_osdev nr_sub_osdevs sub_osdevs hports).
Proof. unfold hwloc__levelzero_ports_get. kd. Qed.

Lemma kd_array_add a x : keeps_distances (hwloc__levelzero_osdev_array_add a x).
Proof. unfold hwloc__levelzero_osdev_array_add. kd. Qed.

#[global] Hint Resolve kd_cqprops_get kd_memory_get kd_ports_get kd_array_add : kd.

Lemma kd_discover_subdevice zesdr zeidx k subzeh subosdevs :
  keeps_distances (discover_subdevice zesdr zeidx k subzeh subosdevs).
Proof. unfold discover_subdevice. kd. Qed.

#[global] Hint Resolve kd_discover_subdevice : kd.

Lemma kd_discover_subdevices zesdr zeidx zeh osdev :
  keeps_distances (discover_subdevices zesdr zeidx zeh osdev).
Proof. unfold discover_subdevices. kd. Qed.

Lemma kd_pci_parent topology answer : keeps_distances (pci_parent topology answer).
Proof. unfold pci_parent. kd. Qed.

#[global] Hint Resolve kd_discover_subdevices kd_pci_parent : kd.

Lemma kd_resolve_parent topology zeh zesh : keeps_distances (resolve_parent topology zeh zesh).
Proof. unfold resolve_parent. kd. Qed.

Lemma kd_insert_subdevice osdev sub s : keeps_distances (insert_subdevice osdev sub s).
Proof. unfold insert_subdevice. kd. Qed.

#[global] Hint Resolve kd_resolve_parent kd_insert_subdevice : kd.

Lemma kd_insert_subdevices osdev subosdevs ks :
  forall s, keeps_distances (insert_subdevices osdev subosdevs ks s).
Proof.
  induction ks as [|k ks IH]; intros s; cbn [insert_subdevices]; [apply kd_ret|].
  kd.
Qed.

#[global] Hint Resolve kd_insert_subdevices : kd.

Lemma kd_insert_device parent osdev nr_subdevices subosdevs s :
  keeps_distances (insert_device parent osdev nr_subdevices subosdevs s).
Proof. unfold insert_device. kd. Qed.

#[global] Hint Resolve kd_insert_device : kd.

Lemma kd_discover_device topology zesdr i j zeh s :
  keeps_distances (discover_device topology zesdr i j zeh s).
Proof. unfold discover_device. kd. Qed.

#[global] Hint Resolve kd_discover_device : kd.

Lemma kd_discover_driver topology zesdrh i drh_i s :
  keeps_distances (discover_driver topology zesdrh i drh_i s).
Proof. unfold discover_driver. kd. Qed.

#[global] Hint Resolve kd_discover_driver : kd.

Lemma kd_devices_get topology lz oarray hports :
  keeps_distances (hwloc__levelzero_devices_get topology lz oarray hports).
Proof. unfold hwloc__levelzero_devices_get. kd. Qed.

(** ** The discovery callback *)

Lemma insertions_none w w1 : w_tree w1 = w_tree w -> insertions w w1 = 0.
Proof. unfold insertions. intros ->. lia. Qed.

(** X18: the discovery callback returns 0 whatever happens. It appends the
    tag Backend=LevelZero to the infos of the topology exactly when the
    pass inserted at least one object in the tree, and leaves the infos
    as they are otherwise, in particular when OS devices are filtered
    out or when the initialisation of the runtime fails. *)
Theorem discover_tags_backend_when_objects_were_inserted
    backend rt phase infos w r infos' w' :
  hwloc_levelzero_discover backend rt phase infos w = Ret (r, infos') w' ->
  r = 0
  /\ w_tree w `prefix_of` w_tree w'
  /\ (insertions w w' < 2 ^ 31 ->
      infos' = infos ++ (if decide (0 < insertions w w') then backend_tag else [])).
Proof.
  assert (forall w1, w_tree w1 = w_tree w ->
            0 = 0 /\ w_tree w `prefix_of` w_tree w1
            /\ (insertions w w1 < 2 ^ 31 ->
                infos = infos ++ (if decide (0 < insertions w w1) then backend_tag else [])))
    as Hnone.
  { intros w1 Ht. rewrite (insertions_none _ _ Ht), Ht. simpl. by rewrite app_nil_r. }
  unfold hwloc_levelzero_discover.
  destruct (negb (bool_decide (phase = _))); [done|].
  destruct (bool_decide (osdev_type_filter backend = _)); [intros [= <- <- <-]; by apply Hnone|].
  destruct (negb (succeeded (zeInit rt))); [intros [= <- <- <-]; by apply Hnone|].
  destruct (negb (succeeded (zesInit rt))); [intros [= <- <- <-]; by apply Hnone|].
  unfold mbind, M_bind.
  destruct (hwloc__levelzero_devices_get _ _ _ _ w) as [[[added oa] hp] w1|] eqn:Hpass; [|done].
  destruct (wp_elim _ _ _ _ _ (devices_get_counts _ _ _ _ w) Hpass)
    as (c & (ins & Ht1 & ->) & Hadded). simpl in Hadded.
  destruct (hwloc__levelzero_ports_connect oa hp w1) as [[r2 oa'] w2|] eqn:Hconn; [|done].
  pose proof (wp_elim _ _ _ _ _ (ports_connect_tree oa hp w1) Hconn) as Ht2. simpl in Ht2.
  intros [= <- <- <-]. split; [done|].
  assert (insertions w w2 = Z.of_nat (length ins)) as Hins.
  { unfold insertions. rewrite Ht2, Ht1, length_app. lia. }
  rewrite Hins. split; [rewrite Ht2, Ht1; by exists ins|].
  intros Hsmall. rewrite Hadded, Z.add_0_l, uint32_small by lia.
  unfold int_of_unsigned. rewrite (proj2 (Z.ltb_lt _ _) Hsmall).
  unfold hwloc_modify_infos_add, backend_tag.
  destruct (Z.ltb_spec 0 (Z.of_nat (length ins))).
  - by rewrite decide_True.
  - rewrite decide_False by lia. by rewrite app_nil_r.
Qed.

(** X19: on a topology whose flags disable the distances, the discovery
    callback commits no dataset of distances. *)
Theorem discover_without_distances_commits_nothing backend rt phase infos w r infos' w' :
  topo_no_distances (backend_topology backend) = true ->
  hwloc_levelzero_discover backend rt phase infos w = Ret (r, infos') w' ->
  w_distances w' = w_distances w.
Proof.
  intros Hflag. unfold hwloc_levelzero_discover.
  destruct (negb (bool_decide (phase = _))); [done|].
  destruct (bool_decide (osdev_type_filter backend = _)); [by intros [= <- <- <-]|].
  destruct (negb (succeeded (zeInit rt))); [by intros [= <- <- <-]|].
  destruct (negb (succeeded (zesInit rt))); [by intros [= <- <- <-]|].
  unfold mbind, M_bind.
  destruct (hwloc__levelzero_devices_get _ _ _ _ w) as [[[added oa] hp] w1|] eqn:Hpass; [|done].
  pose proof (wp_elim _ _ _ _ _ (kd_devices_get _ _ _ _ w) Hpass) as Hd1. simpl in Hd1.
  pose proof (wp_elim _ _ _ _ _ (devices_get_no_distances _ _ _ _ w Hflag) Hpass) as Hhp.
  simpl in Hhp. subst hp.
  unfold hwloc__levelzero_ports_connect. simpl.
  by intros [= <- <- <-].
Qed.

(** ** Writing and reading back the number of subdevices *)

Lemma digit_of_pretty_char d :
  (d < 10)%N -> digit_of (pretty_N_char d) = Some (Z.of_N d)
                /\ is_space (pretty_N_char d) = false
                /\ pretty_N_char d <> "-"%char /\ pretty_N_char d <> "+"%char.
Proof.
  intros Hd. destruct d as [|p]; [by split_and!|].
  do 4 (destruct p as [p|p|]; try (by split_and!); try lia).
Qed.

(** The digits of [x] in front of [s] read as [x] appended to what was
    read before. *)
Lemma atoi_digits_pretty_go x :
  forall s, exists k, 0 <= k /\
    forall a, atoi_digits (pretty_N_go x s) a = atoi_digits s (a * 10 ^ k + Z.of_N x).
Proof.
  induction (N.lt_wf_0 x) as [x _ IH]. intros s.
  destruct (N.eq_0_gt_0_cases x) as [->|Hpos].
  - exists 0. split; [done|]. intros a. rewrite pretty_N_go_0. f_equal. lia.
  - rewrite pretty_N_go_step by done.
    destruct (IH (x `div` 10)%N (N.div_lt x 10 Hpos eq_refl)
                 (String (pretty_N_char (x `mod` 10)) s)) as (k & Hk & Hread).
    exists (k + 1). split; [lia|]. intros a. rewrite Hread. simpl.
    destruct (digit_of_pretty_char (x `mod` 10)%N) as (-> & _); [by apply N.mod_lt|].
    f_equal. rewrite Z.pow_add_r, Z.pow_1_r by lia.
    rewrite (N.div_mod x 10) at 3 by done.
    rewrite N2Z.inj_add, N2Z.inj_mul. change (Z.of_N 10) with 10. lia.
Qed.

Lemma pretty_go_head x : forall s,
  (0 < x)%N -> exists d r, (d < 10)%N /\ pretty_N_go x s = String (pretty_N_char d) r.
Proof.
  induction (N.lt_wf_0 x) as [x _ IH]. intros s Hpos.
  rewrite pretty_N_go_step by done.
  destruct (N.eq_0_gt_0_cases (x `div` 10)) as [->|Hdiv].
  - rewrite pretty_N_go_0. eexists _, _. split; [|done]. by apply N.mod_lt.
  - by apply IH; [apply N.div_lt|].
Qed.

(** [atoi] reads back what [%u] writes. *)
Lemma atoi_fmt_u n : 0 <= n -> atoi (fmt_u n) = n.
Proof.
  intros Hn. unfold fmt_u. destruct n as [|p|p]; [done| |lia].
  change (pretty (Z.pos p)) with (pretty (N.pos p)).
  unfold pretty, pretty_N. rewrite decide_False by done.
  destruct (pretty_go_head (N.pos p) "") as (d & r & Hd & Hhead); [done|].
  destruct (digit_of_pretty_char d Hd) as (_ & Hsp & Hminus & Hplus).
  assert (atoi (pretty_N_go (N.pos p) "") = atoi_digits (pretty_N_go (N.pos p) "") 0) as ->.
  { rewrite Hhead. unfold atoi. simpl. rewrite Hsp.
    destruct (pretty_N_char d) as [[] [] [] [] [] [] [] []]; try done. }
  destruct (atoi_digits_pretty_go (N.pos p) "") as (k & _ & Hread).
  rewrite Hread. simpl. lia.
Qed.

Lemma get_info_by_name_app infos name value :
  get_info_by_name (infos ++ [(name, value)]) name
  = Some (default value (get_info_by_name infos name)).
Proof.
  induction infos as [|[k v] infos IH]; simpl.
  - by rewrite String.eqb_refl.
  - destruct (String.eqb k name); [done|exact IH].
Qed.

(** X20: the number of subdevices written on a device as its attribute
    LevelZeroSubdevices is the number the matrix builder reads back from
    the device, when the device had no such attribute before. *)
Theorem subdevice_count_round_trip st p o n st' :
  deref st p = Some o ->
  get_info_by_name (obj_infos o) "LevelZeroSubdevices" = None ->
  0 <= n < 2 ^ 32 ->
  hwloc_obj_add_info st p "LevelZeroSubdevices" (fmt_u n) = Some st' ->
  recorded_subdevices st' p = Some n.
Proof.
  intros Ho Hnone Hn Hadd.
  apply hwloc_obj_add_info_inv in Hadd as (o' & Ho' & ->).
  rewrite Ho in Ho'. injection Ho' as <-.
  unfold recorded_subdevices, hwloc_obj_get_info_by_name.
  rewrite deref_update_eq by by eexists. simpl.
  rewrite get_info_by_name_app, Hnone. simpl.
  by rewrite atoi_fmt_u, uint32_small by lia.
Qed.

Create HintDb st.

Lemma extends_refl o : extends o o.
Proof. by split_and!. Qed.

Lemma extends_trans o1 o2 o3 : extends o1 o2 -> extends o2 o3 -> extends o1 o3.
Proof.
  intros (Ht1 & Hn1 & Hs1 & Hi1) (Ht2 & Hn2 & Hs2 & Hi2).
  split_and!; try congruence. by etrans.
Qed.

Lemma extends_add_info o name value : extends o (add_info o name value).
Proof. split_and!; try done. simpl. by apply prefix_app_r. Qed.

Lemma extends_set_linkspeed o bw : extends o (set_linkspeed bw o).
Proof. by split_and!. Qed.

Lemma extends_when (b : bool) o name value :
  extends o (if b then add_info o name value else o).
Proof. destruct b; [apply extends_add_info|apply extends_refl]. Qed.

Lemma extends_cqgroup_infos cqprops : forall k o, extends o (cqgroup_infos k cqprops o).
Proof.
  induction cqprops as [|cq rest IH]; intros k o; simpl; [apply extends_refl|].
  eapply extends_trans; [apply extends_add_info|apply IH].
Qed.

(** The strings of the monitoring extension only add attributes. *)
Lemma extends_sysman_strings res prop2 o o1 :
  extends o o1 ->
  extends o
    (if succeeded res then
       let o2 := if negb (strcasecmp (vendorName prop2) "Unknown" =? 0)
                 then add_info o1 "LevelZeroVendor" (c_str (vendorName prop2))
                 else o1 in
       let o3 := if negb (strcasecmp (modelName prop2) "Unknown" =? 0)
                 then add_info o2 "LevelZeroModel" (c_str (modelName prop2))
                 else o2 in
       let o4 := if negb (strcasecmp (brandName prop2) "Unknown" =? 0)
                 then add_info o3 "LevelZeroBrand" (c_str (brandName prop2))
                 else o3 in
       let o5 := if negb (strcasecmp (serialNumber prop2) "Unknown" =? 0)
                 then add_info o4 "LevelZeroSerialNumber" (c_str (serialNumber prop2))
                 else o4 in
       let o6 := if negb (strcasecmp (boardNumber prop2) "Unknown" =? 0)
                 then add_info o5 "LevelZeroBoardNumber" (c_str (boardNumber prop2))
                 else o5 in
       o6
     else o1).
Proof.
  intros H1. destruct (succeeded res); [|done]. cbv zeta.
  repeat (eapply extends_trans; [|apply extends_when]). done.
Qed.

Lemma with_core_attributes_infos p o :
  obj_infos (with_core_attributes p o) = obj_infos o ++ core_attributes p.
Proof. unfold with_core_attributes, core_attributes. simpl. by rewrite <- !app_assoc. Qed.

Lemma extends_with_core_attributes p o : extends o (with_core_attributes p o).
Proof.
  unfold with_core_attributes.
  repeat (eapply extends_trans; [|apply extends_add_info]). apply extends_refl.
Qed.

(** The harvest of the properties, for properties that are given or can
    be read: the core attributes, then possibly more. *)
Lemma properties_get_after_core zeh zesh prop p o :
  device_properties zeh prop = Some p ->
  extends (with_core_attributes p o) (hwloc__levelzero_properties_get zeh zesh prop o).
Proof.
  intros Hp. unfold hwloc__levelzero_properties_get. rewrite Hp.
  destruct (zesDeviceGetProperties zesh) as [res prop2]. cbv beta iota zeta.
  fold (with_core_attributes p o).
  destruct (negb (Z.land _ _ =? 0)); [apply extends_refl|].
  exact (extends_sysman_strings res prop2 _ _ (extends_refl _)).
Qed.

Lemma extends_properties_get zeh zesh prop o :
  extends o (hwloc__levelzero_properties_get zeh zesh prop o).
Proof.
  destruct (device_properties zeh prop) as [p|] eqn:Hp.
  - eapply extends_trans; [apply (extends_with_core_attributes p)|].
    by apply properties_get_after_core.
  - unfold hwloc__levelzero_properties_get. rewrite Hp.
    destruct (zesDeviceGetProperties zesh) as [res prop2]. cbv beta iota zeta.
    exact (extends_sysman_strings res prop2 _ _ (extends_refl _)).
Qed.

Lemma holds_extends p o o1 w : extends o o1 -> holds p o1 w -> holds p o w.
Proof. intros He (o' & Ho' & He'). exists o'. split; [done|]. by eapply extends_trans. Qed.

Lemma holds_update p o w q o1 o2 st :
  holds p o w -> deref (w_objs w) q = Some o1 -> (q = p -> extends o1 o2) ->
  st = update_obj (w_objs w) q o2 ->
  exists o', deref st p = Some o' /\ extends o o'.
Proof.
  intros (o' & Ho' & He') Hq Hext ->.
  destruct (decide (q = p)) as [->|Hne].
  - exists o2. rewrite deref_update_eq by by eexists. split; [done|].
    rewrite Hq in Ho'. injection Ho' as ->. eapply extends_trans; [done|]. by apply Hext.
  - exists o'. by rewrite deref_update_ne.
Qed.

Lemma st_ret {A} p (a : A) : stable_at p (mret a).
Proof. intros o w H. by apply wp_ret. Qed.

Lemma st_undefined {A} p : stable_at p (@undefined A).
Proof. intros o w H. apply wp_undefined. Qed.

Lemma st_lift {A} p (m : option A) : stable_at p (lift m).
Proof. intros o w H. by apply wp_lift. Qed.

Lemma st_bind {A B} p (m : M A) (f : A -> M B) :
  stable_at p m -> (forall a, stable_at p (f a)) -> stable_at p (m ≫= f).
Proof.
  intros Hm Hf o w H. apply wp_bind. eapply wp_mono; [by apply Hm|].
  intros a w1 H1. by apply Hf.
Qed.

Lemma st_for_each {A S} p (body : Z -> A -> S -> M S) l :
  (forall i a s, stable_at p (body i a s)) ->
  forall i s, stable_at p (for_each body i l s).
Proof.
  intros Hbody. induction l as [|a l IH]; intros i s; cbn [for_each].
  - apply st_ret.
  - apply st_bind; [apply Hbody|]. intros s'. apply IH.
Qed.

Lemma st_get_objs p : stable_at p get_objs.
Proof. by intros o w H. Qed.

Lemma st_alloc p : stable_at p alloc.
Proof. intros o w H. unfold wp, alloc. by destruct (w_heap w). Qed.

Lemma st_alloc_setup_object p ty : stable_at p (hwloc_alloc_setup_object ty).
Proof.
  intros o w (o' & Ho' & He'). unfold wp, hwloc_alloc_setup_object, holds. simpl.
  exists o'. split; [|done]. destruct p as [|i]; [done|]. simpl in *.
  by apply lookup_app_l_Some.
Qed.

Lemma st_insert_object p parent obj : stable_at p (hwloc_insert_object_by_parent parent obj).
Proof.
  intros o w H. unfold wp, hwloc_insert_object_by_parent.
  by destruct (deref (w_objs w) parent), (deref (w_objs w) obj).
Qed.

Lemma st_obj_add_info p q name value : stable_at p (obj_add_info q name value).
Proof.
  intros o w H. unfold obj_add_info. apply wp_bind, get_objs_spec. apply wp_bind, wp_lift.
  intros st' (o1 & Ho1 & ->)%hwloc_obj_add_info_inv.
  unfold wp, set_objs, holds. simpl.
  eapply holds_update; [done|done| |done]. intros _. apply extends_add_info.
Qed.

Lemma st_modify_obj p q f :
  q <> p \/ (forall o, extends o (f o)) -> stable_at p (modify_obj q f).
Proof.
  intros Hf o w H. unfold modify_obj. apply wp_bind, get_objs_spec. apply wp_bind, wp_lift.
  intros o1 Ho1. unfold wp, set_objs, holds. simpl.
  eapply holds_update; [done|done| |done]. intros ->. by destruct Hf.
Qed.

#[global] Hint Resolve st_get_objs st_alloc st_alloc_setup_object st_insert_object
  st_obj_add_info : st.

(** One step of a proof that an object keeps its identity. *)
Ltac st_step :=
  first
    [ apply st_ret | apply st_undefined | apply st_lift
    | solve [auto with st nocore]
    | match goal with
      | |- stable_at _ (_ ≫= _) => apply st_bind; [|intros]
      | |- stable_at _ (for_each _ _ _ _) => apply st_for_each; intros
      | |- stable_at _ (match ?x with _ => _ end) => destruct x
      end ].

Ltac st := repeat st_step.

Lemma st_cqprops_get p zeh osdev : stable_at p (hwloc__levelzero_cqprops_get zeh osdev).
Proof.
  unfold hwloc__levelzero_cqprops_get. st. apply st_modify_obj. right. intros o.
  eapply extends_trans; [apply extends_add_info|apply extends_cqgroup_infos].
Qed.

Lemma st_ports_get p zesh root_osdev nr_sub_osdevs sub_osdevs hports :
  stable_at p (hwloc__levelzero_ports_get zesh root_osdev nr_sub_osdevs sub_osdevs hports).
Proof. unfold hwloc__levelzero_ports_get. st. Qed.

Lemma st_array_add p a x : stable_at p (hwloc__levelzero_osdev_array_add a x).
Proof. unfold hwloc__levelzero_osdev_array_add. st. Qed.

#[global] Hint Resolve st_cqprops_get st_ports_get st_array_add : st.

(** What one memory module does to the objects. *)
Lemma memory_module_shape root_osdev nr_osdevs sub_osdevs mh st hbm ddr st' hbm' ddr' :
  memory_module root_osdev nr_osdevs sub_osdevs mh (st, hbm, ddr) = Some (st', hbm', ddr') ->
  st' = st
  \/ exists q o name value,
       deref st q = Some o /\ st' = update_obj st q (add_info o name value).
Proof.
  unfold memory_module.
  destruct (zesMemoryGetProperties mh) as [res mprop].
  destruct (succeeded res); simpl; [|intros [= <- <- <-]; by left].
  destruct (if mem_onSubdevice mprop then _ else _) as [owner|]; [|done]. simpl.
  intros H.
  destruct (mem_type mprop); simpl in H;
    (destruct (Nat.eqb owner NULL || _); [injection H as <- <- <-; by left|]);
    (destruct (Nat.eqb owner root_osdev); simpl in H; [injection H as <- <- <-; by left|]);
    (destruct (hwloc_obj_add_info _ _ _ _) as [st1|] eqn:Ha; [|done]);
    simpl in H; injection H as <- <- <-;
    apply hwloc_obj_add_info_inv in Ha as (o & Ho & ->);
    right; eauto 10.
Qed.

Lemma memory_modules_extend root_osdev nr_osdevs sub_osdevs mems p o :
  forall st hbm ddr st' hbm' ddr',
  fold_opt (memory_module root_osdev nr_osdevs sub_osdevs) mems (st, hbm, ddr)
    = Some (st', hbm', ddr') ->
  (exists o', deref st p = Some o' /\ extends o o') ->
  exists o', deref st' p = Some o' /\ extends o o'.
Proof.
  induction mems as [|mh mems IH]; intros st hbm ddr st' hbm' ddr'; simpl.
  - by intros [= <- <- <-].
  - destruct (memory_module root_osdev nr_osdevs sub_osdevs mh (st, hbm, ddr))
      as [[[st1 hbm1] ddr1]|] eqn:H1; simpl; [|done].
    intros H Hp. apply (IH _ _ _ _ _ _ H).
    apply memory_module_shape in H1 as [->|(q & o1 & name & value & Hq & ->)]; [done|].
    destruct Hp as (o' & Ho' & He').
    destruct (decide (q = p)) as [->|Hne].
    + exists (add_info o1 name value). rewrite deref_update_eq by by eexists.
      split; [done|]. rewrite Hq in Ho'. injection Ho' as ->.
      eapply extends_trans; [done|apply extends_add_info].
    + exists o'. by rewrite deref_update_ne.
Qed.

Lemma st_memory_get p zesh root_osdev nr_osdevs sub_osdevs :
  stable_at p (hwloc__levelzero_memory_get zesh root_osdev nr_osdevs sub_osdevs).
Proof.
  unfold hwloc__levelzero_memory_get.
  destruct (zesDeviceEnumMemoryModules zesh) as [[res res2] mems].
  destruct (negb (succeeded res)); [apply st_ret|].
  destruct (_ =? 0); [apply st_ret|].
  apply st_bind; [apply st_alloc|]. intros mh.
  apply st_bind; [|intros [h d]; st].
  destruct mh as [|stale]; [apply st_ret|].
  destruct (succeeded res2); [|apply st_ret].
  intros o w H. apply wp_bind, get_objs_spec. apply wp_bind, wp_lift.
  intros [[st' hbm] ddr] Hfold. unfold wp. simpl. unfold holds. simpl.
  by eapply memory_modules_extend.
Qed.

Lemma st_pci_parent p topology answer : stable_at p (pci_parent topology answer).
Proof.
  unfold pci_parent. destruct answer as [res pci].
  destruct (succeeded res); [|apply st_ret].
  destruct (Nat.eqb _ NULL); [apply st_ret|].
  intros o w H. apply wp_bind, get_objs_spec. apply wp_bind, wp_lift. intros o1 Ho1.
  destruct (_ && _); [|by apply wp_ret].
  unfold wp. simpl. unfold holds. simpl.
  eapply holds_update; [done|done| |done]. intros _. apply extends_set_linkspeed.
Qed.

#[global] Hint Resolve st_memory_get st_pci_parent : st.

Lemma st_resolve_parent p topology zeh zesh : stable_at p (resolve_parent topology zeh zesh).
Proof. unfold resolve_parent. st. Qed.

Lemma st_insert_subdevice p osdev sub s : stable_at p (insert_subdevice osdev sub s).
Proof. unfold insert_subdevice. st. Qed.

#[global] Hint Resolve st_resolve_parent st_insert_subdevice : st.

Lemma st_insert_subdevices p osdev subosdevs ks :
  forall s, stable_at p (insert_subdevices osdev subosdevs ks s).
Proof. induction ks as [|k ks IH]; intros s; cbn [insert_subdevices]; st. Qed.

#[global] Hint Resolve st_insert_subdevices : st.

Lemma st_insert_device p parent osdev nr_subdevices subosdevs s :
  stable_at p (insert_device parent osdev nr_subdevices subosdevs s).
Proof. unfold insert_device. st. Qed.

#[global] Hint Resolve st_insert_device : st.

(** A new object is not an object that exists. *)
Lemma fresh_object p o w ty :
  holds p o w ->
  wp (hwloc_alloc_setup_object ty) w
     (fun q w1 => q = S (length (w_objs w)) /\ q <> p /\ holds p o w1
                  /\ w_objs w1 = w_objs w
                       ++ [{| obj_type := ty; obj_name := EmptyString;
                              obj_subtype := EmptyString; obj_infos := [];
                              obj_linkspeed_bw := 0 |}]).
Proof.
  intros H. split; [done|]. split.
  - destruct H as (o' & Ho' & _). destruct p as [|i]; [done|]. simpl in Ho'.
    apply lookup_lt_Some in Ho'. lia.
  - split; [|done]. by apply (st_alloc_setup_object p ty o w).
Qed.

Lemma st_discover_subdevice p zesdr zeidx k subzeh subosdevs :
  stable_at p (discover_subdevice zesdr zeidx k subzeh subosdevs).
Proof.
  intros o w H. unfold discover_subdevice.
  destruct (zeDeviceGetProperties subzeh) as [res props].
  destruct (negb (succeeded res)); [by apply wp_ret|].
  destruct (zesDriverGetDeviceByUuidExp _ _) as [subzesh|]; [|by apply wp_ret].
  apply wp_bind. eapply wp_mono; [by apply fresh_object|].
  intros sub w1 (_ & Hne & H1 & _). clear H. revert o w1 H1.
  change (stable_at p
    (modify_obj sub (set_name ("ze" +:+ fmt_u zeidx +:+ "." +:+ fmt_u k));;
     obj_add_info sub "LevelZeroSubdeviceID" (fmt_u k);;
     modify_obj sub (hwloc__levelzero_properties_get subzeh subzesh None);;
     hwloc__levelzero_cqprops_get subzeh sub;;
     mret (<[Z.to_nat k := sub]> subosdevs))).
  apply st_bind; [apply st_modify_obj; by left|]. intros _.
  apply st_bind; [apply st_obj_add_info|]. intros _.
  apply st_bind; [apply st_modify_obj; by left|]. intros _.
  st.
Qed.

#[global] Hint Resolve st_discover_subdevice : st.

Lemma st_discover_subdevices p zesdr zeidx zeh osdev :
  stable_at p (discover_subdevices zesdr zeidx zeh osdev).
Proof. unfold discover_subdevices. st. Qed.

#[global] Hint Resolve st_discover_subdevices : st.

Lemma st_device_rest p topology zesdr zeh zesh s osdev :
  stable_at p (device_rest topology zesdr zeh zesh s osdev).
Proof. unfold device_rest. st. Qed.

Lemma st_discover_device p topology zesdr i j zeh s :
  stable_at p (discover_device topology zesdr i j zeh s).
Proof.
  intros o w H. unfold discover_device.
  destruct (zeDeviceGetProperties (ze_core zeh)) as [res props].
  destruct (negb (succeeded res)); [by apply wp_ret|].
  destruct (zesDriverGetDeviceByUuidExp _ _) as [zesh|]; [|by apply wp_ret].
  apply wp_bind. eapply wp_mono; [by apply fresh_object|].
  intros osdev w1 (_ & Hne & H1 & _). clear H. revert o w1 H1.
  change (stable_at p
    (modify_obj osdev (set_name ("ze" +:+ fmt_u (ps_zeidx s)));;
     obj_add_info osdev "LevelZeroDriverIndex" (fmt_u i);;
     obj_add_info osdev "LevelZeroDriverDeviceIndex" (fmt_u j);;
     modify_obj osdev (hwloc__levelzero_properties_get (ze_core zeh) zesh (Some props));;
     device_rest topology zesdr zeh zesh s osdev)).
  apply st_bind; [apply st_modify_obj; by left|]. intros _.
  apply st_bind; [apply st_obj_add_info|]. intros _.
  apply st_bind; [apply st_obj_add_info|]. intros _.
  apply st_bind; [apply st_modify_obj; by left|]. intros _.
  apply st_device_rest.
Qed.

#[global] Hint Resolve st_discover_device : st.

Lemma st_discover_driver p topology zesdrh i drh_i s :
  stable_at p (discover_driver topology zesdrh i drh_i s).
Proof. unfold discover_driver. st. Qed.

#[global] Hint Resolve st_discover_driver : st.

Lemma st_devices_get p topology lz oarray hports :
  stable_at p (hwloc__levelzero_devices_get topology lz oarray hports).
Proof. unfold hwloc__levelzero_devices_get. st. Qed.

(** X21: a pass never renames or retypes an object that exists and never
    removes one of its attributes: every object of the topology is found
    after the pass at the same place, with the same type, name and
    subtype, and with its attributes followed by what the pass added. *)
Theorem devices_get_keeps_existing_objects
    topology lz oarray hports w n oarray' hports' w' p o :
  hwloc__levelzero_devices_get topology lz oarray hports w = Ret (n, oarray', hports') w' ->
  deref (w_objs w) p = Some o ->
  exists o', deref (w_objs w') p = Some o' /\ extends o o'.
Proof.
  intros Hrun Ho.
  assert (holds p o w) as H by (exists o; split; [done|apply extends_refl]).
  exact (wp_elim _ _ _ _ _ (st_devices_get p topology lz oarray hports o w H) Hrun).
Qed.

Lemma modify_obj_at p f w o :
  deref (w_objs w) p = Some o ->
  wp (modify_obj p f) w (fun _ w1 => deref (w_objs w1) p = Some (f o)).
Proof.
  intros Ho. unfold modify_obj. apply wp_bind, get_objs_spec. apply wp_bind, wp_lift.
  intros o1 Ho1. unfold wp, set_objs. simpl. rewrite Ho in Ho1. injection Ho1 as <-.
  apply deref_update_eq. by eexists.
Qed.

Lemma obj_add_info_at p name value w o :
  deref (w_objs w) p = Some o ->
  wp (obj_add_info p name value) w
     (fun _ w1 => deref (w_objs w1) p = Some (add_info o name value)).
Proof.
  intros Ho. unfold obj_add_info. apply wp_bind, get_objs_spec. apply wp_bind, wp_lift.
  intros st' (o1 & Ho1 & ->)%hwloc_obj_add_info_inv.
  unfold wp, set_objs. simpl. rewrite Ho in Ho1. injection Ho1 as <-.
  apply deref_update_eq. by eexists.
Qed.

(** The insertion of a device puts it in the tree, under its parent. *)
Lemma insert_device_link parent osdev nr_subdevices subosdevs s w :
  wp (insert_device parent osdev nr_subdevices subosdevs s) w
     (fun _ w1 => (parent, osdev) ∈ w_tree w1).
Proof.
  unfold insert_device.
  wp_step insert_object_spec. intros ? w1 (Ht1 & _ & _).
  wp_step array_add_tree. intros r w2 Ht2.
  assert ((parent, osdev) ∈ w_tree w2) as Hin.
  { rewrite Ht2, Ht1. apply elem_of_app. right. apply list_elem_of_here. }
  destruct (_ =? 0); [by apply wp_ret|].
  eapply wp_mono; [apply insert_subdevices_counts; simpl; apply uint32_range|].
  intros s2 w3 (ins & Ht3 & _). rewrite Ht3. apply elem_of_app. by left.
Qed.

Lemma device_rest_result topology zesdr zeh zesh s osdev w :
  wp (device_rest topology zesdr zeh zesh s osdev) w
     (fun s' w1 => ps_zeidx s' = uint32 (ps_zeidx s + 1)
                   /\ exists parent, (parent, osdev) ∈ w_tree w1).
Proof.
  unfold device_rest.
  apply wp_skip. intros ? ?.
  apply wp_skip. intros [nr_subdevices subosdevs] ?.
  do 3 (apply wp_skip; intros ? ?).
  apply wp_bind. eapply wp_mono; [apply insert_device_link|].
  intros r wr Hin. apply wp_ret. split; [reflexivity|]. eexists. exact Hin.
Qed.

(** X22: a device whose properties can be read and whose identity is known
    to the monitoring extension gets a new object at the end of the
    objects: an OS device of subtype LevelZero, named ze followed by the
    index of the device among the devices kept so far, whose first
    attributes are the index of its driver, its index in the driver and
    its six core attributes, and which is inserted in the tree. The index
    of the next device is the next number. *)
Theorem discover_device_creates_named_device
    topology zesdr i j zeh s w s' w' props zesh :
  zeDeviceGetProperties (ze_core zeh) = (ZE_RESULT_SUCCESS, props) ->
  zesDriverGetDeviceByUuidExp (zes_devices zesdr) (dp_uuid props) = Some zesh ->
  discover_device topology zesdr i j zeh s w = Ret s' w' ->
  ps_zeidx s' = uint32 (ps_zeidx s + 1)
  /\ exists o parent,
       deref (w_objs w') (S (length (w_objs w))) = Some o
       /\ obj_type o = HWLOC_OBJ_OS_DEVICE
       /\ obj_name o = ("ze" +:+ fmt_u (ps_zeidx s))%string
       /\ obj_subtype o = "LevelZero"%string
       /\ ([("LevelZeroDriverIndex", fmt_u i); ("LevelZeroDriverDeviceIndex", fmt_u j)]%string
           ++ core_attributes props) `prefix_of` obj_infos o
       /\ (parent, S (length (w_objs w))) ∈ w_tree w'.
Proof.
  intros Hprops Hzes Hrun.
  set (fresh := {| obj_type := HWLOC_OBJ_OS_DEVICE; obj_name := EmptyString;
                   obj_subtype := EmptyString; obj_infos := [];
                   obj_linkspeed_bw := 0 |}).
  set (o4 := hwloc__levelzero_properties_get (ze_core zeh) zesh (Some props)
               (add_info (add_info (set_name ("ze" +:+ fmt_u (ps_zeidx s)) fresh)
                            "LevelZeroDriverIndex" (fmt_u i))
                         "LevelZeroDriverDeviceIndex" (fmt_u j))).
  assert (wp (discover_device topology zesdr i j zeh s) w
            (fun s' w1 => holds (S (length (w_objs w))) o4 w1
                          /\ ps_zeidx s' = uint32 (ps_zeidx s + 1)
                          /\ exists parent, (parent, S (length (w_objs w))) ∈ w_tree w1))
    as Hwp.
  { unfold discover_device. rewrite Hprops.
    change (succeeded ZE_RESULT_SUCCESS) with true. cbv iota. rewrite Hzes.
    apply wp_bind. unfold wp at 1, hwloc_alloc_setup_object. fold fresh.
    set (p := S (length (w_objs w))).
    set (wa := {| w_objs := w_objs w ++ [fresh]; w_tree := w_tree w; w_heap := w_heap w;
                  w_backend := w_backend w; w_distances := w_distances w |}).
    assert (deref (w_objs wa) p = Some fresh) as H1.
    { subst p wa. simpl. by rewrite lookup_app_r, Nat.sub_diag by lia. }
    apply wp_bind. eapply wp_mono; [apply modify_obj_at; exact H1|]. intros ? w2 H2.
    apply wp_bind. eapply wp_mono; [apply obj_add_info_at; exact H2|]. intros ? w3 H3.
    apply wp_bind. eapply wp_mono; [apply obj_add_info_at; exact H3|]. intros ? w4 H4.
    apply wp_bind. eapply wp_mono; [apply modify_obj_at; exact H4|]. intros ? w5 H5.
    fold o4 in H5.
    change (wp (device_rest topology zesdr zeh zesh s p) w5
              (fun s' w6 => holds p o4 w6
                            /\ ps_zeidx s' = uint32 (ps_zeidx s + 1)
                            /\ exists parent, (parent, p) ∈ w_tree w6)).
    apply wp_conj; [|apply device_rest_result].
    apply st_device_rest. exists o4. split; [done|apply extends_refl]. }
  destruct (wp_elim _ _ _ _ _ Hwp Hrun) as ((o & Ho & Ht & Hn & Hs & Hi) & Hidx & parent & Hin).
  split; [done|]. exists o, parent.
  pose proof (extends_properties_get (ze_core zeh) zesh (Some props)
                (add_info (add_info (set_name ("ze" +:+ fmt_u (ps_zeidx s)) fresh)
                             "LevelZeroDriverIndex" (fmt_u i))
                          "LevelZeroDriverDeviceIndex" (fmt_u j))) as (Ht4 & Hn4 & Hs4 & _).
  fold o4 in Ht4, Hn4, Hs4.
  split_and!; try done.
  - by rewrite Ht, Ht4.
  - by rewrite Hn, Hn4.
  - by rewrite Hs, Hs4.
  - etrans; [|exact Hi]. subst o4.
    destruct (properties_get_after_core (ze_core zeh) zesh (Some props) props
                (add_info (add_info (set_name ("ze" +:+ fmt_u (ps_zeidx s)) fresh)
                             "LevelZeroDriverIndex" (fmt_u i))
                          "LevelZeroDriverDeviceIndex" (fmt_u j)) eq_refl)
      as (_ & _ & _ & Hpre).
    etrans; [|exact Hpre]. by rewrite with_core_attributes_infos.
Qed.

(** X23: a subdevice whose properties can be read and whose identity is
    known to the monitoring extension gets a new object at the end of the
    objects, recorded in the slot of its index: an OS device of subtype
    LevelZero, named after the index of its device and its own index,
    whose first attributes are its index and its six core attributes. *)
Theorem discover_subdevice_creates_named_subdevice
    zesdr zeidx k subzeh slots w slots' w' props subzesh :
  zeDeviceGetProperties subzeh = (ZE_RESULT_SUCCESS, props) ->
  zesDriverGetDeviceByUuidExp (zes_devices zesdr) (dp_uuid props) = Some subzesh ->
  discover_subdevice zesdr zeidx k subzeh slots w = Ret slots' w' ->
  slots' = <[Z.to_nat k := S (length (w_objs w))]> slots
  /\ exists o,
       deref (w_objs w') (S (length (w_objs w))) = Some o
       /\ obj_type o = HWLOC_OBJ_OS_DEVICE
       /\ obj_name o = ("ze" +:+ fmt_u zeidx +:+ "." +:+ fmt_u k)%string
       /\ obj_subtype o = "LevelZero"%string
       /\ ([("LevelZeroSubdeviceID", fmt_u k)]%string ++ core_attributes props)
          `prefix_of` obj_infos o.
Proof.
  intros Hprops Hzes Hrun.
  set (fresh := {| obj_type := HWLOC_OBJ_OS_DEVICE; obj_name := EmptyString;
                   obj_subtype := EmptyString; obj_infos := [];
                   obj_linkspeed_bw := 0 |}).
  set (named := add_info (set_name ("ze" +:+ fmt_u zeidx +:+ "." +:+ fmt_u k) fresh)
                         "LevelZeroSubdeviceID" (fmt_u k)).
  set (o3 := hwloc__levelzero_properties_get subzeh subzesh None named).
  assert (wp (discover_subdevice zesdr zeidx k subzeh slots) w
            (fun slots' w1 => holds (S (length (w_objs w))) o3 w1
                              /\ slots' = <[Z.to_nat k := S (length (w_objs w))]> slots))
    as Hwp.
  { unfold discover_subdevice. rewrite Hprops.
    change (succeeded ZE_RESULT_SUCCESS) with true. cbv iota. rewrite Hzes.
    apply wp_bind. unfold wp at 1, hwloc_alloc_setup_object. fold fresh.
    set (p := S (length (w_objs w))).
    set (wa := {| w_objs := w_objs w ++ [fresh]; w_tree := w_tree w; w_heap := w_heap w;
                  w_backend := w_backend w; w_distances := w_distances w |}).
    assert (deref (w_objs wa) p = Some fresh) as H1.
    { subst p wa. simpl. by rewrite lookup_app_r, Nat.sub_diag by lia. }
    apply wp_bind. eapply wp_mono; [apply modify_obj_at; exact H1|]. intros ? w2 H2.
    apply wp_bind. eapply wp_mono; [apply obj_add_info_at; exact H2|]. intros ? w3 H3.
    apply wp_bind. eapply wp_mono; [apply modify_obj_at; exact H3|]. intros ? w4 H4.
    fold named o3 in H4.
    apply wp_bind.
    eapply wp_mono.
    { apply (st_cqprops_get p subzeh p o3 w4). exists o3. split; [done|apply extends_refl]. }
    intros ? w5 H5. by apply wp_ret. }
  destruct (wp_elim _ _ _ _ _ Hwp Hrun) as ((o & Ho & Ht & Hn & Hs & Hi) & Hslots).
  split; [done|]. exists o.
  assert (device_properties subzeh None = Some props) as Hdp.
  { unfold device_properties. by rewrite Hprops. }
  pose proof (extends_properties_get subzeh subzesh None named) as (Ht3 & Hn3 & Hs3 & _).
  fold o3 in Ht3, Hn3, Hs3.
  split_and!; try done.
  - by rewrite Ht, Ht3.
  - by rewrite Hn, Hn3.
  - by rewrite Hs, Hs3.
  - etrans; [|exact Hi]. subst o3.
    destruct (properties_get_after_core subzeh subzesh None props named Hdp)
      as (_ & _ & _ & Hpre).
    etrans; [|exact Hpre]. by rewrite with_core_attributes_infos.
Qed.

Lemma same_but_linkspeed_refl w : same_but_linkspeed w w.
Proof. intros q o Hq. exists o. split_and!; try done; apply extends_refl. Qed.

Lemma same_but_linkspeed_trans w w1 w2 :
  same_but_linkspeed w w1 -> same_but_linkspeed w1 w2 -> same_but_linkspeed w w2.
Proof.
  intros H1 H2 q o Hq. destruct (H1 q o Hq) as (o1 & Ho1 & He1 & Hi1).
  destruct (H2 q o1 Ho1) as (o2 & Ho2 & He2 & Hi2).
  exists o2. split_and!; [done|by eapply extends_trans|congruence].
Qed.

Lemma pci_parent_result topology answer w :
  wp (pci_parent topology answer) w
     (fun parent w1 =>
        parent = pci_lookup topology answer /\ w_tree w1 = w_tree w
        /\ same_but_linkspeed w w1).
Proof.
  unfold pci_parent, pci_lookup. destruct answer as [res pci]. simpl.
  unfold succeeded. destruct (Z.eqb_spec res ZE_RESULT_SUCCESS) as [->|Hres].
  2:{ rewrite decide_False by done. apply wp_ret.
      split_and!; try done; apply same_but_linkspeed_refl. }
  rewrite decide_True by done.
  destruct (Nat.eqb _ NULL);
    [apply wp_ret; split_and!; try done; apply same_but_linkspeed_refl|].
  apply wp_bind, get_objs_spec. apply wp_bind, wp_lift. intros o1 Ho1.
  destruct (bool_decide _ && _).
  - apply wp_bind. unfold wp at 1, set_objs. simpl. apply wp_ret. simpl.
    split_and!; try done.
    intros q o Hq. simpl.
    destruct (decide (hwloc_pci_find_parent_by_busid (topo_pci_parents topology)
                        (pci_address pci) = q)) as [E|Hne].
    + rewrite E in *. rewrite Hq in Ho1. injection Ho1 as <-.
      exists (set_linkspeed (pci_maxBandwidth pci) o).
      rewrite deref_update_eq by by eexists. split_and!; try done;
        apply extends_set_linkspeed.
    + exists o. rewrite deref_update_ne by done. split_and!; try done; apply extends_refl.
  - apply wp_bind, wp_ret. apply wp_ret.
    split_and!; try done; apply same_but_linkspeed_refl.
Qed.

(** The first candidate that is not NULL, as the source computes it. *)
Lemma first_parent_eq topology zeh zesh :
  first_parent topology zeh zesh
  = (let ext := if topo_have_pci_ext topology
                then pci_lookup topology (zeDevicePciGetPropertiesExt zeh) else NULL in
     let p := if Nat.eqb ext NULL
              then pci_lookup topology (zesDevicePciGetProperties zesh) else ext in
     if Nat.eqb p NULL then topo_root topology else p).
Proof.
  assert (forall (a b c : nat),
            default NULL (head (filter (fun p => p <> NULL) [a; b; c]))
            = (let p := if Nat.eqb a NULL then b else a in
               if Nat.eqb p NULL then c else p)) as H3.
  { intros a b c. rewrite !filter_cons, filter_nil. cbv zeta.
    destruct (Nat.eqb_spec a NULL) as [->|Ha].
    - rewrite decide_False by (intros H; by apply H).
      destruct (Nat.eqb_spec b NULL) as [->|Hb].
      + rewrite decide_False by (intros H; by apply H).
        destruct (decide (c <> NULL)) as [Hc|Hc]; [done|].
        simpl. destruct (decide (c = NULL)); [done|]. by destruct Hc.
      + by rewrite decide_True.
    - rewrite decide_True by done. simpl. by rewrite (proj2 (Nat.eqb_neq _ _) Ha). }
  unfold first_parent. destruct (topo_have_pci_ext topology); simpl app.
  - apply H3.
  - etrans; [|apply (H3 NULL)].
    symmetry. rewrite (filter_cons _ NULL). by rewrite decide_False by (intros H; by apply H).
Qed.

(** X24: the parent a device is inserted under is the first that is not
    NULL of the PCI object found with the address of the core extension
    (when it is compiled in), the PCI object found with the address of the
    monitoring extension, and the root of the topology; on a topology with
    a root it is never NULL. Resolving it inserts nothing in the tree and
    leaves every object with its type, name, subtype and attributes: only
    a link speed is written. *)
Theorem resolve_parent_takes_first_candidate topology zeh zesh w parent w' :
  resolve_parent topology zeh zesh w = Ret parent w' ->
  parent = first_parent topology zeh zesh
  /\ (topo_root topology <> NULL -> parent <> NULL)
  /\ w_tree w' = w_tree w
  /\ same_but_linkspeed w w'.
Proof.
  intros Hrun.
  assert (wp (resolve_parent topology zeh zesh) w
            (fun parent w1 =>
               parent = first_parent topology zeh zesh /\ w_tree w1 = w_tree w
               /\ same_but_linkspeed w w1)) as Hres.
  { rewrite first_parent_eq. unfold resolve_parent.
    apply wp_bind.
    apply wp_mono with
      (Q := fun ext w1 =>
              ext = (if topo_have_pci_ext topology
                     then pci_lookup topology (zeDevicePciGetPropertiesExt zeh) else NULL)
              /\ w_tree w1 = w_tree w /\ same_but_linkspeed w w1).
    { destruct (topo_have_pci_ext topology); [apply pci_parent_result|].
      apply wp_ret. split_and!; try done; apply same_but_linkspeed_refl. }
    intros ext w1 (Hext & Ht1 & Hs1).
    apply wp_bind.
    apply wp_mono with
      (Q := fun p w2 =>
              p = (if Nat.eqb ext NULL
                   then pci_lookup topology (zesDevicePciGetProperties zesh) else ext)
              /\ w_tree w2 = w_tree w /\ same_but_linkspeed w w2).
    { destruct (Nat.eqb ext NULL); [|by apply wp_ret].
      eapply wp_mono; [apply pci_parent_result|]. intros ? w2 (? & ? & Hs2).
      split_and!; [done|congruence|by eapply same_but_linkspeed_trans]. }
    intros p w2 (Hp & Ht2 & Hs2). apply wp_ret. cbv zeta. rewrite <- Hext, <- Hp. done. }
  destruct (wp_elim _ _ _ _ _ Hres Hrun) as (Hparent & Htree & Hsame).
  split; [done|]. split; [|done].
  intros Hroot. rewrite Hparent. unfold first_parent.
  destruct (head (filter _ _)) as [p|] eqn:Hhead.
  - simpl. apply head_Some_elem_of in Hhead.
    by apply list_elem_of_filter in Hhead as [? _].
  - apply head_None in Hhead. exfalso.
    assert (topo_root topology ∈ filter (fun p : nat => p <> NULL)
              ((if topo_have_pci_ext topology
                then [pci_lookup topology (zeDevicePciGetPropertiesExt zeh)] else [])
               ++ [pci_lookup topology (zesDevicePciGetProperties zesh);
                   topo_root topology])) as Hin.
    { apply list_elem_of_filter. split; [done|]. apply elem_of_app. right.
      apply list_elem_of_further, list_elem_of_here. }
    rewrite Hhead in Hin. by apply elem_of_nil in Hin.
Qed.

(** ** The entries of the registry are distinct *)

Lemma sublist_concat (kept : list (list hwloc_obj_t)) (blocks : list block) :
  Forall2 (fun r b => r `sublist_of` units_of b) kept blocks ->
  concat kept `sublist_of` concat (map units_of blocks).
Proof.
  induction 1 as [|r b kept blocks Hrb _ IH]; [done|].
  exact (sublist_app _ _ _ _ Hrb IH).
Qed.

Lemma deref_is_Some (st : list hwloc_obj) p :
  is_Some (deref st p) <-> (0 < p <= length st)%nat.
Proof.
  destruct p as [|i]; simpl.
  - split; [by intros [? ?]|lia].
  - rewrite lookup_lt_is_Some. lia.
Qed.

(** X25: when every block handed out by the allocator reads as zeroes, so
    that a subdevice slot the code never wrote is NULL, a pass appends to
    the registry distinct objects that it has created: when the entries of
    the registry are distinct objects of the topology before the pass,
    they are distinct objects of the topology after it, so that every
    registered object has one index. *)
Theorem registry_entries_stay_distinct topology lz oarray hports w n oarray' hports' w' :
  clean_heap (w_heap w) -> wf_oarray oarray ->
  NoDup (registry oarray) ->
  Forall (fun p => is_Some (deref (w_objs w) p)) (registry oarray) ->
  hwloc__levelzero_devices_get topology lz oarray hports w = Ret (n, oarray', hports') w' ->
  NoDup (registry oarray')
  /\ Forall (fun p => is_Some (deref (w_objs w') p)) (registry oarray').
Proof.
  intros Hclean Hwf Hnodup Hold Hrun.
  destruct (wp_elim _ _ _ _ _ (devices_get_spec topology lz oarray hports w Hwf) Hrun)
    as (blocks & kept & _ & Hreg & Hsub & _ & Hunits & Hlen & _). simpl in Hreg.
  pose proof (sublist_concat _ _ Hsub) as Hsubl. rewrite (Hunits Hclean) in Hsubl.
  rewrite Hreg. split.
  - apply NoDup_app. split_and!; [done| |].
    + intros x Hx Hin.
      pose proof (proj1 (Forall_forall _ _) Hold x Hx) as Hle. simpl in Hle.
      apply deref_is_Some in Hle.
      pose proof (elem_of_sublist _ _ _ Hin Hsubl) as Hs. apply elem_of_seq in Hs. lia.
    + exact (sublist_NoDup _ _ (NoDup_seq _ _) Hsubl).
  - apply Forall_app. split.
    + eapply Forall_impl; [exact Hold|]. simpl. intros x Hx.
      apply deref_is_Some. apply deref_is_Some in Hx. lia.
    + apply Forall_forall. intros x Hin. apply deref_is_Some.
      pose proof (elem_of_sublist _ _ _ Hin Hsubl) as Hs. apply elem_of_seq in Hs. lia.
Qed.

Lemma fold_opt_count {A} (f : A -> list Z * Z -> option (list Z * Z)) (c : A -> Z) xs :
  (forall x b g b' g', x ∈ xs -> f x (b, g) = Some (b', g') -> g' = g + c x) ->
  forall b g b' g', fold_opt f xs (b, g) = Some (b', g') -> g' = g + sumZ (map c xs).
Proof.
  induction xs as [|x xs IH]; intros Hf b g b' g'; simpl.
  - intros [= <- <-]. unfold sumZ. simpl. lia.
  - destruct (f x (b, g)) as [[b1 g1]|] eqn:Hx; [|done]. simpl. intros Hrest.
    apply Hf in Hx; [|apply list_elem_of_here].
    apply IH in Hrest; [|intros; eapply Hf; [by apply list_elem_of_further|done]].
    unfold sumZ in *. simpl. lia.
Qed.

Lemma connect_pair_count st oarray pi pj b g b' g' :
  connect_pair st oarray pi pj (b, g) = Some (b', g') ->
  g' = g + (if link_matches oarray pi pj && parents_allow oarray pi pj then 1 else 0).
Proof.
  unfold connect_pair, link_matches, parents_allow, parents_registered, owner_index,
    parent_index.
  set (ii := hwloc__levelzero_osdev_array_find oarray (osdev pi)).
  set (jj := hwloc__levelzero_osdev_array_find oarray (osdev pj)).
  set (pii := hwloc__levelzero_osdev_array_find oarray (parent_osdev pi)).
  set (pjj := hwloc__levelzero_osdev_array_find oarray (parent_osdev pj)).
  destruct (port_id_eqb _ _); simpl; [|intros [= <- <-]; lia].
  destruct (deref st (osdev pi)); [|done]. destruct (deref st (osdev pj)); [|done]. simpl.
  rewrite strcmp_XeLink.
  destruct (bool_decide (c_str _ = _)); simpl; [|intros [= <- <-]; lia].
  destruct (Z.ltb_spec ii 0) as [Hin|Hip]; simpl.
  { rewrite (proj2 (Z.leb_gt 0 ii)) by lia. simpl. intros [= <- <-]; lia. }
  rewrite (proj2 (Z.leb_le 0 ii)) by lia. simpl.
  destruct (Z.ltb_spec jj 0) as [Hjn|Hjp]; simpl.
  { rewrite (proj2 (Z.leb_gt 0 jj)) by lia. simpl. intros [= <- <-]; lia. }
  rewrite (proj2 (Z.leb_le 0 jj)) by lia. simpl.
  destruct (bws_add b _ _) as [b1|]; [|done]. simpl.
  destruct (Nat.eqb (parent_osdev pi) NULL); simpl; [intros [= <- <-]; lia|].
  destruct (Nat.eqb (parent_osdev pj) NULL); simpl; [intros [= <- <-]; lia|].
  destruct (Z.ltb_spec pii 0) as [Hpin|Hpip]; simpl.
  { rewrite (proj2 (Z.leb_gt 0 pii)) by lia. simpl. intros [= <- <-]; lia. }
  rewrite (proj2 (Z.leb_le 0 pii)) by lia. simpl.
  destruct (Z.ltb_spec pjj 0) as [Hpjn|Hpjp]; simpl.
  { rewrite (proj2 (Z.leb_gt 0 pjj)) by lia. simpl. intros [= <- <-]; lia. }
  rewrite (proj2 (Z.leb_le 0 pjj)) by lia. simpl.
  destruct (bws_add b1 _ _) as [b2|]; [|done]. simpl. intros [= <- <-]; lia.
Qed.

Lemma link_qualifies_matches oarray pi pj :
  link_qualifies oarray pi pj = healthy pi && link_matches oarray pi pj.
Proof.
  unfold link_qualifies, link_matches, healthy. by rewrite !andb_assoc.
Qed.

Lemma connect_row_count st oarray hports i b g b' g' :
  Z.to_nat (hp_nr hports) = length (ports hports) ->
  connect_row st oarray hports i (b, g) = Some (b', g') ->
  g' = g + sumZ (map (fun j =>
                        if decide (i = j) then 0
                        else match ports hports !! i, ports hports !! j with
                             | Some pi, Some pj => link_counted oarray pi pj
                             | _, _ => 0
                             end)
                     (seq 0 (length (ports hports)))).
Proof.
  intros Hnr. unfold connect_row. rewrite Hnr.
  destruct (ports hports !! i) as [pi|]; [|done]. simpl.
  destruct (decide (status (state pi) = ZES_FABRIC_PORT_STATUS_HEALTHY)) as [Hh|Hh].
  - intros Hrun.
    apply (fold_opt_count _ (fun j => if decide (i = j) then 0
                                      else match ports hports !! j with
                                           | Some pj => link_counted oarray pi pj
                                           | None => 0
                                           end)) in Hrun.
    + exact Hrun.
    + intros j b0 g0 b1 g1 _. destruct (decide (i = j)); [intros [= <- <-]; lia|].
      destruct (ports hports !! j) as [pj|]; [|done]. simpl.
      intros ->%connect_pair_count. unfold link_counted.
      rewrite link_qualifies_matches. unfold healthy.
      by rewrite bool_decide_eq_true_2 by done.
  - intros [= <- <-].
    rewrite (sumZ_ext _ (fun _ => 0)); [rewrite sumZ_zero; lia|].
    intros j _. destruct (decide (i = j)); [done|].
    destruct (ports hports !! j); [|done].
    unfold link_counted. rewrite link_qualifies_matches. unfold healthy.
    by rewrite bool_decide_eq_false_2 by done.
Qed.

(** The link count of the accumulation loops is the number of ordered
    pairs of distinct captured ports whose link is counted. *)
Lemma ports_accumulate_count st oarray hports bws bws' gotbw :
  Z.to_nat (hp_nr hports) = length (ports hports) ->
  ports_accumulate st oarray hports bws = Some (bws', gotbw) ->
  gotbw = sum_links (ports hports) (link_counted oarray).
Proof.
  intros Hnr Hrun. unfold ports_accumulate in Hrun. rewrite Hnr in Hrun.
  apply (fold_opt_count _ (fun i =>
           sumZ (map (fun j =>
                        if decide (i = j) then 0
                        else match ports hports !! i, ports hports !! j with
                             | Some pi, Some pj => link_counted oarray pi pj
                             | _, _ => 0
                             end)
                     (seq 0 (length (ports hports)))))) in Hrun.
  - by rewrite Hrun.
  - intros i b g b1 g1 _. by apply connect_row_count.
Qed.

(** X26: the builder commits a matrix exactly for the links it counts. A
    link is counted when its first port is healthy, the remote identity of
    that port is the identity of the second port, the model is XeLink,
    both owners are registered and, when both ports record a parent, both
    parents are registered. When the builder returns 0, it has committed
    the dataset if some link is counted, and nothing otherwise: links
    between subdevices whose parents are not registered are accumulated in
    the matrix but give no dataset. The count is an [int] in the source:
    it is taken below 2^31. *)
Theorem matrix_committed_for_counted_links oarray hports w oarray' w' :
  Z.to_nat (hp_nr hports) = length (ports hports) ->
  sum_links (ports hports) (link_counted oarray) < 2 ^ 31 ->
  hwloc__levelzero_ports_connect oarray hports w = Ret (0, oarray') w' ->
  if sum_links (ports hports) (link_counted oarray) =? 0
  then w_distances w' = w_distances w /\ oarray' = oarray
  else exists bws, w_distances w' = w_distances w ++ [xelink_dataset oarray bws]
                   /\ objs oarray' = [].
Proof.
  intros Hnr _. unfold hwloc__levelzero_ports_connect.
  destruct (Z.eqb_spec (hp_nr hports) 0) as [Hz|Hnz].
  { intros [= <- <-]. destruct (ports hports) as [|p ps]; [done|]. simpl in Hnr. lia. }
  unfold mbind, M_bind.
  destruct (alloc_total w) as (a & w1 & Ha & Ho1 & Ht1).
  pose proof (alloc_distances _ _ _ Ha) as Hd1. rewrite Ha.
  destruct a as [|stale]; simpl; [done|].
  unfold lift, get_objs.
  destruct (ports_accumulate (w_objs w1) oarray hports _) as [[bws1 gotbw]|] eqn:Hacc; [|done].
  apply (ports_accumulate_count _ _ _ _ _ _ Hnr) in Hacc. subst gotbw. simpl.
  destruct (sum_links (ports hports) (link_counted oarray) =? 0).
  { intros [= <- <-]. by rewrite Hd1. }
  unfold mbind, M_bind. simpl.
  destruct (synthetic_fill (w_objs w1) oarray bws1) as [[bws2 landed]|]; [|done]. simpl.
  unfold hwloc__levelzero_ports_add_xelink_bandwidth, mbind, M_bind.
  destruct (backend_call_frame w1) as (b1 & wa & -> & _ & _ & Hda).
  destruct b1; simpl; [|done].
  destruct (backend_call_frame wa) as (b2 & wb & -> & _ & _ & Hdb).
  destruct b2; simpl; [|done].
  destruct (backend_call_frame wb) as (b3 & wc & -> & _ & _ & Hdc).
  destruct b3; simpl; [|done].
  intros [= <- <-]. exists bws2. simpl. split; [|done]. unfold xelink_dataset. congruence.
Qed.

(** A closed decidable proposition, by evaluation. *)
Ltac by_decide := apply (bool_decide_unpack _); vm_compute; exact I.

Lemma array_find_first_occurrence_witness :
  hwloc__levelzero_osdev_array_find tile_registry 3%nat = 1.
Proof.
  apply (array_find_first_occurrence tile_registry 3%nat [2%nat] [4%nat]).
  - simpl. lia.
  - reflexivity.
  - by_decide.
Defined.

Lemma array_find_absent_witness :
  hwloc__levelzero_osdev_array_find tile_registry 9%nat = -1 <-> 9%nat ∉ registry tile_registry.
Proof. apply (array_find_absent tile_registry 9%nat). simpl. lia. Defined.

Lemma tile_registry_wf : wf_oarray tile_registry.
Proof. unfold wf_oarray. simpl. split_and!; [lia..|reflexivity]. Defined.

Lemma array_add_appends_or_fails_witness :
  exists r a' w',
    hwloc__levelzero_osdev_array_add tile_registry 5%nat (sample_world [ENOMEM]) = Ret (r, a') w'
    /\ w_objs w' = w_objs (sample_world [ENOMEM])
    /\ w_tree w' = w_tree (sample_world [ENOMEM])
    /\ if decide (growth_fails tile_registry (sample_world [ENOMEM]))
       then r = -1 /\ a' = tile_registry
       else r = 0
            /\ registry a' = registry tile_registry ++ [5%nat]
            /\ nr a' = nr tile_registry + 1
            /\ nr_allocated a'
               = (if decide (nr_allocated tile_registry = nr tile_registry)
                  then nr_allocated tile_registry + 40
                  else nr_allocated tile_registry)
            /\ wf_oarray a'.
Proof.
  apply (array_add_appends_or_fails tile_registry 5%nat (sample_world [ENOMEM])).
  - exact tile_registry_wf.
  - simpl. lia.
Defined.

Lemma array_add_then_find_witness :
  exists a' w',
    hwloc__levelzero_osdev_array_add tile_registry 5%nat (sample_world []) = Ret (0, a') w'
    /\ (5%nat ∉ registry tile_registry -> hwloc__levelzero_osdev_array_find a' 5%nat = 3)
    /\ (forall y, y ∈ registry tile_registry ->
          hwloc__levelzero_osdev_array_find a' y
          = hwloc__levelzero_osdev_array_find tile_registry y).
Proof.
  run (hwloc__levelzero_osdev_array_add tile_registry 5%nat (sample_world [])) E.
  eexists _, _. split; [exact E|].
  refine (array_add_then_find tile_registry 5%nat (sample_world []) _ _ tile_registry_wf
            _ _ E); simpl; lia.
Defined.

Lemma uuid_attribute_faithful_witness :
  String.length (fmt_uuid (replicate 16 7)) = 32%nat
  /\ (fmt_uuid (replicate 16 7) = fmt_uuid (replicate 15 7 ++ [7]) ->
      replicate 16 7 = replicate 15 7 ++ [7]).
Proof.
  apply (uuid_attribute_faithful (replicate 16 7) (replicate 15 7 ++ [7])).
  - reflexivity.
  - reflexivity.
  - apply Forall_replicate. unfold is_byte. lia.
  - apply Forall_app. split; [apply Forall_replicate|apply Forall_singleton];
      unfold is_byte; lia.
Defined.

Lemma cqprops_get_attributes_witness :
  exists w' o',
    hwloc__levelzero_cqprops_get sample_queues 1%nat (sample_world []) = Ret tt w'
    /\ w_tree w' = w_tree (sample_world [])
    /\ (forall q, q <> 1%nat -> deref (w_objs w') q = deref (w_objs (sample_world [])) q)
    /\ deref (w_objs w') 1%nat = Some o'
    /\ obj_name o' = obj_name sample_root /\ obj_type o' = obj_type sample_root
    /\ obj_infos o'
       = obj_infos sample_root
         ++ (if decide (cqgroups_available sample_queues (sample_world []))
             then cqgroup_attributes (zeDeviceGetCommandQueueGroupProperties sample_queues).2
             else []).
Proof.
  apply (cqprops_get_attributes sample_queues 1%nat (sample_world []) sample_root).
  reflexivity.
Defined.

Lemma subdevice_module_sets_attribute_witness :
  memory_module 2%nat 2 (Some [3; 4]%nat) (sample_module 1 8192) (tile_objects, 0, 0)
  = Some (update_obj tile_objects 4%nat
            (add_info (set_name "ze0.1" sample_root) "LevelZeroHBMSize" (fmt_u 8)),
          uint64 (0 + 8), 0).
Proof.
  apply (subdevice_module_sets_attribute 2%nat 2 [3; 4]%nat (sample_module 1 8192)
           (zesMemoryGetProperties (sample_module 1 8192)).2 tile_objects 0 0 4%nat
           (set_name "ze0.1" sample_root)).
  - reflexivity.
  - reflexivity.
  - change (0 <= 1 < 2). lia.
  - reflexivity.
  - discriminate.
  - discriminate.
  - reflexivity.
  - change (8192 <> 0). lia.
Defined.

Lemma memory_get_touches_only_the_device_witness :
  exists r w',
    hwloc__levelzero_memory_get tile_zes_device 2%nat 2 (Some [3; 4]%nat) tile_world = Ret r w'
    /\ only_touches (2%nat :: subdevice_objects (Some [3; 4]%nat)) tile_world w'
    /\ length (w_objs w') = length (w_objs tile_world)
    /\ w_tree w' = w_tree tile_world.
Proof.
  run (hwloc__levelzero_memory_get tile_zes_device 2%nat 2 (Some [3; 4]%nat) tile_world) E.
  eexists _, _. split; [exact E|].
  exact (memory_get_touches_only_the_device _ _ _ _ _ _ _ E).
Defined.

Lemma tile_array_valid : valid_array (w_objs tile_world) 2 (Some [3; 4]%nat).
Proof.
  intros subs [= <-]. split; [lia|]. split; [reflexivity|].
  repeat (apply Forall_cons_2; [right; vm_compute; eexists; reflexivity|]).
  apply Forall_nil_2.
Defined.

Lemma memory_get_reports_only_enumeration_failure_witness :
  exists r w',
    hwloc__levelzero_memory_get tile_zes_device 2%nat 2 (Some [3; 4]%nat) tile_world = Ret r w'
    /\ r = (if decide ((zesDeviceEnumMemoryModules tile_zes_device).1.1 = ZE_RESULT_SUCCESS)
            then 0 else -1)
    /\ (handles_unavailable tile_zes_device tile_world -> w_objs w' = w_objs tile_world).
Proof.
  apply (memory_get_reports_only_enumeration_failure tile_zes_device 2%nat 2
           (Some [3; 4]%nat) tile_world).
  - exact tile_array_valid.
  - vm_compute. eexists. reflexivity.
Defined.

Lemma ports_get_never_overflows_witness :
  exists hports' w' new,
    hwloc__levelzero_ports_get tile_zes_device 2%nat 2 (Some [3; 4]%nat)
      hwloc__levelzero_ports_init tile_world = Ret hports' w'
    /\ ports hports' = ports hwloc__levelzero_ports_init ++ new
    /\ (length new <= length (zesDeviceEnumFabricPorts tile_zes_device).2)%nat
    /\ wf_hports hports'
    /\ w_objs w' = w_objs tile_world /\ w_tree w' = w_tree tile_world.
Proof.
  apply (ports_get_never_overflows tile_zes_device 2%nat 2 (Some [3; 4]%nat)
           hwloc__levelzero_ports_init tile_world).
  - unfold wf_hports. simpl. split_and!; [lia..|reflexivity].
  - simpl. lia.
  - reflexivity.
  - intros _. exists [3; 4]%nat. split; reflexivity.
  - repeat (apply Forall_cons_2; [unfold unsigned_subdevice; simpl; lia|]).
    apply Forall_nil_2.
Defined.

Lemma ports_get_records_owners_witness :
  exists hports' w' new,
    hwloc__levelzero_ports_get tile_zes_device 2%nat 2 (Some [3; 4]%nat)
      hwloc__levelzero_ports_init tile_world = Ret hports' w'
    /\ ports hports' = ports hwloc__levelzero_ports_init ++ new
    /\ Forall (owned_by 2%nat 2 (Some [3; 4]%nat)) new.
Proof.
  run (hwloc__levelzero_ports_get tile_zes_device 2%nat 2 (Some [3; 4]%nat)
         hwloc__levelzero_ports_init tile_world) E.
  destruct (ports_get_records_owners _ _ _ _ _ _ _ _ E) as (new & Hp & Ho).
  eexists _, _, new. split; [exact E|]. split; [exact Hp|exact Ho].
Defined.

Lemma ports_connect_commits_at_most_one_matrix_witness :
  exists r oarray' w',
    hwloc__levelzero_ports_connect tile_registry tile_ports tile_world = Ret (r, oarray') w'
    /\ w_objs w' = w_objs tile_world /\ w_tree w' = w_tree tile_world
    /\ nr oarray' = nr tile_registry
    /\ (w_distances w' = w_distances tile_world
        \/ exists bws,
             r = 0
             /\ w_distances w' = w_distances tile_world ++ [xelink_dataset tile_registry bws]
             /\ length bws = Z.to_nat (uint32 (nr tile_registry * nr tile_registry))).
Proof.
  run (hwloc__levelzero_ports_connect tile_registry tile_ports tile_world) E.
  eexists _, _, _. split; [exact E|].
  exact (ports_connect_commits_at_most_one_matrix _ _ _ _ _ _ E).
Defined.

Lemma unhealthy_ports_give_no_matrix_witness :
  exists w',
    hwloc__levelzero_ports_connect tile_registry degraded_ports tile_world
    = Ret (if decide (hp_nr degraded_ports <> 0 /\ head (w_heap tile_world) = Some ENOMEM)
           then -1 else 0, tile_registry) w'
    /\ w_distances w' = w_distances tile_world /\ w_objs w' = w_objs tile_world
    /\ w_tree w' = w_tree tile_world.
Proof.
  apply (unhealthy_ports_give_no_matrix tile_registry degraded_ports tile_world).
  - reflexivity.
  - repeat (apply Forall_cons_2; [simpl; discriminate|]). apply Forall_nil_2.
Defined.

Lemma synthetic_fill_sets_diagonal_witness :
  exists bws' landed,
    synthetic_fill tile_objects tile_registry (replicate 9 0) = Some (bws', landed)
    /\ forall k, 0 <= k < nr tile_registry ->
         bws' !! Z.to_nat (k * nr tile_registry + k) = Some LOCAL_BANDWIDTH.
Proof.
  assert (landing_indexes tile_objects tile_registry = [0]) as Hl by (vm_compute; reflexivity).
  apply (synthetic_fill_sets_diagonal tile_objects tile_registry (replicate 9 0)).
  - simpl; lia.
  - simpl; lia.
  - reflexivity.
  - rewrite Hl. intros i Hi. apply list_elem_of_singleton in Hi. subst i.
    exists 2. split; [vm_compute; reflexivity|simpl; lia].
Defined.

Lemma devices_get_counts_insertions_witness :
  exists n oarray' hports' w',
    hwloc__levelzero_devices_get sample_topology tile_level_zero
      hwloc__levelzero_osdev_array_init hwloc__levelzero_ports_init (sample_world [])
    = Ret (n, oarray', hports') w'
    /\ insertions (sample_world []) w' = 3
    /\ w_tree (sample_world []) `prefix_of` w_tree w'
    /\ (insertions (sample_world []) w' < 2 ^ 31 -> n = insertions (sample_world []) w').
Proof.
  run (hwloc__levelzero_devices_get sample_topology tile_level_zero
         hwloc__levelzero_osdev_array_init hwloc__levelzero_ports_init (sample_world [])) E.
  eexists _, _, _, _. split; [exact E|]. split; [reflexivity|].
  exact (devices_get_counts_insertions _ _ _ _ _ _ _ _ _ E).
Defined.

Lemma no_distances_flag_captures_no_port_witness :
  exists n oarray' hports' w',
    hwloc__levelzero_devices_get quiet_topology tile_level_zero
      hwloc__levelzero_osdev_array_init hwloc__levelzero_ports_init (sample_world [])
    = Ret (n, oarray', hports') w'
    /\ hports' = hwloc__levelzero_ports_init.
Proof.
  run (hwloc__levelzero_devices_get quiet_topology tile_level_zero
         hwloc__levelzero_osdev_array_init hwloc__levelzero_ports_init (sample_world [])) E.
  eexists _, _, _, _. split; [exact E|].
  exact (no_distances_flag_captures_no_port quiet_topology _ _ _ _ _ _ _ _ eq_refl E).
Defined.

Lemma discover_tags_backend_when_objects_were_inserted_witness :
  exists r infos' w',
    hwloc_levelzero_discover (sample_backend sample_topology) tile_runtime
      HWLOC_DISC_PHASE_IO [] (sample_world []) = Ret (r, infos') w'
    /\ insertions (sample_world []) w' = 3
    /\ r = 0
    /\ w_tree (sample_world []) `prefix_of` w_tree w'
    /\ (insertions (sample_world []) w' < 2 ^ 31 ->
        infos' = [] ++ (if decide (0 < insertions (sample_world []) w')
                        then backend_tag else [])).
Proof.
  run (hwloc_levelzero_discover (sample_backend sample_topology) tile_runtime
         HWLOC_DISC_PHASE_IO [] (sample_world [])) E.
  eexists _, _, _. split; [exact E|]. split; [reflexivity|].
  exact (discover_tags_backend_when_objects_were_inserted _ _ _ _ _ _ _ _ E).
Defined.

Lemma discover_without_distances_commits_nothing_witness :
  exists r infos' w',
    hwloc_levelzero_discover (sample_backend quiet_topology) tile_runtime
      HWLOC_DISC_PHASE_IO [] (sample_world []) = Ret (r, infos') w'
    /\ w_distances w' = w_distances (sample_world []).
Proof.
  run (hwloc_levelzero_discover (sample_backend quiet_topology) tile_runtime
         HWLOC_DISC_PHASE_IO [] (sample_world [])) E.
  eexists _, _, _. split; [exact E|].
  exact (discover_without_distances_commits_nothing (sample_backend quiet_topology)
           _ _ _ _ _ _ _ eq_refl E).
Defined.

Lemma subdevice_count_round_trip_witness :
  recorded_subdevices [add_info sample_root "LevelZeroSubdevices" (fmt_u 2)] 1%nat = Some 2.
Proof.
  apply (subdevice_count_round_trip [sample_root] 1%nat sample_root 2).
  - reflexivity.
  - reflexivity.
  - lia.
  - reflexivity.
Defined.

Lemma devices_get_keeps_existing_objects_witness :
  exists n oarray' hports' w' o',
    hwloc__levelzero_devices_get sample_topology tile_level_zero
      hwloc__levelzero_osdev_array_init hwloc__levelzero_ports_init (sample_world [])
    = Ret (n, oarray', hports') w'
    /\ deref (w_objs w') 1%nat = Some o' /\ extends sample_root o'.
Proof.
  run (hwloc__levelzero_devices_get sample_topology tile_level_zero
         hwloc__levelzero_osdev_array_init hwloc__levelzero_ports_init (sample_world [])) E.
  destruct (devices_get_keeps_existing_objects _ _ _ _ _ _ _ _ _ 1%nat sample_root E eq_refl)
    as (o' & Ho' & He').
  eexists _, _, _, _, o'. split; [exact E|]. split; [exact Ho'|exact He'].
Defined.

Lemma discover_device_creates_named_device_witness :
  exists s' w',
    discover_device sample_topology tile_zes_driver 0 0 tile_device first_pass_state
      (sample_world []) = Ret s' w'
    /\ ps_zeidx s' = uint32 (ps_zeidx first_pass_state + 1)
    /\ exists o parent,
         deref (w_objs w') (S (length (w_objs (sample_world [])))) = Some o
         /\ obj_type o = HWLOC_OBJ_OS_DEVICE
         /\ obj_name o = ("ze" +:+ fmt_u (ps_zeidx first_pass_state))%string
         /\ obj_subtype o = "LevelZero"%string
         /\ ([("LevelZeroDriverIndex", fmt_u 0); ("LevelZeroDriverDeviceIndex", fmt_u 0)]%string
             ++ core_attributes (zeDeviceGetProperties (ze_core tile_device)).2)
            `prefix_of` obj_infos o
         /\ (parent, S (length (w_objs (sample_world [])))) ∈ w_tree w'.
Proof.
  run (discover_device sample_topology tile_zes_driver 0 0 tile_device first_pass_state
         (sample_world [])) E.
  eexists _, _. split; [exact E|].
  exact (discover_device_creates_named_device sample_topology tile_zes_driver 0 0 tile_device
           first_pass_state (sample_world []) _ _
           (zeDeviceGetProperties (ze_core tile_device)).2 tile_zes_device
           eq_refl eq_refl E).
Defined.

Lemma discover_subdevice_creates_named_subdevice_witness :
  exists slots' w',
    discover_subdevice tile_zes_driver 0 1 (sample_core 0 ZE_DEVICE_PROPERTY_FLAG_SUBDEVICE 8) [NULL; NULL] tile_world
    = Ret slots' w'
    /\ slots' = <[Z.to_nat 1 := S (length (w_objs tile_world))]> [NULL; NULL]
    /\ exists o,
         deref (w_objs w') (S (length (w_objs tile_world))) = Some o
         /\ obj_type o = HWLOC_OBJ_OS_DEVICE
         /\ obj_name o = ("ze" +:+ fmt_u 0 +:+ "." +:+ fmt_u 1)%string
         /\ obj_subtype o = "LevelZero"%string
         /\ ([("LevelZeroSubdeviceID", fmt_u 1)]%string
             ++ core_attributes (zeDeviceGetProperties (sample_core 0 ZE_DEVICE_PROPERTY_FLAG_SUBDEVICE 8)).2)
            `prefix_of` obj_infos o.
Proof.
  run (discover_subdevice tile_zes_driver 0 1 (sample_core 0 ZE_DEVICE_PROPERTY_FLAG_SUBDEVICE 8) [NULL; NULL] tile_world) E.
  eexists _, _. split; [exact E|].
  exact (discover_subdevice_creates_named_subdevice tile_zes_driver 0 1 (sample_core 0 ZE_DEVICE_PROPERTY_FLAG_SUBDEVICE 8)
           [NULL; NULL] tile_world _ _ (zeDeviceGetProperties (sample_core 0 ZE_DEVICE_PROPERTY_FLAG_SUBDEVICE 8)).2
           (sample_zes_device [] []) eq_refl eq_refl E).
Defined.

Lemma resolve_parent_takes_first_candidate_witness :
  exists parent w',
    resolve_parent pci_topology tile_device pci_zes_device pci_world = Ret parent w'
    /\ parent = 2%nat
    /\ parent = first_parent pci_topology tile_device pci_zes_device
    /\ (topo_root pci_topology <> NULL -> parent <> NULL)
    /\ w_tree w' = w_tree pci_world
    /\ same_but_linkspeed pci_world w'.
Proof.
  run (resolve_parent pci_topology tile_device pci_zes_device pci_world) E.
  eexists _, _. split; [exact E|]. split; [reflexivity|].
  exact (resolve_parent_takes_first_candidate _ _ _ _ _ _ E).
Defined.

Lemma registry_entries_stay_distinct_witness :
  clean_heap (w_heap (sample_world []))
  /\ exists n oarray' hports' w',
       hwloc__levelzero_devices_get sample_topology tile_level_zero
         hwloc__levelzero_osdev_array_init hwloc__levelzero_ports_init (sample_world [])
       = Ret (n, oarray', hports') w'
       /\ registry oarray' = [2; 3; 4]%nat
       /\ NoDup (registry oarray')
       /\ Forall (fun p => is_Some (deref (w_objs w') p)) (registry oarray').
Proof.
  assert (clean_heap (w_heap (sample_world []))) as Hc by constructor.
  assert (wf_oarray hwloc__levelzero_osdev_array_init) as Hwf
    by (unfold wf_oarray; simpl; lia).
  split; [exact Hc|].
  run (hwloc__levelzero_devices_get sample_topology tile_level_zero
         hwloc__levelzero_osdev_array_init hwloc__levelzero_ports_init (sample_world [])) E.
  eexists _, _, _, _. split; [exact E|]. split; [reflexivity|].
  exact (registry_entries_stay_distinct sample_topology tile_level_zero _ _ _ _ _ _ _
           Hc Hwf (NoDup_nil_2 : NoDup (registry hwloc__levelzero_osdev_array_init))
           (Forall_nil_2 _) E).
Defined.

Lemma matrix_committed_for_counted_links_witness :
  sum_links (ports tile_ports) (link_counted tile_registry) = 2
  /\ exists oarray' w',
       hwloc__levelzero_ports_connect tile_registry tile_ports tile_world = Ret (0, oarray') w'
       /\ if sum_links (ports tile_ports) (link_counted tile_registry) =? 0
          then w_distances w' = w_distances tile_world /\ oarray' = tile_registry
          else exists bws,
                 w_distances w' = w_distances tile_world ++ [xelink_dataset tile_registry bws]
                 /\ objs oarray' = [].
Proof.
  split; [vm_compute; reflexivity|].
  run (hwloc__levelzero_ports_connect tile_registry tile_ports tile_world) E.
  eexists _, _. split; [exact E|].
  exact (matrix_committed_for_counted_links tile_registry tile_ports tile_world _ _
           eq_refl eq_refl E).
Defined.
